(** * uniswap-trader: the paper-trading core, embedded and verified

  A shallow embedding of the decision-and-accounting core of the
  repository: the virtual wallet and ledger ([paper_trader.py]), the risk
  manager ([risk.py]), the consensus aggregator and the mean-reversion
  strategy ([strategies.py]) and the adaptive single-asset trader
  ([auto_paper_trader.py]).

  Conventions of the embedding.
  - A Python [float] is embedded twice.  Where only the control flow, the
    sign or the order of amounts matters it is an exact rational ([Q]),
    with [Qeq] ([==]) for equality.  Where a statement depends on the
    value to the last bit it is a binary64 number ([PrimFloat]); the
    modules whose names end in [64] are the same code over binary64.
    Division follows the host: Python's [/] raises [ZeroDivisionError] on
    a zero divisor ([py_div]); numpy's scalar [/] yields [nan] or an
    infinity instead.
  - A Python [dict] keyed by strings is a [gmap string _]; a missing key
    read with [d[k]] raises [KeyError], [d.get(k, v)] defaults.
  - A method that mutates [self] returns the new object next to its
    outcome; an exception leaves whatever was mutated before it was raised.
  - [datetime.now()] is an argument ([now]).
  - The call stack is finite: a method that calls itself through [self]
    carries the number of frames left and raises [RecursionError] at 0. *)

From Stdlib Require Import PrimFloat FloatAxioms SpecFloat FloatOps.
From Stdlib Require Uint63.
From Stdlib Require Import QArith Qminmax Qabs Lqa Lia ZArith String Ascii List Bool.
From stdpp Require Import gmap strings list fin_maps.

Local Open Scope Q_scope.

(** ** Python values and control flow *)

Module Py.

Inductive exn : Type :=
| ValueError
| KeyError
| IndexError
| TypeError
| AttributeError
| ZeroDivisionError
| RecursionError
| ExternalError (code : nat).

Inductive result (A : Type) : Type :=
| Ok (a : A)
| Raise (e : exn).
Arguments Ok {A} a.
Arguments Raise {A} e.

Definition bind {A B : Type} (r : result A) (k : A -> result B) : result B :=
  match r with
  | Ok a => k a
  | Raise e => Raise e
  end.

Definition is_ok {A : Type} (r : result A) : bool :=
  match r with Ok _ => true | Raise _ => false end.

Definition Time := nat.

(** Comparisons of floats. *)
Definition Qltb (x y : Q) : bool := negb (Qle_bool y x).
Definition Qleb (x y : Q) : bool := Qle_bool x y.
Definition Qgtb (x y : Q) : bool := Qltb y x.
Definition Qgeb (x y : Q) : bool := Qle_bool y x.

(** Truthiness of a number: [if x:] holds unless [x] is zero. *)
Definition truthy (x : Q) : bool := negb (Qeq_bool x 0).

(** [a / b] on Python floats. *)
Definition py_div (a b : Q) : result Q :=
  if Qeq_bool b 0 then Raise ZeroDivisionError else Ok (a / b).

(** [str.upper()] on ASCII symbols. *)
Definition upper_ascii (c : ascii) : ascii :=
  let n := nat_of_ascii c in
  if ((97 <=? n) && (n <=? 122))%nat then ascii_of_nat (n - 32) else c.

Fixpoint upper (s : string) : string :=
  match s with
  | EmptyString => EmptyString
  | String c s' => String (upper_ascii c) (upper s')
  end.

End Py.

Import Py.

Notation "x <- c1 ;; c2" := (Py.bind c1 (fun x => c2))
(at level 100, c1 at next level, right associativity).

(** ** paper_trader.py: PaperWallet *)

Module PaperWallet.

(** The record of a swap; the constant entries (from, to, status) are left
    out. *)
Record TxInfo : Type := mkTx {
  tx_hash : nat;            (* len(self.tx_history) when the swap was recorded *)
  tx_token_in : string;
  tx_token_out : string;
  tx_amount_in : Q;
  tx_amount_out : Q;
  tx_gas_cost : Q;
  tx_timestamp : Time
}.

Record t : Type := mk {
  balances : gmap string Q;
  tx_history : list TxInfo
}.

(** [PaperWallet.__init__] *)
Definition init (initial_eth initial_usdc : Q) : t :=
  {| balances :=
       <["ETH" := initial_eth]>
         (<["WETH" := 0]>
            (<["USDC" := initial_usdc]>
               (<["USDT" := 0]> (<["DAI" := 0]> ∅))));
     tx_history := [] |}.

(** [self.balances.get(k, 0)] *)
Definition bal_get (b : gmap string Q) (k : string) : Q := default 0 (b !! k).

Definition get_balance (w : t) (token : string) : Q :=
  bal_get (balances w) (upper token).

Definition set_balance (w : t) (token : string) (amount : Q) : t :=
  {| balances := <[upper token := amount]> (balances w);
     tx_history := tx_history w |}.

(** [PaperWallet.total_usd]: ETH and WETH are booked at a fixed 3000 USD. *)
Definition total_usd (w : t) : Q :=
  let eth_value := bal_get (balances w) "ETH" * 3000 in
  let weth_value := bal_get (balances w) "WETH" * 3000 in
  let usdc_value := bal_get (balances w) "USDC" in
  let usdt_value := bal_get (balances w) "USDT" in
  let dai_value := bal_get (balances w) "DAI" in
  eth_value + weth_value + usdc_value + usdt_value + dai_value.

Definition gas_cost : Q := 0.01.

(** The gas is paid unless one side of the swap is ETH. *)
Definition pays_gas (token_in token_out : string) : bool :=
  negb (String.eqb (upper token_in) "ETH") && negb (String.eqb (upper token_out) "ETH").

(** [PaperWallet.transfer] *)
Definition transfer (w : t) (token_in token_out : string)
    (amount_in simulated_price : Q) (now : Time)
  : result (Q * Q * TxInfo) * t :=
  let balance_in := get_balance w token_in in
  if Qgtb amount_in balance_in then (Raise ValueError, w)
  else
    let amount_out := amount_in * simulated_price in
    match balances w !! upper token_in with
    | None => (Raise KeyError, w)
    | Some b_in =>
      let bal1 := <[upper token_in := b_in - amount_in]> (balances w) in
      let bal2 := <[upper token_out := bal_get bal1 (upper token_out) + amount_out]> bal1 in
      let record (bal : gmap string Q) :=
        let tx_info :=
          {| tx_hash := length (tx_history w);
             tx_token_in := token_in;
             tx_token_out := token_out;
             tx_amount_in := amount_in;
             tx_amount_out := amount_out;
             tx_gas_cost := gas_cost;
             tx_timestamp := now |} in
        (Ok (amount_out, gas_cost, tx_info),
         {| balances := bal; tx_history := tx_history w ++ [tx_info] |}) in
      if pays_gas token_in token_out then
        match bal2 !! "ETH" with
        | None => (Raise KeyError, {| balances := bal2; tx_history := tx_history w |})
        | Some e => record (<["ETH" := e - gas_cost]> bal2)
        end
      else record bal2
    end.

(** Mark-to-market value of the wallet under a price table: the sum over
    the held tokens of quantity times price (cash is the token priced 1). *)
Definition holdings_value (price : string -> Q) (b : gmap string Q) : Q :=
  map_fold (fun k q acc => acc + q * price k) 0 b.

Definition portfolio_value (price : string -> Q) (w : t) : Q :=
  holdings_value price (balances w).

(** The price table that [total_usd] hard-codes. *)
Definition book_price (k : string) : Q :=
  if String.eqb k "ETH" then 3000
  else if String.eqb k "WETH" then 3000
  else if String.eqb k "USDC" then 1
  else if String.eqb k "USDT" then 1
  else if String.eqb k "DAI" then 1
  else 0.

End PaperWallet.

(** ** market_data.py: the provider as the risk manager and the ledger see it *)

Module MarketData.

(** The queries the core makes.  The provider is networked: a query is a
    value of the current snapshot, and the ones that can fail say so. *)
Record t : Type := mk {
  get_current_price : string -> Q;
  get_volatility : string -> result (option Q);
  get_volume : string -> result Q;
  get_market_cap : string -> result Q
}.

(** [MarketDataProvider.get_volume] and [get_market_cap] as written: the
    price is a float, truthy when not zero, and a float has neither a
    [volume_24h] nor a [market_cap] attribute. *)
Definition provider_get_volume (price : string -> Q) (token : string) : result Q :=
  if truthy (price token) then Raise AttributeError else Ok 0.

Definition provider_get_market_cap (price : string -> Q) (token : string) : result Q :=
  if truthy (price token) then Raise AttributeError else Ok 0.

(** [MarketDataProvider] over a snapshot of prices and volatilities. *)
Definition provider (price : string -> Q) (vol : string -> option Q) : t :=
  {| get_current_price := price;
     get_volatility := fun token => Ok (vol token);
     get_volume := provider_get_volume price;
     get_market_cap := provider_get_market_cap price |}.

End MarketData.

(** ** risk.py: RiskManager *)

Module Risk.

Inductive RiskLevel : Type := LOW | MEDIUM | HIGH.

Inductive PositionType : Type := Long | Short.

Record RiskMetrics : Type := mkMetrics {
  risk_score : Z;
  risk_level : RiskLevel;
  max_position_size : Q;
  recommended_stop_loss : Q;
  recommended_take_profit : Q;
  volatility : Q;
  liquidity_risk : bool;
  smart_contract_risk : bool;
  market_impact : Q
}.

(** config.py, [RISK_CONFIG] *)
Definition cfg_max_position_size_percent : Q := 0.10.
Definition cfg_stop_loss_percent : Q := 5.0.
Definition cfg_take_profit_percent : Q := 15.0.
Definition cfg_daily_loss_limit_percent : Q := 10.0.
Definition cfg_max_open_positions : nat := 5.

(** A position as [RiskManager.open_position] records it. *)
Record OpenPosition : Type := mkOpen {
  op_type : PositionType;
  op_size : Q;
  op_entry_price : Q;
  op_stop_loss : Q;
  op_take_profit : Q;
  op_confidence : Q
}.

(** The attributes the methods below read; the daily counters and the
    manager's own trade history are left out. *)
Record RiskManager : Type := mkRM {
  initial_portfolio_value : Q;
  current_portfolio_value : Q;
  daily_start_value : Q;
  daily_loss_limit : Q;
  daily_highest_value : Q;
  max_open_positions : nat;
  max_position_percent : Q;
  emergency_stop_active : bool;
  emergency_stop_reason : option string;
  positions : gmap string OpenPosition
}.

(** [RiskManager.__init__] *)
Definition init (initial_portfolio_value : Q) : RiskManager :=
  {| initial_portfolio_value := initial_portfolio_value;
     current_portfolio_value := initial_portfolio_value;
     daily_start_value := initial_portfolio_value;
     daily_loss_limit := cfg_daily_loss_limit_percent / 100;
     daily_highest_value := initial_portfolio_value;
     max_open_positions := cfg_max_open_positions;
     max_position_percent := cfg_max_position_size_percent;
     emergency_stop_active := false;
     emergency_stop_reason := None;
     positions := ∅ |}.

(** The reason returned next to the verdict of [can_open_position]. *)
Inductive Reason : Type :=
| EmergencyStopActive (why : option string)
| MaxPositionsReached (limit : nat)
| DailyLossLimitReached
| PositionSizeExceedsMax (size max : Q)
| HighRiskLowConfidence
| PositionAllowed.

Definition is_high (l : RiskLevel) : bool :=
  match l with HIGH => true | _ => false end.

(** The methods below call [self.assess_token_risk]; the callee is bound
    when the call is made, so they are written over it. *)
Section Methods.

Variable assess_token_risk : string -> result RiskMetrics.

(** [RiskManager.can_open_position] *)
Definition can_open_position (rm : RiskManager) (token : string)
    (position_size confidence : Q) : result (bool * Reason) :=
  if emergency_stop_active rm then
    Ok (false, EmergencyStopActive (emergency_stop_reason rm))
  else if (max_open_positions rm <=? size (positions rm))%nat then
    Ok (false, MaxPositionsReached (max_open_positions rm))
  else
    let daily_pnl := current_portfolio_value rm - daily_start_value rm in
    let daily_pnl_percent :=
      if Qgtb (daily_start_value rm) 0 then daily_pnl / daily_start_value rm else 0 in
    if Qltb daily_pnl_percent (- daily_loss_limit rm) then
      Ok (false, DailyLossLimitReached)
    else
      let max_position_value := current_portfolio_value rm * max_position_percent rm in
      if Qgtb position_size max_position_value then
        Ok (false, PositionSizeExceedsMax position_size max_position_value)
      else
        risk_metrics <- assess_token_risk token ;;
        if is_high (risk_level risk_metrics) && Qltb confidence 0.8 then
          Ok (false, HighRiskLowConfidence)
        else Ok (true, PositionAllowed).

(** [RiskManager.calculate_position_size] *)
Definition calculate_position_size (rm : RiskManager) (token : string)
    (confidence : Q) (portfolio_value : option Q) : result Q :=
  let portfolio_value :=
    match portfolio_value with
    | None => current_portfolio_value rm
    | Some v => v
    end in
  risk <- assess_token_risk token ;;
  let base_size := portfolio_value * max_position_percent rm in
  let confidence_adjustment := confidence in
  let risk_adjustment :=
    match risk_level risk with
    | HIGH => 0.5
    | MEDIUM => 0.75
    | LOW => 1.0
    end in
  let volatility_adjustment :=
    if truthy (volatility risk) then
      if Qgtb (volatility risk) 1.0 then 0.5
      else if Qgtb (volatility risk) 0.5 then 0.75
      else 1.0
    else 1.0 in
  let position_size :=
    base_size * confidence_adjustment * risk_adjustment * volatility_adjustment in
  let min_size := 100 in
  Ok (if Qltb position_size min_size then min_size else position_size).

(** The stop percentage after the volatility scaling and the 20% cap. *)
Definition capped_stop_pct (vol : Q) : Q :=
  let base_stop_pct := cfg_stop_loss_percent / 100 in
  let base_stop_pct :=
    if truthy vol && Qgtb vol 0.5 then base_stop_pct * (vol * 2) else base_stop_pct in
  let max_stop_pct := 0.20 in
  Qmin base_stop_pct max_stop_pct.

(** [RiskManager.calculate_stop_loss] *)
Definition calculate_stop_loss (token : string) (entry_price : Q)
    (position_type : PositionType) (confidence : Q) : result Q :=
  risk <- assess_token_risk token ;;
  let confidence_stop_multiplier := 1.0 + (1 - confidence) * 0.5 in
  let base_stop_pct := capped_stop_pct (volatility risk) in
  match position_type with
  | Long => Ok (entry_price * (1 - base_stop_pct * confidence_stop_multiplier))
  | Short => Ok (entry_price * (1 + base_stop_pct * confidence_stop_multiplier))
  end.

End Methods.

(** [RiskManager.calculate_take_profit] *)
Definition calculate_take_profit (token : string) (entry_price : Q)
    (position_type : PositionType) (confidence : Q) : Q :=
  let base_tp_pct := cfg_take_profit_percent / 100 in
  let confidence_tp_multiplier := 1.0 + confidence * 0.5 in
  match position_type with
  | Long => entry_price * (1 + base_tp_pct * confidence_tp_multiplier)
  | Short => entry_price * (1 - base_tp_pct * confidence_tp_multiplier)
  end.

(** The body of [RiskManager.assess_token_risk]; its last step calls
    [self.calculate_position_size(token, 0.5)]. *)
Definition assess_token_risk_body (md : MarketData.t)
    (self_calculate_position_size : string -> Q -> result Q)
    (token : string) : result RiskMetrics :=
  volatility <- MarketData.get_volatility md token ;;
  volume <- MarketData.get_volume md token ;;
  market_cap <- MarketData.get_market_cap md token ;;
  let risk_score := 0%Z in
  let risk_score :=
    match volatility with
    | Some v =>
      if truthy v then
        if Qgtb v 2.0 then (risk_score + 40)%Z
        else if Qgtb v 1.0 then (risk_score + 30)%Z
        else if Qgtb v 0.5 then (risk_score + 20)%Z
        else (risk_score + 10)%Z
      else risk_score
    | None => risk_score
    end in
  let '(risk_score, liquidity_risk) :=
    if Qltb market_cap 1000000 then ((risk_score + 30)%Z, true)
    else if Qltb market_cap 10000000 then ((risk_score + 20)%Z, true)
    else (risk_score, false) in
  let risk_score :=
    if Qltb volume 10000 then (risk_score + 20)%Z
    else if Qltb volume 100000 then (risk_score + 10)%Z
    else risk_score in
  let smart_contract_risk := false in
  let market_impact := 0.001 in
  let risk_level :=
    if (60 <=? risk_score)%Z then HIGH
    else if (30 <=? risk_score)%Z then MEDIUM
    else LOW in
  max_position_size <- self_calculate_position_size token 0.5 ;;
  Ok {| risk_score := risk_score;
        risk_level := risk_level;
        max_position_size := max_position_size;
        recommended_stop_loss := 0;
        recommended_take_profit := 0;
        volatility :=
          match volatility with
          | Some v => if truthy v then v else 0.5
          | None => 0.5
          end;
        liquidity_risk := liquidity_risk;
        smart_contract_risk := smart_contract_risk;
        market_impact := market_impact |}.

(** [RiskManager.assess_token_risk] with [frames] stack frames left:
    [assess_token_risk] calls [calculate_position_size], which calls
    [assess_token_risk]. *)
Fixpoint assess_token_risk (frames : nat) (md : MarketData.t) (rm : RiskManager)
    (token : string) : result RiskMetrics :=
  match frames with
  | O => Raise RecursionError
  | S frames' =>
    assess_token_risk_body md
      (fun t c => calculate_position_size (assess_token_risk frames' md rm) rm t c None)
      token
  end.

End Risk.

(** ** paper_trader.py: PaperTrader *)

Module PaperTrader.

Record Position : Type := mkPosition {
  token : string;
  ptype : Risk.PositionType;
  size_usd : Q;
  token_amount : Q;
  entry_price : Q;
  entry_time : Time;
  stop_loss : Q;
  take_profit : Q;
  confidence : Q;
  entry_tx : PaperWallet.TxInfo
}.

(** A closed trade: the position as it stood at the close, and the exit. *)
Record Trade : Type := mkTrade {
  closed : Position;
  exit_price : Q;
  exit_time : Time;
  exit_tx : PaperWallet.TxInfo;
  pnl : Q;
  pnl_percent : Q;
  close_reason : string
}.

Record t : Type := mk {
  wallet : PaperWallet.t;
  risk_manager : Risk.RiskManager;
  positions : gmap string Position;
  trade_history : list Trade;
  start_value : Q;
  highest_value : Q;
  lowest_value : Q
}.

(** [PaperTrader.__init__] *)
Definition init (initial_eth initial_usdc : Q) : t :=
  let w := PaperWallet.init initial_eth initial_usdc in
  {| wallet := w;
     risk_manager := Risk.init (PaperWallet.total_usd w);
     positions := ∅;
     trade_history := [];
     start_value := PaperWallet.total_usd w;
     highest_value := PaperWallet.total_usd w;
     lowest_value := PaperWallet.total_usd w |}.

(** What an order returns: the dictionaries of [execute_buy],
    [execute_sell] and [execute_swap], by shape. *)
Inductive Order : Type :=
| RiskCheckFailed (reason : Risk.Reason)
| InvalidPrice (token : string)
| NoPosition (token : string)
| Caught (e : exn)
| Bought (token : string) (amount price total_usd gas_cost : Q) (position : Position)
| Sold (token : string) (amount price total_usd gas_cost remaining_position : Q)
| Swapped (token_in token_out : string)
    (amount_in amount_out price_in price_out gas_cost : Q) (tx : PaperWallet.TxInfo).

(** The ["success"] entry of the returned dictionary. *)
Definition success (o : Order) : bool :=
  match o with
  | Bought _ _ _ _ _ _ | Sold _ _ _ _ _ _ | Swapped _ _ _ _ _ _ _ _ => true
  | _ => false
  end.

Definition with_wallet (pt : t) (w : PaperWallet.t) : t :=
  {| wallet := w;
     risk_manager := risk_manager pt;
     positions := positions pt;
     trade_history := trade_history pt;
     start_value := start_value pt;
     highest_value := highest_value pt;
     lowest_value := lowest_value pt |}.

Section Methods.

Variable md : MarketData.t.

(** [self.risk_manager.assess_token_risk], as bound when the order runs. *)
Variable assess_token_risk : string -> result Risk.RiskMetrics.

Definition get_token_price (token : string) : Q :=
  MarketData.get_current_price md token.

(** [PaperTrader.execute_buy].  An exception raised before the [try]
    leaves the method; one raised inside it is caught and reported. *)
Definition execute_buy (pt : t) (token : string) (amount_usd confidence : Q)
    (now : Time) : result Order * t :=
  match Risk.can_open_position assess_token_risk (risk_manager pt)
          token amount_usd confidence with
  | Raise e => (Raise e, pt)
  | Ok (false, reason) => (Ok (RiskCheckFailed reason), pt)
  | Ok (true, _) =>
    let price := get_token_price token in
    if Qleb price 0 then (Ok (InvalidPrice token), pt)
    else
      let token_amount := amount_usd / price in
      match Risk.calculate_position_size assess_token_risk (risk_manager pt)
              token confidence None with
      | Raise e => (Raise e, pt)
      | Ok position_size =>
        (* try: *)
        match PaperWallet.transfer (wallet pt) "USDC" token amount_usd (1 / price) now with
        | (Raise e, w') => (Ok (Caught e), with_wallet pt w')
        | (Ok (token_out, gas_cost, tx_info), w') =>
          match Risk.calculate_stop_loss assess_token_risk token price Risk.Long confidence with
          | Raise e => (Ok (Caught e), with_wallet pt w')
          | Ok stop =>
            let position :=
              {| token := token;
                 ptype := Risk.Long;
                 size_usd := amount_usd;
                 token_amount := token_out;
                 entry_price := price;
                 entry_time := now;
                 stop_loss := stop;
                 take_profit := Risk.calculate_take_profit token price Risk.Long confidence;
                 confidence := confidence;
                 entry_tx := tx_info |} in
            let current_value := PaperWallet.total_usd w' in
            (Ok (Bought token token_out price amount_usd gas_cost position),
             {| wallet := w';
                risk_manager := risk_manager pt;
                positions := <[token := position]> (positions pt);
                trade_history := trade_history pt;
                start_value := start_value pt;
                highest_value :=
                  if Qgtb current_value (highest_value pt) then current_value
                  else highest_value pt;
                lowest_value :=
                  if Qltb current_value (lowest_value pt) then current_value
                  else lowest_value pt |})
          end
        end
      end
  end.

(** [PaperTrader.execute_sell] *)
Definition execute_sell (pt : t) (token : string) (amount_percent : Q)
    (now : Time) : result Order * t :=
  match positions pt !! token with
  | None => (Ok (NoPosition token), pt)
  | Some position =>
    let sell_amount := token_amount position * amount_percent in
    let sell_percent := size_usd position * amount_percent in
    let current_price := get_token_price token in
    (* try: *)
    match py_div 1 current_price with
    | Raise e => (Ok (Caught e), pt)
    | Ok simulated_price =>
      match PaperWallet.transfer (wallet pt) token "USDC" sell_amount current_price now with
      | (Raise e, w') => (Ok (Caught e), with_wallet pt w')
      | (Ok (usdc_out, gas_cost, tx_info), w') =>
        let position' :=
          {| token := PaperTrader.token position;
             ptype := ptype position;
             size_usd := size_usd position - sell_percent;
             token_amount := token_amount position - sell_amount;
             entry_price := entry_price position;
             entry_time := entry_time position;
             stop_loss := stop_loss position;
             take_profit := take_profit position;
             confidence := confidence position;
             entry_tx := entry_tx position |} in
        if Qltb (token_amount position') 0.0001 || Qgeb amount_percent 1.0 then
          let entry_value :=
            if Qltb amount_percent 1 then size_usd position' / (1 - amount_percent)
            else size_usd position' in
          let exit_value := sell_percent in
          let pnl := exit_value - entry_value in
          let pnl_percent := if Qgtb entry_value 0 then (pnl / entry_value) * 100 else 0 in
          let trade :=
            {| closed := position';
               exit_price := current_price;
               exit_time := now;
               exit_tx := tx_info;
               pnl := pnl;
               pnl_percent := pnl_percent;
               close_reason := "manual" |} in
          (Ok (Sold token sell_amount current_price sell_percent gas_cost
                 (token_amount position')),
           {| wallet := w';
              risk_manager := risk_manager pt;
              positions := delete token (positions pt);
              trade_history := trade_history pt ++ [trade];
              start_value := start_value pt;
              highest_value := highest_value pt;
              lowest_value := lowest_value pt |})
        else
          (Ok (Sold token sell_amount current_price sell_percent gas_cost
                 (token_amount position')),
           {| wallet := w';
              risk_manager := risk_manager pt;
              positions := <[token := position']> (positions pt);
              trade_history := trade_history pt;
              start_value := start_value pt;
              highest_value := highest_value pt;
              lowest_value := lowest_value pt |})
      end
    end
  end.

(** [PaperTrader.execute_swap] *)
Definition execute_swap (pt : t) (token_in token_out : string) (amount_in : Q)
    (now : Time) : result Order * t :=
  let price_in := get_token_price token_in in
  let price_out := get_token_price token_out in
  if Qleb price_out 0 then (Ok (InvalidPrice token_out), pt)
  else
    let value_usd := amount_in * price_in in
    let amount_out := value_usd / price_out in
    match PaperWallet.transfer (wallet pt) token_in token_out amount_in price_out now with
    | (Raise e, w') => (Ok (Caught e), with_wallet pt w')
    | (Ok (out, gas_cost, tx_info), w') =>
      (Ok (Swapped token_in token_out amount_in out price_in price_out gas_cost tx_info),
       with_wallet pt w')
    end.

End Methods.

End PaperTrader.

(** ** strategies.py: signals, mean reversion, consensus *)

Module Strategies.

Inductive Action : Type := Buy | Sell | Hold.

Definition action_eqb (a b : Action) : bool :=
  match a, b with
  | Buy, Buy | Sell, Sell | Hold, Hold => true
  | _, _ => false
  end.

(** A numpy float64 scalar: a finite value, an infinity or nan. *)
Inductive npfloat : Type :=
| Finite (q : Q)
| PosInf
| NegInf
| NaN.

(** numpy's scalar division warns instead of raising. *)
Definition np_div (a b : Q) : npfloat :=
  if Qeq_bool b 0 then
    if Qeq_bool a 0 then NaN
    else if Qltb a 0 then NegInf
    else PosInf
  else Finite (a / b).

(** [x < q] and [x > q]; every comparison with nan is false. *)
Definition np_ltb (x : npfloat) (q : Q) : bool :=
  match x with
  | Finite v => Qltb v q
  | NegInf => true
  | PosInf | NaN => false
  end.

Definition np_gtb (x : npfloat) (q : Q) : bool :=
  match x with
  | Finite v => Qgtb v q
  | PosInf => true
  | NegInf | NaN => false
  end.

Inductive Metadata : Type :=
| NoMetadata
| InsufficientData
| ConsensusData (signals : list (list (string * string)))
    (buy_count sell_count hold_count : nat).

Record TradeSignal : Type := mkSignal {
  token : string;
  action : Action;
  confidence : Q;
  strategy : string;
  timestamp : Time;
  metadata : Metadata
}.

(** [s.to_dict()] on a [TradeSignal]: the dataclass has the six fields
    above and no method of that name, so the attribute lookup fails. *)
Definition dataclass_to_dict (s : TradeSignal) : result (list (string * string)) :=
  Raise AttributeError.

Fixpoint map_result {A B : Type} (f : A -> result B) (l : list A) : result (list B) :=
  match l with
  | [] => Ok []
  | x :: l' => y <- f x ;; ys <- map_result f l' ;; Ok (y :: ys)
  end.

(** [sum(xs)] over floats, left to right from 0. *)
Definition py_sum (xs : list Q) : Q := fold_left Qplus xs 0.

Definition count_action (a : Action) (signals : list TradeSignal) : nat :=
  length (filter (fun s => action_eqb (action s) a = true) signals).

Definition total_confidence (signals : list TradeSignal) : Q :=
  py_sum (map confidence signals).

(** [avg_confidence = total_confidence / len(signals)], reached with a
    non-empty list only. *)
Definition avg_confidence (signals : list TradeSignal) : Q :=
  total_confidence signals / inject_Z (Z.of_nat (length signals)).

(** The action chosen by [get_consensus_signal]. *)
Definition consensus_action (signals : list TradeSignal) : Action :=
  let buy_count := count_action Buy signals in
  let sell_count := count_action Sell signals in
  if (sell_count <? buy_count)%nat then Buy
  else if (buy_count <? sell_count)%nat then Sell
  else Hold.

Section Consensus.

(** The method that [s.to_dict()] finds on a signal when it is called. *)
Variable to_dict : TradeSignal -> result (list (string * string)).

(** [StrategyManager.get_consensus_signal], from the list that
    [self.analyze(token)] returned. *)
Definition get_consensus_signal (signals : list TradeSignal) (token : string)
    (now : Time) : result TradeSignal :=
  match signals with
  | [] =>
    Ok {| token := token; action := Hold; confidence := 0.0;
          strategy := "consensus"; timestamp := now; metadata := NoMetadata |}
  | _ :: _ =>
    let buy_count := count_action Buy signals in
    let sell_count := count_action Sell signals in
    let hold_count := count_action Hold signals in
    let avg_confidence := avg_confidence signals in
    let action := consensus_action signals in
    dicts <- map_result to_dict signals ;;
    Ok {| token := token; action := action; confidence := avg_confidence;
          strategy := "consensus"; timestamp := now;
          metadata := ConsensusData dicts buy_count sell_count hold_count |}
  end.

End Consensus.

(** The votes as the specification reads them: an action has the majority
    when more than half of the signals carry it. *)
Definition spec_has_majority (a : Action) (signals : list TradeSignal) : Prop :=
  (length signals < 2 * count_action a signals)%nat.

(** [np.mean] of a non-empty list *)
Definition np_mean (xs : list Q) : Q :=
  py_sum xs / inject_Z (Z.of_nat (length xs)).

End Strategies.

(** ** auto_paper_trader.py: the adaptive single-asset trader *)

Module AutoTrader.

Inductive Regime : Type := unknown | trending_up | trending_down | choppy.

Inductive Signal : Type := BUY | SELL.

Inductive PositionTag : Type := LONG.

Inductive StrategyName : Type := momentum | dip_buying | breakout.

(** The reason strings of [adaptive_strategy], by shape, with the numbers
    they print. *)
Inductive Reason : Type :=
| CollectingData
| MomentumUp (change_5m : Q) (regime : Regime)
| Dip (change_5m : Q) (regime : Regime)
| BreakoutUp (change_1h : Q)
| TakeProfit (pnl_pct : Q)
| StopLoss (pnl_pct : Q)
| TrailingStop (pnl_pct : Q)
| HoldReason (change_5m : Q) (regime : Regime).

(** ['momentum' in reason.lower()]: only the momentum entry prints it. *)
Definition mentions_momentum (r : Reason) : bool :=
  match r with
  | MomentumUp _ _ => true
  | _ => false
  end.

Inductive Trade : Type :=
| BuyTrade (timestamp : Time) (usdc_spent matic_received price : Q)
    (reason : Reason) (strategy : StrategyName)
| SellTrade (timestamp : Time) (matic_sold usdc_received price pnl pnl_pct : Q)
    (reason : Reason).

(** [trade.get('strategy', 'momentum')] *)
Definition trade_strategy (t : Trade) : StrategyName :=
  match t with
  | BuyTrade _ _ _ _ _ s => s
  | SellTrade _ _ _ _ _ _ _ => momentum
  end.

(** The trading state (the unused key [price_history] is left out). *)
Record State : Type := mkState {
  balance_usdc : Q;
  balance_matic : Q;
  trades : list Trade;
  total_pnl : Q;
  win_count : Z;
  loss_count : Z;
  last_price : Q;
  hourly_prices : list Q;
  position : option PositionTag;
  entry_price : option Q;
  last_trade_time : option Time;
  trades_today : Z;
  daily_pnl : Q;
  consecutive_losses : Z;
  best_trade : option (Q * Time);
  worst_trade : option (Q * Time)
}.

Record Perf : Type := mkPerf {
  wins : Z;
  losses : Z;
  perf_total_pnl : Q
}.

Record Params : Type := mkParams {
  momentum_threshold : Q;
  dip_threshold : Q;
  take_profit : Q;
  stop_loss : Q;
  position_size : Q
}.

(** The entries of the list [adaptations], by shape. *)
Inductive Adaptation : Type :=
| RaisedMomentumThreshold (new : Q)
| LoweredMomentumThreshold (new : Q)
| WidenedStopLoss (old_sl : Q)
| IncreasedTakeProfit
| LoweredTakeProfit.

Record AdaptationEntry : Type := mkEntry {
  at_time : Time;
  changes : list Adaptation;
  new_params : Params
}.

(** The parts of the learning data these functions read or write. *)
Record LearningData : Type := mkLearning {
  perf_momentum : Perf;
  perf_dip_buying : Perf;
  perf_breakout : Perf;
  optimal_params : Params;
  adaptation_history : list AdaptationEntry
}.

(** The defaults of [load_state] and [load_learning_data]. *)
Definition default_state : State :=
  {| balance_usdc := 10000.0; balance_matic := 0.0; trades := [];
     total_pnl := 0.0; win_count := 0; loss_count := 0; last_price := 0.50;
     hourly_prices := []; position := None; entry_price := None;
     last_trade_time := None; trades_today := 0; daily_pnl := 0.0;
     consecutive_losses := 0; best_trade := None; worst_trade := None |}.

Definition default_params : Params :=
  {| momentum_threshold := 2.0; dip_threshold := -3.0; take_profit := 5.0;
     stop_loss := -3.0; position_size := 0.10 |}.

Definition default_learning_data : LearningData :=
  {| perf_momentum := mkPerf 0 0 0; perf_dip_buying := mkPerf 0 0 0;
     perf_breakout := mkPerf 0 0 0; optimal_params := default_params;
     adaptation_history := [] |}.

(** [xs[-n:]] *)
Definition last_n {A : Type} (n : nat) (xs : list A) : list A :=
  drop (length xs - n) xs.

(** The terms [abs(recent[i] - recent[i-1]) / recent[i-1] * 100] for
    [i = 1 .. len(recent) - 1], summed from 0. *)
Fixpoint sum_step_pcts (recent : list Q) (acc : Q) : result Q :=
  match recent with
  | prev :: ((cur :: _) as rest) =>
    r <- py_div (Qabs (cur - prev)) prev ;;
    sum_step_pcts rest (acc + r * 100)
  | _ => Ok acc
  end.

(** [detect_market_regime] *)
Definition detect_market_regime (price_history : list Q) : result Regime :=
  if (length price_history <? 12)%nat then Ok unknown
  else
    let recent := last_n 12 price_history in
    let first_price := List.hd 0 recent in
    let last_price := List.last recent 0 in
    ratio <- py_div last_price first_price ;;
    let change_pct := (ratio - 1) * 100 in
    total <- sum_step_pcts recent 0 ;;
    let volatility := total / inject_Z (Z.of_nat (length recent)) in
    if Qgtb change_pct 3 && Qltb volatility 2 then Ok trending_up
    else if Qltb change_pct (-3) && Qltb volatility 2 then Ok trending_down
    else Ok choppy.

(** The change from the first to the last sample, and the step-to-step
    changes, in percent. *)
Definition spec_change_pct (window : list Q) : Q :=
  (List.last window 0 / List.hd 0 window - 1) * 100.

Fixpoint spec_step_pcts (window : list Q) : list Q :=
  match window with
  | prev :: ((cur :: _) as rest) => (Qabs (cur - prev) / prev * 100) :: spec_step_pcts rest
  | _ => []
  end.

Definition with_params (ld : LearningData) (p : Params) : LearningData :=
  {| perf_momentum := perf_momentum ld; perf_dip_buying := perf_dip_buying ld;
     perf_breakout := perf_breakout ld; optimal_params := p;
     adaptation_history := adaptation_history ld |}.

Definition set_momentum_threshold (p : Params) (v : Q) : Params :=
  {| momentum_threshold := v; dip_threshold := dip_threshold p;
     take_profit := take_profit p; stop_loss := stop_loss p;
     position_size := position_size p |}.

Definition set_stop_loss (p : Params) (v : Q) : Params :=
  {| momentum_threshold := momentum_threshold p; dip_threshold := dip_threshold p;
     take_profit := take_profit p; stop_loss := v;
     position_size := position_size p |}.

Definition set_take_profit (p : Params) (v : Q) : Params :=
  {| momentum_threshold := momentum_threshold p; dip_threshold := dip_threshold p;
     take_profit := v; stop_loss := stop_loss p;
     position_size := position_size p |}.

Definition set_consecutive_losses (s : State) (n : Z) : State :=
  {| balance_usdc := balance_usdc s; balance_matic := balance_matic s;
     trades := trades s; total_pnl := total_pnl s; win_count := win_count s;
     loss_count := loss_count s; last_price := last_price s;
     hourly_prices := hourly_prices s; position := position s;
     entry_price := entry_price s; last_trade_time := last_trade_time s;
     trades_today := trades_today s; daily_pnl := daily_pnl s;
     consecutive_losses := n; best_trade := best_trade s;
     worst_trade := worst_trade s |}.

(** [adapt_strategy]: the list of adaptations, and the learning data and
    the state as the call leaves them. *)
Definition adapt_strategy (learning_data : LearningData) (state : State) (now : Time)
  : result (list Adaptation) * LearningData * State :=
  let params := optimal_params learning_data in
  let momentum_perf := perf_momentum learning_data in
  let dip_perf := perf_dip_buying learning_data in
  let total_momentum := (wins momentum_perf + losses momentum_perf)%Z in
  let total_dip := (wins dip_perf + losses dip_perf)%Z in
  let adaptations : list Adaptation := [] in
  (* Adjust momentum threshold *)
  let '(params, adaptations) :=
    if (5 <=? total_momentum)%Z then
      let win_rate := inject_Z (wins momentum_perf) / inject_Z total_momentum in
      if Qltb win_rate 0.4 then
        let v := Qmin (momentum_threshold params + 0.5) 5.0 in
        (set_momentum_threshold params v, adaptations ++ [RaisedMomentumThreshold v])
      else if Qgtb win_rate 0.6 then
        let v := Qmax (momentum_threshold params - 0.3) 1.0 in
        (set_momentum_threshold params v, adaptations ++ [LoweredMomentumThreshold v])
      else (params, adaptations)
    else (params, adaptations) in
  (* Adjust stop loss based on failures *)
  let '(params, adaptations, state) :=
    if (3 <=? consecutive_losses state)%Z then
      let old_sl := stop_loss params in
      (set_stop_loss params (-4.0), adaptations ++ [WidenedStopLoss old_sl],
       set_consecutive_losses state 0)
    else (params, adaptations, state) in
  (* Adjust take profit in trending markets *)
  match detect_market_regime (hourly_prices state) with
  | Raise e => (Raise e, with_params learning_data params, state)
  | Ok regime =>
    let '(params, adaptations) :=
      match regime with
      | trending_up => (set_take_profit params 7.0, adaptations ++ [IncreasedTakeProfit])
      | choppy => (set_take_profit params 3.0, adaptations ++ [LoweredTakeProfit])
      | _ => (params, adaptations)
      end in
    let learning_data := with_params learning_data params in
    match adaptations with
    | [] => (Ok adaptations, learning_data, state)
    | _ :: _ =>
      (Ok adaptations,
       {| perf_momentum := perf_momentum learning_data;
          perf_dip_buying := perf_dip_buying learning_data;
          perf_breakout := perf_breakout learning_data;
          optimal_params := params;
          adaptation_history :=
            adaptation_history learning_data
              ++ [{| at_time := now; changes := adaptations; new_params := params |}] |},
       state)
    end
  end.

(** [xs[-2]] and [xs[0]] *)
Definition second_last (xs : list Q) : result Q :=
  match rev xs with
  | _ :: x :: _ => Ok x
  | _ => Raise IndexError
  end.

(** [adaptive_strategy] *)
Definition adaptive_strategy (state : State) (current_price : Q)
    (learning_data : LearningData) : result (option Signal * Reason) :=
  let params := optimal_params learning_data in
  if (length (hourly_prices state) <? 2)%nat then Ok (None, CollectingData)
  else
    prev <- second_last (hourly_prices state) ;;
    r5 <- py_div current_price prev ;;
    let price_change_5m := (r5 - 1) * 100 in
    price_change_1h <-
      (if (12 <=? length (hourly_prices state))%nat then
         r <- py_div current_price (List.hd 0 (hourly_prices state)) ;;
         Ok ((r - 1) * 100)
       else Ok 0) ;;
    regime <- detect_market_regime (hourly_prices state) ;;
    let hold := Ok (None, HoldReason price_change_5m regime) in
    match position state with
    | None =>
      if Qgeb price_change_5m (momentum_threshold params) then
        Ok (Some BUY, MomentumUp price_change_5m regime)
      else if Qleb price_change_5m (dip_threshold params) then
        Ok (Some BUY, Dip price_change_5m regime)
      else
        match regime with
        | trending_up =>
          if Qgtb price_change_1h 5 then Ok (Some BUY, BreakoutUp price_change_1h)
          else hold
        | _ => hold
        end
    | Some LONG =>
      match entry_price state with
      | None => Raise TypeError
      | Some entry =>
        r <- py_div current_price entry ;;
        let pnl_pct := (r - 1) * 100 in
        if Qgeb pnl_pct (take_profit params) then Ok (Some SELL, TakeProfit pnl_pct)
        else if Qleb pnl_pct (stop_loss params) then Ok (Some SELL, StopLoss pnl_pct)
        else
          match regime with
          | trending_up =>
            if Qgtb pnl_pct 3 then Ok (Some SELL, TrailingStop pnl_pct)
            else hold
          | _ => hold
          end
      end
    end.

Definition add_outcome (p : Perf) (won : bool) (pnl : Q) : Perf :=
  {| wins := if won then (wins p + 1)%Z else wins p;
     losses := if won then losses p else (losses p + 1)%Z;
     perf_total_pnl := perf_total_pnl p + pnl |}.

(** [learning_data['strategy_performance'][strategy]] updated in place *)
Definition record_outcome (ld : LearningData) (s : StrategyName) (won : bool) (pnl : Q)
  : LearningData :=
  {| perf_momentum :=
       match s with momentum => add_outcome (perf_momentum ld) won pnl | _ => perf_momentum ld end;
     perf_dip_buying :=
       match s with dip_buying => add_outcome (perf_dip_buying ld) won pnl | _ => perf_dip_buying ld end;
     perf_breakout :=
       match s with breakout => add_outcome (perf_breakout ld) won pnl | _ => perf_breakout ld end;
     optimal_params := optimal_params ld;
     adaptation_history := adaptation_history ld |}.

(** [execute_trade]: whether a trade was made, and the state and the
    learning data as the call leaves them. *)
Definition execute_trade (state : State) (signal : Signal) (current_price : Q)
    (reason : Reason) (learning_data : LearningData) (now : Time)
  : result bool * State * LearningData :=
  let params := optimal_params learning_data in
  match signal with
  | BUY =>
    if Qgeb (balance_usdc state) 100 then
      let trade_amount := Qmin (balance_usdc state * position_size params) 1000 in
      match py_div trade_amount current_price with
      | Raise e => (Raise e, state, learning_data)
      | Ok matic_received =>
        let trade :=
          BuyTrade now trade_amount matic_received current_price reason
            (if mentions_momentum reason then momentum else dip_buying) in
        (Ok true,
         {| balance_usdc := balance_usdc state - trade_amount;
            balance_matic := balance_matic state + matic_received;
            trades := trades state ++ [trade];
            total_pnl := total_pnl state;
            win_count := win_count state;
            loss_count := loss_count state;
            last_price := last_price state;
            hourly_prices := hourly_prices state;
            position := Some LONG;
            entry_price := Some current_price;
            last_trade_time := last_trade_time state;
            trades_today := (trades_today state + 1)%Z;
            daily_pnl := daily_pnl state;
            consecutive_losses := consecutive_losses state;
            best_trade := best_trade state;
            worst_trade := worst_trade state |},
         learning_data)
      end
    else (Ok false, state, learning_data)
  | SELL =>
    if Qgtb (balance_matic state) 0 then
      let matic_sold := balance_matic state in
      let usdc_received := matic_sold * current_price in
      match entry_price state with
      | None => (Raise TypeError, state, learning_data)
      | Some entry =>
        let pnl := (current_price - entry) * matic_sold in
        match py_div current_price entry with
        | Raise e => (Raise e, state, learning_data)
        | Ok r =>
          let pnl_pct := (r - 1) * 100 in
          let won := Qgtb pnl 0 in
          let settled (trades' : list Trade) :=
            {| balance_usdc := balance_usdc state + usdc_received;
               balance_matic := 0;
               trades := trades';
               total_pnl := total_pnl state + pnl;
               win_count := if won then (win_count state + 1)%Z else win_count state;
               loss_count := if won then loss_count state else (loss_count state + 1)%Z;
               last_price := last_price state;
               hourly_prices := hourly_prices state;
               position := None;
               entry_price := entry_price state;
               last_trade_time := last_trade_time state;
               trades_today := trades_today state;
               daily_pnl := daily_pnl state + pnl;
               consecutive_losses :=
                 if won then 0%Z else (consecutive_losses state + 1)%Z;
               best_trade :=
                 match best_trade state with
                 | None => Some (pnl, now)
                 | Some (best, at_) =>
                   if Qgtb pnl best then Some (pnl, now) else Some (best, at_)
                 end;
               worst_trade :=
                 match worst_trade state with
                 | None => Some (pnl, now)
                 | Some (worst, at_) =>
                   if Qltb pnl worst then Some (pnl, now) else Some (worst, at_)
                 end |} in
          match rev (trades state) with
          | [] =>
            (* state['trades'][-1] on an empty list, after the balances moved *)
            (Raise IndexError,
             {| balance_usdc := balance_usdc state + usdc_received;
                balance_matic := 0;
                trades := trades state;
                total_pnl := total_pnl state + pnl;
                win_count := if won then (win_count state + 1)%Z else win_count state;
                loss_count := if won then loss_count state else (loss_count state + 1)%Z;
                last_price := last_price state;
                hourly_prices := hourly_prices state;
                position := None;
                entry_price := entry_price state;
                last_trade_time := last_trade_time state;
                trades_today := trades_today state;
                daily_pnl := daily_pnl state + pnl;
                consecutive_losses :=
                  if won then 0%Z else (consecutive_losses state + 1)%Z;
                best_trade := best_trade state;
                worst_trade := worst_trade state |},
             learning_data)
          | last_trade :: _ =>
            let strategy := trade_strategy last_trade in
            let trade := SellTrade now matic_sold usdc_received current_price pnl pnl_pct reason in
            (Ok true, settled (trades state ++ [trade]),
             record_outcome learning_data strategy won pnl)
          end
        end
      end
    else (Ok false, state, learning_data)
  end.

(** [main], from the fetched price on: the price is recorded (the last
    288 samples are kept), then the tuner, the strategy and the trade. *)
Definition record_price (state : State) (current_price : Q) : State :=
  let hourly := hourly_prices state ++ [current_price] in
  {| balance_usdc := balance_usdc state; balance_matic := balance_matic state;
     trades := trades state; total_pnl := total_pnl state;
     win_count := win_count state; loss_count := loss_count state;
     last_price := current_price;
     hourly_prices := if (288 <? length hourly)%nat then last_n 288 hourly else hourly;
     position := position state; entry_price := entry_price state;
     last_trade_time := last_trade_time state; trades_today := trades_today state;
     daily_pnl := daily_pnl state; consecutive_losses := consecutive_losses state;
     best_trade := best_trade state; worst_trade := worst_trade state |}.

Definition set_last_trade_time (s : State) (now : Time) : State :=
  {| balance_usdc := balance_usdc s; balance_matic := balance_matic s;
     trades := trades s; total_pnl := total_pnl s; win_count := win_count s;
     loss_count := loss_count s; last_price := last_price s;
     hourly_prices := hourly_prices s; position := position s;
     entry_price := entry_price s; last_trade_time := Some now;
     trades_today := trades_today s; daily_pnl := daily_pnl s;
     consecutive_losses := consecutive_losses s; best_trade := best_trade s;
     worst_trade := worst_trade s |}.

(** The outcome of a cycle: the signal and its reason, and whether the
    trade was made. *)
Definition trading_cycle (state : State) (learning_data : LearningData)
    (current_price : Q) (now : Time)
  : result (option Signal * Reason * bool) * State * LearningData :=
  let state := record_price state current_price in
  match adapt_strategy learning_data state now with
  | (Raise e, learning_data, state) => (Raise e, state, learning_data)
  | (Ok _, learning_data, state) =>
    match adaptive_strategy state current_price learning_data with
    | Raise e => (Raise e, state, learning_data)
    | Ok (None, reason) => (Ok (None, reason, false), state, learning_data)
    | Ok (Some signal, reason) =>
      match execute_trade state signal current_price reason learning_data now with
      | (Raise e, state, learning_data) => (Raise e, state, learning_data)
      | (Ok executed, state, learning_data) =>
        (Ok (Some signal, reason, executed),
         if executed then set_last_trade_time state now else state,
         learning_data)
      end
    end
  end.

End AutoTrader.

(** * The same code over binary64

    Where a statement is about the exact value of a float, or about a
    comparison that a rounding error can tip, the code is embedded a
    second time with Python's floats as the machine's binary64 numbers:
    every [+], [-], [*] and [/] below rounds to nearest, ties to even, as
    the interpreter's does. *)

Set Warnings "-inexact-float".

Module B64.

Local Open Scope float_scope.

(** [x > y] and [x >= y]; every comparison with nan is false. *)
Definition gtb (x y : float) : bool := y <? x.
Definition geb (x y : float) : bool := y <=? x.

(** [a / b] on Python floats: a zero divisor, of either sign, raises. *)
Definition py_div (a b : float) : result float :=
  if b =? 0 then Raise ZeroDivisionError else Ok (a / b).

(** [min(a, b)] keeps [a] unless [b < a]; [max(a, b)] keeps [a] unless
    [b > a]. *)
Definition py_min (a b : float) : float := if b <? a then b else a.
Definition py_max (a b : float) : float := if gtb b a then b else a.

(** An [int] where a float is expected (counts and small constants). *)
Definition of_Z (z : Z) : float :=
  match z with
  | Z0 => 0
  | Zpos _ => PrimFloat.of_uint63 (Uint63.of_Z z)
  | Zneg p => - PrimFloat.of_uint63 (Uint63.of_Z (Zpos p))
  end.

Definition of_nat (n : nat) : float := of_Z (Z.of_nat n).

(** [sum(xs)]: left to right from 0.  (CPython adds the floats in this
    order; from 3.12 on it also carries a compensation term.) *)
Definition py_sum (xs : list float) : float := fold_left PrimFloat.add xs 0.

End B64.

(** ** paper_trader.py over binary64: the wallet and the sell *)

Module PaperWallet64.

Local Open Scope float_scope.

Record TxInfo : Type := mkTx {
  tx_hash : nat;
  tx_token_in : string;
  tx_token_out : string;
  tx_amount_in : float;
  tx_amount_out : float;
  tx_gas_cost : float;
  tx_timestamp : Time
}.

Record t : Type := mk {
  balances : gmap string float;
  tx_history : list TxInfo
}.

(** [PaperWallet.__init__] *)
Definition init (initial_eth initial_usdc : float) : t :=
  {| balances :=
       <["ETH" := initial_eth]>
         (<["WETH" := 0]>
            (<["USDC" := initial_usdc]>
               (<["USDT" := 0]> (<["DAI" := 0]> ∅))));
     tx_history := [] |}.

Definition bal_get (b : gmap string float) (k : string) : float := default 0 (b !! k).

Definition get_balance (w : t) (token : string) : float :=
  bal_get (balances w) (upper token).

(** [PaperWallet.total_usd] *)
Definition total_usd (w : t) : float :=
  let eth_value := bal_get (balances w) "ETH" * 3000 in
  let weth_value := bal_get (balances w) "WETH" * 3000 in
  let usdc_value := bal_get (balances w) "USDC" in
  let usdt_value := bal_get (balances w) "USDT" in
  let dai_value := bal_get (balances w) "DAI" in
  eth_value + weth_value + usdc_value + usdt_value + dai_value.

Definition gas_cost : float := 0.01.

(** [PaperWallet.transfer] *)
Definition transfer (w : t) (token_in token_out : string)
    (amount_in simulated_price : float) (now : Time)
  : result (float * float * TxInfo) * t :=
  let balance_in := get_balance w token_in in
  if B64.gtb amount_in balance_in then (Raise ValueError, w)
  else
    let amount_out := amount_in * simulated_price in
    match balances w !! upper token_in with
    | None => (Raise KeyError, w)
    | Some b_in =>
      let bal1 := <[upper token_in := b_in - amount_in]> (balances w) in
      let bal2 := <[upper token_out := bal_get bal1 (upper token_out) + amount_out]> bal1 in
      let record (bal : gmap string float) :=
        let tx_info :=
          {| tx_hash := length (tx_history w);
             tx_token_in := token_in;
             tx_token_out := token_out;
             tx_amount_in := amount_in;
             tx_amount_out := amount_out;
             tx_gas_cost := gas_cost;
             tx_timestamp := now |} in
        (Ok (amount_out, gas_cost, tx_info),
         {| balances := bal; tx_history := tx_history w ++ [tx_info] |}) in
      if PaperWallet.pays_gas token_in token_out then
        match bal2 !! "ETH" with
        | None => (Raise KeyError, {| balances := bal2; tx_history := tx_history w |})
        | Some e => record (<["ETH" := e - gas_cost]> bal2)
        end
      else record bal2
    end.

End PaperWallet64.

Module PaperTrader64.

Local Open Scope float_scope.

Record Position : Type := mkPosition {
  token : string;
  ptype : Risk.PositionType;
  size_usd : float;
  token_amount : float;
  entry_price : float;
  entry_time : Time;
  stop_loss : float;
  take_profit : float;
  confidence : float;
  entry_tx : PaperWallet64.TxInfo
}.

Record Trade : Type := mkTrade {
  closed : Position;
  exit_price : float;
  exit_time : Time;
  exit_tx : PaperWallet64.TxInfo;
  pnl : float;
  pnl_percent : float;
  close_reason : string
}.

(** The attributes that [execute_sell] reads or writes. *)
Record t : Type := mk {
  wallet : PaperWallet64.t;
  positions : gmap string Position;
  trade_history : list Trade
}.

Inductive Order : Type :=
| NoPosition (token : string)
| Caught (e : exn)
| Sold (token : string) (amount price total_usd gas_cost remaining_position : float).

Definition success (o : Order) : bool :=
  match o with
  | Sold _ _ _ _ _ _ => true
  | _ => false
  end.

Definition with_wallet (pt : t) (w : PaperWallet64.t) : t :=
  {| wallet := w; positions := positions pt; trade_history := trade_history pt |}.

(** [PaperTrader.execute_sell], at the price the market data returns. *)
Definition execute_sell (get_token_price : string -> float) (pt : t) (token : string)
    (amount_percent : float) (now : Time) : result Order * t :=
  match positions pt !! token with
  | None => (Ok (NoPosition token), pt)
  | Some position =>
    let sell_amount := token_amount position * amount_percent in
    let sell_percent := size_usd position * amount_percent in
    let current_price := get_token_price token in
    (* try: *)
    match B64.py_div 1 current_price with
    | Raise e => (Ok (Caught e), pt)
    | Ok simulated_price =>
      match PaperWallet64.transfer (wallet pt) token "USDC" sell_amount current_price now with
      | (Raise e, w') => (Ok (Caught e), with_wallet pt w')
      | (Ok (usdc_out, gas_cost, tx_info), w') =>
        let position' :=
          {| token := PaperTrader64.token position;
             ptype := ptype position;
             size_usd := size_usd position - sell_percent;
             token_amount := token_amount position - sell_amount;
             entry_price := entry_price position;
             entry_time := entry_time position;
             stop_loss := stop_loss position;
             take_profit := take_profit position;
             confidence := confidence position;
             entry_tx := entry_tx position |} in
        if (token_amount position' <? 0.0001) || B64.geb amount_percent 1.0 then
          let entry_value :=
            if amount_percent <? 1 then size_usd position' / (1 - amount_percent)
            else size_usd position' in
          let exit_value := sell_percent in
          let pnl := exit_value - entry_value in
          let pnl_percent :=
            if B64.gtb entry_value 0 then (pnl / entry_value) * 100 else 0 in
          let trade :=
            {| closed := position';
               exit_price := current_price;
               exit_time := now;
               exit_tx := tx_info;
               pnl := pnl;
               pnl_percent := pnl_percent;
               close_reason := "manual" |} in
          (Ok (Sold token sell_amount current_price sell_percent gas_cost
                 (token_amount position')),
           {| wallet := w';
              positions := delete token (positions pt);
              trade_history := trade_history pt ++ [trade] |})
        else
          (Ok (Sold token sell_amount current_price sell_percent gas_cost
                 (token_amount position')),
           {| wallet := w';
              positions := <[token := position']> (positions pt);
              trade_history := trade_history pt |})
      end
    end
  end.

End PaperTrader64.

(** ** numpy over binary64: the reductions behind [np.mean] and [np.std] *)

Module Numpy64.

Local Open Scope float_scope.

(** The eight partial sums of the unrolled loop. *)
Record Acc : Type := mkAcc {
  r0 : float; r1 : float; r2 : float; r3 : float;
  r4 : float; r5 : float; r6 : float; r7 : float
}.

(** [r[j] += a[i + j]] over the whole blocks of eight that are left; what
    does not fill a block is returned with the sums. *)
Fixpoint add_blocks (r : Acc) (a : list float) : Acc * list float :=
  match a with
  | a0 :: a1 :: a2 :: a3 :: a4 :: a5 :: a6 :: a7 :: rest =>
    add_blocks
      {| r0 := r0 r + a0; r1 := r1 r + a1; r2 := r2 r + a2; r3 := r3 r + a3;
         r4 := r4 r + a4; r5 := r5 r + a5; r6 := r6 r + a6; r7 := r7 r + a7 |}
      rest
  | _ => (r, a)
  end.

(** The sum of a block of at most 128 numbers: fewer than eight are added
    one after the other, from -0.0; otherwise eight sums run side by
    side, are added in pairs, and the rest is added to the result. *)
Definition block_sum (a : list float) : float :=
  match a with
  | a0 :: a1 :: a2 :: a3 :: a4 :: a5 :: a6 :: a7 :: rest =>
    let '(r, tail) := add_blocks (mkAcc a0 a1 a2 a3 a4 a5 a6 a7) rest in
    let res := ((r0 r + r1 r) + (r2 r + r3 r)) + ((r4 r + r5 r) + (r6 r + r7 r)) in
    fold_left PrimFloat.add tail res
  | _ => fold_left PrimFloat.add a (-0)
  end.

(** Pairwise summation: more than 128 numbers are split in two halves,
    the first a multiple of eight long.  [depth] bounds the splitting; the
    length of the list is more than enough. *)
Fixpoint pairwise_sum (depth : nat) (a : list float) : float :=
  let n := length a in
  if (n <=? 128)%nat then block_sum a
  else
    match depth with
    | O => block_sum a
    | S depth' =>
      let n2 := (n / 2)%nat in
      let n2 := (n2 - n2 mod 8)%nat in
      pairwise_sum depth' (firstn n2 a) + pairwise_sum depth' (skipn n2 a)
    end.

(** [np.add.reduce] over a one-dimensional float64 array: the reduction
    starts from the identity 0. *)
Definition np_sum (a : list float) : float := 0 + pairwise_sum (length a) a.

(** [np.mean] *)
Definition np_mean (a : list float) : float := np_sum a / B64.of_nat (length a).

(** [np.std]: the root of the mean of the squared distances to the mean. *)
Definition np_std (a : list float) : float :=
  let arrmean := np_mean a in
  let x := map (fun v => v - arrmean) a in
  let x := map (fun v => v * v) x in
  PrimFloat.sqrt (np_sum x / B64.of_nat (length a)).

End Numpy64.

(** ** strategies.py over binary64: mean reversion *)

Module Strategies64.

Local Open Scope float_scope.

Inductive Metadata : Type :=
| InsufficientData
| MeanReversionData (current_price mean_price deviation z_score : float).

Record TradeSignal : Type := mkSignal {
  token : string;
  action : Strategies.Action;
  confidence : float;
  strategy : string;
  timestamp : Time;
  metadata : Metadata
}.

Definition std_threshold : float := 2.0.

(** [MeanReversionStrategy.analyze], from the prices that
    [get_recent_prices(token, period=48)] returned.  numpy's scalars
    divide by zero with a warning: the quotient is nan or an infinity. *)
Definition mean_reversion_analyze (token : string) (prices : list float)
    (now : Time) : TradeSignal :=
  if (length prices <? 24)%nat then
    {| token := token; action := Strategies.Hold; confidence := 0.0;
       strategy := "mean_reversion"; timestamp := now;
       metadata := InsufficientData |}
  else
    let mean_price := Numpy64.np_mean prices in
    let std_price := Numpy64.np_std prices in
    let current_price := List.last prices 0 in
    let deviation := (current_price - mean_price) / std_price in
    let '(action, confidence) :=
      if deviation <? - std_threshold then
        (Strategies.Buy, B64.py_min 1.0 (abs deviation / 3))
      else if B64.gtb deviation std_threshold then
        (Strategies.Sell, B64.py_min 1.0 (deviation / 3))
      else if (deviation <? -0.5) && B64.gtb deviation (- std_threshold) then
        (Strategies.Buy, 0.3)
      else if B64.gtb deviation 0.5 && (deviation <? std_threshold) then
        (Strategies.Sell, 0.3)
      else (Strategies.Hold, 0.0) in
    {| token := token; action := action; confidence := confidence;
       strategy := "mean_reversion"; timestamp := now;
       metadata := MeanReversionData current_price mean_price deviation deviation |}.

End Strategies64.

(** ** auto_paper_trader.py over binary64 *)

Module AutoTrader64.

Local Open Scope float_scope.


Inductive Reason : Type :=
| CollectingData
| MomentumUp (change_5m : float) (regime : AutoTrader.Regime)
| Dip (change_5m : float) (regime : AutoTrader.Regime)
| BreakoutUp (change_1h : float)
| TakeProfit (pnl_pct : float)
| StopLoss (pnl_pct : float)
| TrailingStop (pnl_pct : float)
| HoldReason (change_5m : float) (regime : AutoTrader.Regime).

Definition mentions_momentum (r : Reason) : bool :=
  match r with
  | MomentumUp _ _ => true
  | _ => false
  end.

Inductive Trade : Type :=
| BuyTrade (timestamp : Time) (usdc_spent matic_received price : float)
    (reason : Reason) (strategy : AutoTrader.StrategyName)
| SellTrade (timestamp : Time) (matic_sold usdc_received price pnl pnl_pct : float)
    (reason : Reason).

Definition trade_strategy (t : Trade) : AutoTrader.StrategyName :=
  match t with
  | BuyTrade _ _ _ _ _ s => s
  | SellTrade _ _ _ _ _ _ _ => AutoTrader.momentum
  end.

Record State : Type := mkState {
  balance_usdc : float;
  balance_matic : float;
  trades : list Trade;
  total_pnl : float;
  win_count : Z;
  loss_count : Z;
  last_price : float;
  hourly_prices : list float;
  position : option AutoTrader.PositionTag;
  entry_price : option float;
  last_trade_time : option Time;
  trades_today : Z;
  daily_pnl : float;
  consecutive_losses : Z;
  best_trade : option (float * Time);
  worst_trade : option (float * Time)
}.

Record Perf : Type := mkPerf {
  wins : Z;
  losses : Z;
  perf_total_pnl : float
}.

Record Params : Type := mkParams {
  momentum_threshold : float;
  dip_threshold : float;
  take_profit : float;
  stop_loss : float;
  position_size : float
}.

Inductive Adaptation : Type :=
| RaisedMomentumThreshold (new : float)
| LoweredMomentumThreshold (new : float)
| WidenedStopLoss (old_sl : float)
| IncreasedTakeProfit
| LoweredTakeProfit.

Record AdaptationEntry : Type := mkEntry {
  at_time : Time;
  changes : list Adaptation;
  new_params : Params
}.

Record LearningData : Type := mkLearning {
  perf_momentum : Perf;
  perf_dip_buying : Perf;
  perf_breakout : Perf;
  optimal_params : Params;
  adaptation_history : list AdaptationEntry
}.

(** The defaults of [load_state] and [load_learning_data]. *)
Definition default_state : State :=
  {| balance_usdc := 10000.0; balance_matic := 0.0; trades := [];
     total_pnl := 0.0; win_count := 0; loss_count := 0; last_price := 0.50;
     hourly_prices := []; position := None; entry_price := None;
     last_trade_time := None; trades_today := 0; daily_pnl := 0.0;
     consecutive_losses := 0; best_trade := None; worst_trade := None |}.

Definition default_params : Params :=
  {| momentum_threshold := 2.0; dip_threshold := -3.0; take_profit := 5.0;
     stop_loss := -3.0; position_size := 0.10 |}.

Definition default_learning_data : LearningData :=
  {| perf_momentum := mkPerf 0 0 0; perf_dip_buying := mkPerf 0 0 0;
     perf_breakout := mkPerf 0 0 0; optimal_params := default_params;
     adaptation_history := [] |}.

(** The terms [abs(recent[i] - recent[i-1]) / recent[i-1] * 100] for
    [i = 1 .. len(recent) - 1], summed from 0. *)
Fixpoint sum_step_pcts (recent : list float) (acc : float) : result float :=
  match recent with
  | prev :: ((cur :: _) as rest) =>
    r <- B64.py_div (abs (cur - prev)) prev ;;
    sum_step_pcts rest (acc + r * 100)
  | _ => Ok acc
  end.

(** [detect_market_regime] *)
Definition detect_market_regime (price_history : list float) : result AutoTrader.Regime :=
  if (length price_history <? 12)%nat then Ok AutoTrader.unknown
  else
    let recent := AutoTrader.last_n 12 price_history in
    let first_price := List.hd 0 recent in
    let last_price := List.last recent 0 in
    ratio <- B64.py_div last_price first_price ;;
    let change_pct := (ratio - 1) * 100 in
    total <- sum_step_pcts recent 0 ;;
    let volatility := total / B64.of_nat (length recent) in
    if B64.gtb change_pct 3 && (volatility <? 2) then Ok AutoTrader.trending_up
    else if (change_pct <? -3) && (volatility <? 2) then Ok AutoTrader.trending_down
    else Ok AutoTrader.choppy.

(** The rule as the specification words it, on the whole window: the
    change from its first to its last sample and the mean of the absolute
    step-to-step changes, both in percent. *)
Definition spec_change_pct (window : list float) : float :=
  (List.last window 0 / List.hd 0 window - 1) * 100.

Fixpoint spec_step_pcts (window : list float) : list float :=
  match window with
  | prev :: ((cur :: _) as rest) => (abs (cur - prev) / prev * 100) :: spec_step_pcts rest
  | _ => []
  end.


Definition regime_rule (change_pct volatility : float) : AutoTrader.Regime :=
  if B64.gtb change_pct 3 && (volatility <? 2) then AutoTrader.trending_up
  else if (change_pct <? -3) && (volatility <? 2) then AutoTrader.trending_down
  else AutoTrader.choppy.


Definition with_params (ld : LearningData) (p : Params) : LearningData :=
  {| perf_momentum := perf_momentum ld; perf_dip_buying := perf_dip_buying ld;
     perf_breakout := perf_breakout ld; optimal_params := p;
     adaptation_history := adaptation_history ld |}.

Definition set_momentum_threshold (p : Params) (v : float) : Params :=
  {| momentum_threshold := v; dip_threshold := dip_threshold p;
     take_profit := take_profit p; stop_loss := stop_loss p;
     position_size := position_size p |}.

Definition set_stop_loss (p : Params) (v : float) : Params :=
  {| momentum_threshold := momentum_threshold p; dip_threshold := dip_threshold p;
     take_profit := take_profit p; stop_loss := v;
     position_size := position_size p |}.

Definition set_take_profit (p : Params) (v : float) : Params :=
  {| momentum_threshold := momentum_threshold p; dip_threshold := dip_threshold p;
     take_profit := v; stop_loss := stop_loss p;
     position_size := position_size p |}.

Definition set_consecutive_losses (s : State) (n : Z) : State :=
  {| balance_usdc := balance_usdc s; balance_matic := balance_matic s;
     trades := trades s; total_pnl := total_pnl s; win_count := win_count s;
     loss_count := loss_count s; last_price := last_price s;
     hourly_prices := hourly_prices s; position := position s;
     entry_price := entry_price s; last_trade_time := last_trade_time s;
     trades_today := trades_today s; daily_pnl := daily_pnl s;
     consecutive_losses := n; best_trade := best_trade s;
     worst_trade := worst_trade s |}.

(** [adapt_strategy]: the list of adaptations, and the learning data and
    the state as the call leaves them. *)
Definition adapt_strategy (learning_data : LearningData) (state : State) (now : Time)
  : result (list Adaptation) * LearningData * State :=
  let params := optimal_params learning_data in
  let momentum_perf := perf_momentum learning_data in
  let dip_perf := perf_dip_buying learning_data in
  let total_momentum := (wins momentum_perf + losses momentum_perf)%Z in
  let total_dip := (wins dip_perf + losses dip_perf)%Z in
  let adaptations : list Adaptation := [] in
  (* Adjust momentum threshold *)
  let '(params, adaptations) :=
    if (5 <=? total_momentum)%Z then
      let win_rate := B64.of_Z (wins momentum_perf) / B64.of_Z total_momentum in
      if win_rate <? 0.4 then
        let v := B64.py_min (momentum_threshold params + 0.5) 5.0 in
        (set_momentum_threshold params v, adaptations ++ [RaisedMomentumThreshold v])
      else if B64.gtb win_rate 0.6 then
        let v := B64.py_max (momentum_threshold params - 0.3) 1.0 in
        (set_momentum_threshold params v, adaptations ++ [LoweredMomentumThreshold v])
      else (params, adaptations)
    else (params, adaptations) in
  (* Adjust stop loss based on failures *)
  let '(params, adaptations, state) :=
    if (3 <=? consecutive_losses state)%Z then
      let old_sl := stop_loss params in
      (set_stop_loss params (-4.0), adaptations ++ [WidenedStopLoss old_sl],
       set_consecutive_losses state 0)
    else (params, adaptations, state) in
  (* Adjust take profit in trending markets *)
  match detect_market_regime (hourly_prices state) with
  | Raise e => (Raise e, with_params learning_data params, state)
  | Ok regime =>
    let '(params, adaptations) :=
      match regime with
      | AutoTrader.trending_up =>
        (set_take_profit params 7.0, adaptations ++ [IncreasedTakeProfit])
      | AutoTrader.choppy =>
        (set_take_profit params 3.0, adaptations ++ [LoweredTakeProfit])
      | _ => (params, adaptations)
      end in
    let learning_data := with_params learning_data params in
    match adaptations with
    | [] => (Ok adaptations, learning_data, state)
    | _ :: _ =>
      (Ok adaptations,
       {| perf_momentum := perf_momentum learning_data;
          perf_dip_buying := perf_dip_buying learning_data;
          perf_breakout := perf_breakout learning_data;
          optimal_params := params;
          adaptation_history :=
            adaptation_history learning_data
              ++ [{| at_time := now; changes := adaptations; new_params := params |}] |},
       state)
    end
  end.

(** [xs[-2]] *)
Definition second_last (xs : list float) : result float :=
  match rev xs with
  | _ :: x :: _ => Ok x
  | _ => Raise IndexError
  end.

(** [adaptive_strategy] *)
Definition adaptive_strategy (state : State) (current_price : float)
    (learning_data : LearningData) : result (option AutoTrader.Signal * Reason) :=
  let params := optimal_params learning_data in
  if (length (hourly_prices state) <? 2)%nat then Ok (None, CollectingData)
  else
    prev <- second_last (hourly_prices state) ;;
    r5 <- B64.py_div current_price prev ;;
    let price_change_5m := (r5 - 1) * 100 in
    price_change_1h <-
      (if (12 <=? length (hourly_prices state))%nat then
         r <- B64.py_div current_price (List.hd 0 (hourly_prices state)) ;;
         Ok ((r - 1) * 100)
       else Ok 0) ;;
    regime <- detect_market_regime (hourly_prices state) ;;
    let hold := Ok (None, HoldReason price_change_5m regime) in
    match position state with
    | None =>
      if B64.geb price_change_5m (momentum_threshold params) then
        Ok (Some AutoTrader.BUY, MomentumUp price_change_5m regime)
      else if price_change_5m <=? dip_threshold params then
        Ok (Some AutoTrader.BUY, Dip price_change_5m regime)
      else
        match regime with
        | AutoTrader.trending_up =>
          if B64.gtb price_change_1h 5 then Ok (Some AutoTrader.BUY, BreakoutUp price_change_1h)
          else hold
        | _ => hold
        end
    | Some AutoTrader.LONG =>
      match entry_price state with
      | None => Raise TypeError
      | Some entry =>
        r <- B64.py_div current_price entry ;;
        let pnl_pct := (r - 1) * 100 in
        if B64.geb pnl_pct (take_profit params) then Ok (Some AutoTrader.SELL, TakeProfit pnl_pct)
        else if pnl_pct <=? stop_loss params then Ok (Some AutoTrader.SELL, StopLoss pnl_pct)
        else
          match regime with
          | AutoTrader.trending_up =>
            if B64.gtb pnl_pct 3 then Ok (Some AutoTrader.SELL, TrailingStop pnl_pct)
            else hold
          | _ => hold
          end
      end
    end.

Definition add_outcome (p : Perf) (won : bool) (pnl : float) : Perf :=
  {| wins := if won then (wins p + 1)%Z else wins p;
     losses := if won then losses p else (losses p + 1)%Z;
     perf_total_pnl := perf_total_pnl p + pnl |}.

Definition record_outcome (ld : LearningData) (s : AutoTrader.StrategyName) (won : bool) (pnl : float)
  : LearningData :=
  {| perf_momentum :=
       match s with
       | AutoTrader.momentum => add_outcome (perf_momentum ld) won pnl
       | _ => perf_momentum ld
       end;
     perf_dip_buying :=
       match s with
       | AutoTrader.dip_buying => add_outcome (perf_dip_buying ld) won pnl
       | _ => perf_dip_buying ld
       end;
     perf_breakout :=
       match s with
       | AutoTrader.breakout => add_outcome (perf_breakout ld) won pnl
       | _ => perf_breakout ld
       end;
     optimal_params := optimal_params ld;
     adaptation_history := adaptation_history ld |}.

(** [execute_trade]: whether a trade was made, and the state and the
    learning data as the call leaves them. *)
Definition execute_trade (state : State) (signal : AutoTrader.Signal) (current_price : float)
    (reason : Reason) (learning_data : LearningData) (now : Time)
  : result bool * State * LearningData :=
  let params := optimal_params learning_data in
  match signal with
  | AutoTrader.BUY =>
    if B64.geb (balance_usdc state) 100 then
      let trade_amount := B64.py_min (balance_usdc state * position_size params) 1000 in
      match B64.py_div trade_amount current_price with
      | Raise e => (Raise e, state, learning_data)
      | Ok matic_received =>
        let trade :=
          BuyTrade now trade_amount matic_received current_price reason
            (if mentions_momentum reason then AutoTrader.momentum else AutoTrader.dip_buying) in
        (Ok true,
         {| balance_usdc := balance_usdc state - trade_amount;
            balance_matic := balance_matic state + matic_received;
            trades := trades state ++ [trade];
            total_pnl := total_pnl state;
            win_count := win_count state;
            loss_count := loss_count state;
            last_price := last_price state;
            hourly_prices := hourly_prices state;
            position := Some AutoTrader.LONG;
            entry_price := Some current_price;
            last_trade_time := last_trade_time state;
            trades_today := (trades_today state + 1)%Z;
            daily_pnl := daily_pnl state;
            consecutive_losses := consecutive_losses state;
            best_trade := best_trade state;
            worst_trade := worst_trade state |},
         learning_data)
      end
    else (Ok false, state, learning_data)
  | AutoTrader.SELL =>
    if B64.gtb (balance_matic state) 0 then
      let matic_sold := balance_matic state in
      let usdc_received := matic_sold * current_price in
      match entry_price state with
      | None => (Raise TypeError, state, learning_data)
      | Some entry =>
        let pnl := (current_price - entry) * matic_sold in
        match B64.py_div current_price entry with
        | Raise e => (Raise e, state, learning_data)
        | Ok r =>
          let pnl_pct := (r - 1) * 100 in
          let won := B64.gtb pnl 0 in
          let settled (trades' : list Trade) :=
            {| balance_usdc := balance_usdc state + usdc_received;
               balance_matic := 0;
               trades := trades';
               total_pnl := total_pnl state + pnl;
               win_count := if won then (win_count state + 1)%Z else win_count state;
               loss_count := if won then loss_count state else (loss_count state + 1)%Z;
               last_price := last_price state;
               hourly_prices := hourly_prices state;
               position := None;
               entry_price := entry_price state;
               last_trade_time := last_trade_time state;
               trades_today := trades_today state;
               daily_pnl := daily_pnl state + pnl;
               consecutive_losses :=
                 if won then 0%Z else (consecutive_losses state + 1)%Z;
               best_trade :=
                 match best_trade state with
                 | None => Some (pnl, now)
                 | Some (best, at_) =>
                   if B64.gtb pnl best then Some (pnl, now) else Some (best, at_)
                 end;
               worst_trade :=
                 match worst_trade state with
                 | None => Some (pnl, now)
                 | Some (worst, at_) =>
                   if pnl <? worst then Some (pnl, now) else Some (worst, at_)
                 end |} in
          match rev (trades state) with
          | [] =>
            (* state['trades'][-1] on an empty list, after the balances moved *)
            (Raise IndexError,
             {| balance_usdc := balance_usdc state + usdc_received;
                balance_matic := 0;
                trades := trades state;
                total_pnl := total_pnl state + pnl;
                win_count := if won then (win_count state + 1)%Z else win_count state;
                loss_count := if won then loss_count state else (loss_count state + 1)%Z;
                last_price := last_price state;
                hourly_prices := hourly_prices state;
                position := None;
                entry_price := entry_price state;
                last_trade_time := last_trade_time state;
                trades_today := trades_today state;
                daily_pnl := daily_pnl state + pnl;
                consecutive_losses :=
                  if won then 0%Z else (consecutive_losses state + 1)%Z;
                best_trade := best_trade state;
                worst_trade := worst_trade state |},
             learning_data)
          | last_trade :: _ =>
            let strategy := trade_strategy last_trade in
            let trade := SellTrade now matic_sold usdc_received current_price pnl pnl_pct reason in
            (Ok true, settled (trades state ++ [trade]),
             record_outcome learning_data strategy won pnl)
          end
        end
      end
    else (Ok false, state, learning_data)
  end.

(** [main], from the fetched price on. *)
Definition record_price (state : State) (current_price : float) : State :=
  let hourly := hourly_prices state ++ [current_price] in
  {| balance_usdc := balance_usdc state; balance_matic := balance_matic state;
     trades := trades state; total_pnl := total_pnl state;
     win_count := win_count state; loss_count := loss_count state;
     last_price := current_price;
     hourly_prices :=
       if (288 <? length hourly)%nat then AutoTrader.last_n 288 hourly else hourly;
     position := position state; entry_price := entry_price state;
     last_trade_time := last_trade_time state; trades_today := trades_today state;
     daily_pnl := daily_pnl state; consecutive_losses := consecutive_losses state;
     best_trade := best_trade state; worst_trade := worst_trade state |}.

Definition set_last_trade_time (s : State) (now : Time) : State :=
  {| balance_usdc := balance_usdc s; balance_matic := balance_matic s;
     trades := trades s; total_pnl := total_pnl s; win_count := win_count s;
     loss_count := loss_count s; last_price := last_price s;
     hourly_prices := hourly_prices s; position := position s;
     entry_price := entry_price s; last_trade_time := Some now;
     trades_today := trades_today s; daily_pnl := daily_pnl s;
     consecutive_losses := consecutive_losses s; best_trade := best_trade s;
     worst_trade := worst_trade s |}.

Definition trading_cycle (state : State) (learning_data : LearningData)
    (current_price : float) (now : Time)
  : result (option AutoTrader.Signal * Reason * bool) * State * LearningData :=
  let state := record_price state current_price in
  match adapt_strategy learning_data state now with
  | (Raise e, learning_data, state) => (Raise e, state, learning_data)
  | (Ok _, learning_data, state) =>
    match adaptive_strategy state current_price learning_data with
    | Raise e => (Raise e, state, learning_data)
    | Ok (None, reason) => (Ok (None, reason, false), state, learning_data)
    | Ok (Some signal, reason) =>
      match execute_trade state signal current_price reason learning_data now with
      | (Raise e, state, learning_data) => (Raise e, state, learning_data)
      | (Ok executed, state, learning_data) =>
        (Ok (Some signal, reason, executed),
         if executed then set_last_trade_time state now else state,
         learning_data)
      end
    end
  end.

End AutoTrader64.

(** * Verification *)

(** ** Facts about the float comparisons *)

Lemma Qltb_lt (x y : Q) : Qltb x y = true <-> x < y.
Proof.
  unfold Qltb. rewrite negb_true_iff.
  split; intros H.
  - apply Qnot_le_lt. intros Hle. apply Qle_bool_iff in Hle. congruence.
  - destruct (Qle_bool y x) eqn:E; [|reflexivity].
    apply Qle_bool_iff in E. exfalso. apply (Qlt_not_le _ _ H E).
Qed.

Lemma Qltb_ge (x y : Q) : Qltb x y = false <-> y <= x.
Proof.
  unfold Qltb. rewrite negb_false_iff. apply Qle_bool_iff.
Qed.

Lemma Qleb_le (x y : Q) : Qleb x y = true <-> x <= y.
Proof. apply Qle_bool_iff. Qed.

Lemma Qleb_gt (x y : Q) : Qleb x y = false <-> y < x.
Proof.
  unfold Qleb. split; intros H.
  - apply Qnot_le_lt. intros Hle. apply Qle_bool_iff in Hle. congruence.
  - destruct (Qle_bool x y) eqn:E; [|reflexivity].
    apply Qle_bool_iff in E. exfalso. apply (Qlt_not_le _ _ H E).
Qed.

Lemma truthy_true (x : Q) : truthy x = true <-> ~ x == 0.
Proof.
  unfold truthy. rewrite negb_true_iff. split; intros H.
  - intros E. apply Qeq_bool_iff in E. congruence.
  - destruct (Qeq_bool x 0) eqn:E; [|reflexivity].
    apply Qeq_bool_iff in E. contradiction.
Qed.

Lemma py_div_ok (a b : Q) : ~ b == 0 -> py_div a b = Ok (a / b).
Proof.
  intros H. unfold py_div. destruct (Qeq_bool b 0) eqn:E; [|reflexivity].
  apply Qeq_bool_iff in E. contradiction.
Qed.

(** ** The risk manager's queries (risk.py) *)

Section RiskQueries.

Variable md : MarketData.t.
Variable rm : Risk.RiskManager.

(** [assess_token_risk] never returns a value, whatever the stack allows:
    it either fails in a market query or runs out of frames. *)
Lemma assess_token_risk_raises (frames : nat) (token : string) :
  exists e, Risk.assess_token_risk frames md rm token = Raise e.
Proof.
  revert token. induction frames as [|n IH]; intros token; simpl.
  - eauto.
  - unfold Risk.assess_token_risk_body.
    destruct (MarketData.get_volatility md token) as [v|e]; simpl; [|eauto].
    destruct (MarketData.get_volume md token) as [vol|e]; simpl; [|eauto].
    destruct (MarketData.get_market_cap md token) as [cap|e]; simpl; [|eauto].
    destruct (if Qltb cap 1000000 then _ else _) as [score liq].
    unfold Risk.calculate_position_size.
    destruct (IH token) as [e He]. rewrite He. simpl. eauto.
Qed.

Lemma calculate_position_size_raises (frames : nat) (token : string)
    (confidence : Q) (pv : option Q) :
  exists e,
    Risk.calculate_position_size (Risk.assess_token_risk frames md rm) rm
      token confidence pv = Raise e.
Proof.
  unfold Risk.calculate_position_size.
  destruct (assess_token_risk_raises frames token) as [e He].
  rewrite He. simpl. eauto.
Qed.

Lemma calculate_stop_loss_raises (frames : nat) (token : string)
    (entry_price confidence : Q) (pt : Risk.PositionType) :
  exists e,
    Risk.calculate_stop_loss (Risk.assess_token_risk frames md rm)
      token entry_price pt confidence = Raise e.
Proof.
  unfold Risk.calculate_stop_loss.
  destruct (assess_token_risk_raises frames token) as [e He].
  rewrite He. simpl. eauto.
Qed.

(** [can_open_position] returns only to refuse, on one of the four checks
    made before the token is assessed. *)
Lemma can_open_position_never_allows (frames : nat) (token : string)
    (position_size confidence : Q) :
  (exists e,
     Risk.can_open_position (Risk.assess_token_risk frames md rm) rm
       token position_size confidence = Raise e)
  \/ (exists reason,
        Risk.can_open_position (Risk.assess_token_risk frames md rm) rm
          token position_size confidence = Ok (false, reason)
        /\ reason <> Risk.HighRiskLowConfidence /\ reason <> Risk.PositionAllowed).
Proof.
  unfold Risk.can_open_position.
  destruct (Risk.emergency_stop_active rm).
  { right. eexists. split; [reflexivity|]. split; discriminate. }
  destruct (Risk.max_open_positions rm <=? size (Risk.positions rm))%nat.
  { right. eexists. split; [reflexivity|]. split; discriminate. }
  destruct (Qltb _ (- Risk.daily_loss_limit rm)).
  { right. eexists. split; [reflexivity|]. split; discriminate. }
  destruct (Qgtb position_size _).
  { right. eexists. split; [reflexivity|]. split; discriminate. }
  left. destruct (assess_token_risk_raises frames token) as [e He].
  rewrite He. simpl. eauto.
Qed.

End RiskQueries.

(** C3 (termination of the risk-manager queries).  The code does not do
    what the specification asks: for every token, confidence, market snapshot and
    stack depth, [assess_token_risk] and [calculate_position_size] end in an
    exception instead of a value, and [can_open_position] does so as soon
    as the four checks it makes before assessing the token pass. *)
Theorem C3_risk_queries_do_not_return :
  forall (frames : nat) (md : MarketData.t) (rm : Risk.RiskManager)
         (token : string) (position_size confidence : Q),
    (exists e, Risk.assess_token_risk frames md rm token = Raise e)
    /\ (exists e,
          Risk.calculate_position_size (Risk.assess_token_risk frames md rm) rm
            token confidence None = Raise e)
    /\ (forall allowed reason,
          Risk.can_open_position (Risk.assess_token_risk frames md rm) rm
            token position_size confidence = Ok (allowed, reason) ->
          allowed = false /\ reason <> Risk.HighRiskLowConfidence).
Proof.
  intros frames md rm token position_size confidence.
  split; [apply assess_token_risk_raises|].
  split; [apply calculate_position_size_raises|].
  intros allowed reason H.
  destruct (can_open_position_never_allows md rm frames token position_size confidence)
    as [[e He]|[r [Hr [H1 H2]]]]; rewrite H in *.
  - discriminate.
  - inversion Hr; subst. split; [reflexivity|assumption].
Qed.

(** The failing input of C3: a fresh risk manager over the default wallet,
    token ETH, a market without price data and a stack of 1000 frames. *)
Example assess_token_risk_ETH :
  Risk.assess_token_risk 1000 (MarketData.provider (fun _ => 0) (fun _ => None))
    (Risk.init 40000) "ETH" = Raise RecursionError.
Proof. vm_compute. reflexivity. Qed.

(** With a price for ETH the volume query fails first. *)
Example assess_token_risk_ETH_priced :
  Risk.assess_token_risk 1000 (MarketData.provider (fun _ => 3000) (fun _ => Some 0.8))
    (Risk.init 40000) "ETH" = Raise AttributeError.
Proof. vm_compute. reflexivity. Qed.

Example can_open_position_ETH :
  Risk.can_open_position
    (Risk.assess_token_risk 1000 (MarketData.provider (fun _ => 0) (fun _ => None))
       (Risk.init 40000))
    (Risk.init 40000) "ETH" 1000 0.9 = Raise RecursionError.
Proof. vm_compute. reflexivity. Qed.

(** A refusal is still returned when a check made before the assessment
    fails: 5000 USD exceeds 10% of a portfolio of 40000. *)
Example can_open_position_oversize :
  exists max,
    Risk.can_open_position
      (Risk.assess_token_risk 1000 (MarketData.provider (fun _ => 0) (fun _ => None))
         (Risk.init 40000))
      (Risk.init 40000) "ETH" 5000 0.9
    = Ok (false, Risk.PositionSizeExceedsMax 5000 max)
    /\ max == 4000.
Proof. eexists. split; [vm_compute; reflexivity|reflexivity]. Qed.

(** ** Protective levels (risk.py) *)

(** With the risk manager of the repository [execute_buy] stops at the
    risk check: it raises there, or it is refused on one of the four
    checks made before the token is assessed.  The ledger is as it was. *)
Lemma execute_buy_never_executes (frames : nat) (md : MarketData.t) (pt : PaperTrader.t)
    (token : string) (amount_usd confidence : Q) (now : Time) :
  PaperTrader.execute_buy md
    (Risk.assess_token_risk frames md (PaperTrader.risk_manager pt))
    pt token amount_usd confidence now
  = (match Risk.can_open_position
             (Risk.assess_token_risk frames md (PaperTrader.risk_manager pt))
             (PaperTrader.risk_manager pt) token amount_usd confidence with
     | Raise e => Raise e
     | Ok (_, reason) => Ok (PaperTrader.RiskCheckFailed reason)
     end, pt).
Proof.
  unfold PaperTrader.execute_buy.
  destruct (can_open_position_never_allows md (PaperTrader.risk_manager pt)
              frames token amount_usd confidence) as [[e He]|[reason [Hr _]]].
  - rewrite He. reflexivity.
  - rewrite Hr. reflexivity.
Qed.

(** C5 (stop/take ordering at creation).  The code does not get as far as
    the levels.  [calculate_stop_loss] begins by assessing the token, and
    the assessment never returns (C3): for every token, entry price, side
    and confidence, on every market snapshot and with any stack, the call
    ends in an exception.  [execute_buy], the only place where the paper
    trader records a position, leaves the positions as they were. *)
Theorem C5_stop_loss_is_never_computed :
  forall (frames : nat) (md : MarketData.t) (rm : Risk.RiskManager) (token : string)
         (entry_price confidence : Q) (position_type : Risk.PositionType)
         (pt : PaperTrader.t) (amount_usd : Q) (now : Time),
    (exists e,
       Risk.calculate_stop_loss (Risk.assess_token_risk frames md rm)
         token entry_price position_type confidence = Raise e)
    /\ PaperTrader.positions
         (snd (PaperTrader.execute_buy md
                 (Risk.assess_token_risk frames md (PaperTrader.risk_manager pt))
                 pt token amount_usd confidence now))
       = PaperTrader.positions pt.
Proof.
  intros frames md rm token entry_price confidence position_type pt amount_usd now.
  split.
  - apply calculate_stop_loss_raises.
  - rewrite execute_buy_never_executes. reflexivity.
Qed.

(** The failing input of C5: a long stop for WETH at 3000. *)
Example calculate_stop_loss_WETH :
  Risk.calculate_stop_loss
    (Risk.assess_token_risk 1000 (MarketData.provider (fun _ => 3000) (fun _ => Some 0.8))
       (Risk.init 40000))
    "WETH" 3000 Risk.Long 0.9 = Raise AttributeError.
Proof. vm_compute. reflexivity. Qed.

(** The cap of 20% is on the percentage scaled by the volatility.  The
    confidence multiplier, up to 1.5, is applied to the capped percentage:
    at a volatility of 3 and a confidence of 0 the formula asks for a stop
    wider than 20%. *)
Example stop_width_after_cap :
  Risk.capped_stop_pct 3 == 0.20
  /\ 0.20 < Risk.capped_stop_pct 3 * (1.0 + (1 - 0) * 0.5).
Proof. split; reflexivity. Qed.

(** ** The wallet: valuation and swaps (paper_trader.py) *)

Section Valuation.

Variable price : string -> Q.



Lemma bal_get_some (b : gmap string Q) (k : string) (v : Q) :
  b !! k = Some v -> PaperWallet.bal_get b k = v.
Proof. intros H. unfold PaperWallet.bal_get. rewrite H. reflexivity. Qed.

End Valuation.

(** ** The ledger: buys and sells (paper_trader.py) *)


Lemma pays_gas_ne (token_in token_out : string) :
  PaperWallet.pays_gas token_in token_out = true ->
  upper token_in <> "ETH" /\ upper token_out <> "ETH".
Proof.
  unfold PaperWallet.pays_gas. intros H.
  apply andb_true_iff in H as [H1 H2].
  apply negb_true_iff in H1, H2.
  split; intros E; rewrite E in *; discriminate.
Qed.


Section Ledger64.

Local Open Scope float_scope.










End Ledger64.

(** A market that quotes WETH at the wallet's book price, and the default
    paper trader: 10 ETH and 10000 USDC. *)
Definition demo_market : MarketData.t :=
  MarketData.provider PaperWallet.book_price (fun _ => Some 3).

Definition demo_trader : PaperTrader.t := PaperTrader.init 10 10000.

(** ** Buying while a position is open (paper_trader.py, risk.py) *)

(** Every wallet made by [PaperWallet.__init__] has an ETH line, and no
    operation removes one. *)
Definition has_eth_line (w : PaperWallet.t) : Prop :=
  is_Some (PaperWallet.balances w !! "ETH").

Lemma init_has_eth_line (initial_eth initial_usdc : Q) :
  has_eth_line (PaperWallet.init initial_eth initial_usdc).
Proof. unfold has_eth_line. simpl. rewrite lookup_insert_eq. eauto. Qed.

(** A swap that raises has not touched a wallet with an ETH line. *)
Lemma transfer_raise_unchanged (w w' : PaperWallet.t) (token_in token_out : string)
    (amount_in rate : Q) (now : Time) (e : exn) :
  has_eth_line w ->
  PaperWallet.transfer w token_in token_out amount_in rate now = (Raise e, w') ->
  w' = w.
Proof.
  intros [eth Heth] Ht. unfold PaperWallet.transfer in Ht.
  destruct (Qgtb amount_in _); [inversion Ht; reflexivity|].
  destruct (PaperWallet.balances w !! upper token_in) as [b_in|];
    [|inversion Ht; reflexivity].
  destruct (PaperWallet.pays_gas token_in token_out) eqn:Hg; [|discriminate].
  destruct (pays_gas_ne _ _ Hg) as [Hin Hout].
  rewrite lookup_insert_ne in Ht by exact Hout.
  rewrite lookup_insert_ne in Ht by exact Hin.
  rewrite Heth in Ht. discriminate.
Qed.

Lemma with_wallet_same (pt : PaperTrader.t) :
  PaperTrader.with_wallet pt (PaperTrader.wallet pt) = pt.
Proof. destruct pt. reflexivity. Qed.

(** The ledger with another map of positions. *)
Definition holding (pt : PaperTrader.t) (positions : gmap string PaperTrader.Position)
  : PaperTrader.t :=
  {| PaperTrader.wallet := PaperTrader.wallet pt;
     PaperTrader.risk_manager := PaperTrader.risk_manager pt;
     PaperTrader.positions := positions;
     PaperTrader.trade_history := PaperTrader.trade_history pt;
     PaperTrader.start_value := PaperTrader.start_value pt;
     PaperTrader.highest_value := PaperTrader.highest_value pt;
     PaperTrader.lowest_value := PaperTrader.lowest_value pt |}.

(** A ledger that holds 1 WETH, bought for 3000 USD at 3000 and paid with
    0.01 ETH of gas: the books as a buy would leave them.  It is written
    down as data; with the risk manager as written no buy gets this far. *)
Definition weth_position : PaperTrader.Position :=
  {| PaperTrader.token := "WETH"; PaperTrader.ptype := Risk.Long;
     PaperTrader.size_usd := 3000; PaperTrader.token_amount := 1;
     PaperTrader.entry_price := 3000; PaperTrader.entry_time := 0%nat;
     PaperTrader.stop_loss := 2400; PaperTrader.take_profit := 3675;
     PaperTrader.confidence := 1;
     PaperTrader.entry_tx := PaperWallet.mkTx 0 "USDC" "WETH" 3000 1 0.01 0%nat |}.

Definition demo_bought : PaperTrader.t :=
  {| PaperTrader.wallet :=
       {| PaperWallet.balances :=
            <["ETH" := 9.99]>
              (<["WETH" := 1]>
                 (<["USDC" := 7000]> (PaperWallet.balances (PaperTrader.wallet demo_trader))));
          PaperWallet.tx_history := [PaperWallet.mkTx 0 "USDC" "WETH" 3000 1 0.01 0%nat] |};
     PaperTrader.risk_manager := PaperTrader.risk_manager demo_trader;
     PaperTrader.positions := {[ "WETH" := weth_position ]};
     PaperTrader.trade_history := [];
     PaperTrader.start_value := PaperTrader.start_value demo_trader;
     PaperTrader.highest_value := PaperTrader.highest_value demo_trader;
     PaperTrader.lowest_value := 39970 |}.

(** C2 (single open position per symbol).  The code does not refuse the
    second buy: [execute_buy] never looks at the positions map, and what
    it does is decided by the risk check alone.  With the risk manager of
    the repository the ledger is always left as it was, but the call ends
    in an exception, unless one of the four checks made before the token
    is assessed refuses the order, for a reason that has nothing to do
    with the open position.  On the default ledger holding WETH, a second
    buy of WETH raises [AttributeError]. *)
Theorem C2_second_buy_raises :
  forall (frames : nat) (md : MarketData.t) (pt : PaperTrader.t) (token : string)
         (amount_usd confidence : Q) (now : Time),
    let assess := Risk.assess_token_risk frames md (PaperTrader.risk_manager pt) in
    let outcome := PaperTrader.execute_buy md assess pt token amount_usd confidence now in
    snd outcome = pt
    /\ ((exists e, fst outcome = Raise e)
        \/ (exists reason,
              fst outcome = Ok (PaperTrader.RiskCheckFailed reason)
              /\ reason <> Risk.HighRiskLowConfidence
              /\ reason <> Risk.PositionAllowed))
    /\ (forall positions : gmap string PaperTrader.Position,
          fst (PaperTrader.execute_buy md assess (holding pt positions)
                 token amount_usd confidence now)
          = fst outcome)
    /\ is_Some (PaperTrader.positions demo_bought !! "WETH")
    /\ PaperTrader.execute_buy demo_market
         (Risk.assess_token_risk 1000 demo_market (PaperTrader.risk_manager demo_bought))
         demo_bought "WETH" 1000 1 1%nat
       = (Raise AttributeError, demo_bought).
Proof.
  intros frames md pt token amount_usd confidence now assess outcome.
  subst outcome assess.
  split; [|split; [|split; [|split]]].
  - rewrite execute_buy_never_executes. reflexivity.
  - rewrite execute_buy_never_executes. cbn [fst].
    destruct (can_open_position_never_allows md (PaperTrader.risk_manager pt)
                frames token amount_usd confidence) as [[e He]|[reason [Hr [H1 H2]]]].
    + left. exists e. rewrite He. reflexivity.
    + right. exists reason. rewrite Hr. repeat split; assumption.
  - intros positions.
    rewrite (execute_buy_never_executes frames md pt).
    change (PaperTrader.risk_manager pt)
      with (PaperTrader.risk_manager (holding pt positions)).
    rewrite (execute_buy_never_executes frames md (holding pt positions)).
    reflexivity.
  - vm_compute. eauto.
  - vm_compute. reflexivity.
Qed.

(** ** Gas and the ETH balance (paper_trader.py) *)

(** The gas is debited whatever the ETH balance is. *)
Lemma transfer_debits_gas (w w' : PaperWallet.t) (token_in token_out : string)
    (amount_in rate : Q) (now : Time) (out gas : Q) (tx : PaperWallet.TxInfo) :
  PaperWallet.pays_gas token_in token_out = true ->
  PaperWallet.transfer w token_in token_out amount_in rate now = (Ok (out, gas, tx), w') ->
  PaperWallet.get_balance w' "ETH" = PaperWallet.get_balance w "ETH" - PaperWallet.gas_cost.
Proof.
  intros Hg Ht. destruct (pays_gas_ne _ _ Hg) as [Hin Hout].
  unfold PaperWallet.transfer in Ht. rewrite Hg in Ht.
  destruct (Qgtb amount_in _); [discriminate|].
  destruct (PaperWallet.balances w !! upper token_in) as [b_in|]; [|discriminate].
  rewrite lookup_insert_ne in Ht by exact Hout.
  rewrite lookup_insert_ne in Ht by exact Hin.
  destruct (PaperWallet.balances w !! "ETH") as [e|] eqn:He; [|discriminate].
  inversion Ht; subst; clear Ht.
  unfold PaperWallet.get_balance. change (upper "ETH") with "ETH". simpl.
  rewrite (bal_get_some _ _ _ He).
  apply bal_get_some. apply lookup_insert_eq.
Qed.

(** One swap of one USDC into DAI at the market's price. *)
Definition swap_usdc_dai (pt : PaperTrader.t) : PaperTrader.t :=
  snd (PaperTrader.execute_swap demo_market pt "USDC" "DAI" 1 0%nat).

(** C9 (no balance below zero).  The code does not keep it: from the
    default wallet (10 ETH, 10000 USDC), 1001 swaps of one USDC into DAI
    each succeed and each pay 0.01 ETH of gas, and leave an ETH balance of
    -0.01. *)
Theorem C9_gas_drives_eth_below_zero :
  PaperWallet.get_balance (PaperTrader.wallet (Nat.iter 1001 swap_usdc_dai demo_trader)) "ETH"
  == -0.01
  /\ PaperWallet.get_balance
       (PaperTrader.wallet (Nat.iter 1001 swap_usdc_dai demo_trader)) "ETH" < 0
  /\ length (PaperWallet.tx_history
               (PaperTrader.wallet (Nat.iter 1001 swap_usdc_dai demo_trader))) = 1001%nat.
Proof. vm_compute. repeat split; reflexivity. Qed.

(** With no ETH to begin with, the first swap does it. *)
Example first_swap_without_eth :
  PaperWallet.get_balance
    (PaperTrader.wallet (swap_usdc_dai (PaperTrader.init 0 10000))) "ETH" == -0.01.
Proof. vm_compute. reflexivity. Qed.

(** ** The consensus aggregator (strategies.py) *)

Lemma fold_left_Qplus_acc (xs : list Q) (acc : Q) :
  fold_left Qplus xs acc == acc + fold_right Qplus 0 xs.
Proof.
  revert acc. induction xs as [|x xs IH]; intros acc; simpl.
  - ring.
  - rewrite IH. ring.
Qed.

Lemma py_sum_is_sum (xs : list Q) : Strategies.py_sum xs == fold_right Qplus 0 xs.
Proof. unfold Strategies.py_sum. rewrite fold_left_Qplus_acc. ring. Qed.

(** The three outcomes of the vote, in terms of the counts. *)
Lemma consensus_action_rule (signals : list Strategies.TradeSignal) :
  let buys := Strategies.count_action Strategies.Buy signals in
  let sells := Strategies.count_action Strategies.Sell signals in
  (Strategies.consensus_action signals = Strategies.Buy <-> (sells < buys)%nat)
  /\ (Strategies.consensus_action signals = Strategies.Sell <-> (buys < sells)%nat)
  /\ (Strategies.consensus_action signals = Strategies.Hold <-> buys = sells).
Proof.
  intros buys sells. unfold Strategies.consensus_action.
  fold buys. fold sells.
  destruct (Nat.ltb_spec sells buys); [|destruct (Nat.ltb_spec buys sells)];
    repeat split; intros; try discriminate; try reflexivity; lia.
Qed.

(** C4 (consensus aggregation).  The code does not return the consensus
    it computes.  The signal it builds carries the list
    [[s.to_dict() for s in signals]], and [TradeSignal] is a dataclass
    with six fields and no method [to_dict]: for every token and every
    non-empty list of signals the call ends in [AttributeError].  Only
    the empty list gets an answer, the hold of confidence 0. *)
Theorem C4_consensus_raises_on_signals :
  forall (s : Strategies.TradeSignal) (rest : list Strategies.TradeSignal)
         (token : string) (now : Time),
    Strategies.get_consensus_signal Strategies.dataclass_to_dict (s :: rest) token now
    = Raise AttributeError
    /\ Strategies.get_consensus_signal Strategies.dataclass_to_dict [] token now
       = Ok {| Strategies.token := token; Strategies.action := Strategies.Hold;
               Strategies.confidence := 0.0; Strategies.strategy := "consensus";
               Strategies.timestamp := now; Strategies.metadata := Strategies.NoMetadata |}.
Proof.
  intros s rest token now. split; reflexivity.
Qed.

(** The failing input of C4: one buy and two holds. *)
Definition one_buy_two_holds : list Strategies.TradeSignal :=
  [ Strategies.mkSignal "ETH" Strategies.Buy 0.7 "grid_trading" 0%nat Strategies.NoMetadata;
    Strategies.mkSignal "ETH" Strategies.Hold 0.5 "trend_following" 0%nat Strategies.NoMetadata;
    Strategies.mkSignal "ETH" Strategies.Hold 0.0 "momentum" 0%nat Strategies.InsufficientData ].

Example get_consensus_signal_one_buy_two_holds :
  Strategies.get_consensus_signal Strategies.dataclass_to_dict one_buy_two_holds "ETH" 1%nat
  = Raise AttributeError.
Proof. reflexivity. Qed.

(** The action chosen before the call fails weighs the buys against the
    sells only: with one buy and two holds the holds have the majority
    and the action is buy. *)
Example hold_votes_do_not_weigh :
  Strategies.spec_has_majority Strategies.Hold one_buy_two_holds
  /\ Strategies.consensus_action one_buy_two_holds = Strategies.Buy.
Proof. split; [vm_compute; lia|reflexivity]. Qed.

(** ** The regime classifier (auto_paper_trader.py) *)

Lemma sum_step_pcts_ok (recent : list Q) (acc : Q) :
  Forall (fun p => 0 < p) recent ->
  AutoTrader.sum_step_pcts recent acc
  = Ok (fold_left Qplus (AutoTrader.spec_step_pcts recent) acc).
Proof.
  intros H. revert acc.
  induction H as [|prev rest Hprev Hrest IH]; intros acc; [reflexivity|].
  destruct rest as [|cur rest']; [reflexivity|].
  cbn [AutoTrader.sum_step_pcts AutoTrader.spec_step_pcts fold_left].
  rewrite py_div_ok by lra. cbn [Py.bind].
  apply IH.
Qed.

Lemma last_n_length {A : Type} (n : nat) (xs : list A) :
  (n <= length xs)%nat -> length (AutoTrader.last_n n xs) = n.
Proof. intros H. unfold AutoTrader.last_n. rewrite length_drop. lia. Qed.

Lemma last_n_Forall {A : Type} (P : A -> Prop) (n : nat) (xs : list A) :
  Forall P xs -> Forall P (AutoTrader.last_n n xs).
Proof. intros H. unfold AutoTrader.last_n. apply Forall_drop. exact H. Qed.

(** What the classifier computes on a window of positive prices. *)
Lemma detect_market_regime_eq (price_history : list Q) :
  (12 <= length price_history)%nat ->
  Forall (fun p => 0 < p) price_history ->
  let recent := AutoTrader.last_n 12 price_history in
  let change := AutoTrader.spec_change_pct recent in
  let vol := fold_left Qplus (AutoTrader.spec_step_pcts recent) 0 / 12 in
  AutoTrader.detect_market_regime price_history
  = Ok (if Qgtb change 3 && Qltb vol 2 then AutoTrader.trending_up
        else if Qltb change (-3) && Qltb vol 2 then AutoTrader.trending_down
        else AutoTrader.choppy).
Proof.
  intros Hlen Hpos recent change vol.
  unfold AutoTrader.detect_market_regime.
  destruct (Nat.ltb_spec (length price_history) 12) as [Hlt|_]; [lia|].
  fold recent.
  assert (Hrec : Forall (fun p => 0 < p) recent) by (apply last_n_Forall; exact Hpos).
  assert (Hrlen : length recent = 12%nat) by (apply last_n_length; exact Hlen).
  assert (Hhd : 0 < List.hd 0 recent).
  { destruct recent as [|x r]; [discriminate|]. inversion Hrec; assumption. }
  rewrite py_div_ok by lra. cbn [Py.bind].
  rewrite (sum_step_pcts_ok recent 0 Hrec). cbn [Py.bind].
  rewrite Hrlen.
  change (inject_Z (Z.of_nat 12)) with 12.
  fold vol. unfold AutoTrader.spec_change_pct in change. fold change.
  destruct (Qgtb change 3 && Qltb vol 2); [reflexivity|].
  destruct (Qltb change (-3) && Qltb vol 2); reflexivity.
Qed.

Section Regime64.

Local Open Scope float_scope.

Definition is_zero (x : float) : bool := x =? 0.

Lemma py_div64_zero (a b : float) :
  is_zero b = true -> B64.py_div a b = Raise ZeroDivisionError.
Proof. unfold B64.py_div, is_zero. intros ->. reflexivity. Qed.

Lemma py_div64_ok (a b : float) :
  is_zero b = false -> B64.py_div a b = Ok (a / b).
Proof. unfold B64.py_div, is_zero. intros ->. reflexivity. Qed.

(** The samples [detect_market_regime] divides by: all but the last. *)
Definition divisors (recent : list float) : list float := removelast recent.

Lemma sum_step_pcts64_eq (recent : list float) (acc : float) :
  AutoTrader64.sum_step_pcts recent acc
  = if existsb is_zero (divisors recent) then Raise ZeroDivisionError
    else Ok (fold_left PrimFloat.add (AutoTrader64.spec_step_pcts recent) acc).
Proof.
  revert acc. induction recent as [|prev rest IH]; intros acc; [reflexivity|].
  destruct rest as [|cur rest']; [reflexivity|].
  change (divisors (prev :: cur :: rest')) with (prev :: divisors (cur :: rest')).
  cbn [AutoTrader64.sum_step_pcts AutoTrader64.spec_step_pcts fold_left existsb].
  destruct (is_zero prev) eqn:Hz.
  - rewrite (py_div64_zero _ _ Hz). reflexivity.
  - rewrite (py_div64_ok _ _ Hz). cbn [Py.bind orb]. apply IH.
Qed.

(** The two numbers the rule compares, as the code computes them from
    the twelve samples it looks at: the change from the first to the last
    of them, and the sum of their eleven steps divided by twelve. *)
Definition change_pct (recent : list float) : float :=
  (List.last recent 0 / List.hd 0 recent - 1) * 100.

Definition volatility (recent : list float) : float :=
  B64.py_sum (AutoTrader64.spec_step_pcts recent) / B64.of_nat (length recent).

(** The classifier raises when it meets a zero among the samples it
    divides by. *)
Definition classifier_raises (price_history : list float) : bool :=
  negb (length price_history <? 12)%nat
  && existsb is_zero (divisors (AutoTrader.last_n 12 price_history)).

Lemma detect_market_regime64_eq (price_history : list float) :
  AutoTrader64.detect_market_regime price_history
  = if (length price_history <? 12)%nat then Ok AutoTrader.unknown
    else if classifier_raises price_history then Raise ZeroDivisionError
    else
      let recent := AutoTrader.last_n 12 price_history in
      Ok (AutoTrader64.regime_rule (change_pct recent) (volatility recent)).
Proof.
  unfold AutoTrader64.detect_market_regime, classifier_raises.
  destruct (Nat.ltb_spec (length price_history) 12) as [Hlt|Hge]; [reflexivity|].
  cbv zeta. cbn [negb andb].
  set (recent := AutoTrader.last_n 12 price_history).
  assert (Hlen : length recent = 12%nat) by (apply last_n_length; exact Hge).
  rewrite sum_step_pcts64_eq.
  destruct recent as [|first rest] eqn:E; [discriminate|].
  destruct rest as [|second rest']; [discriminate|].
  change (divisors (first :: second :: rest')) with (first :: divisors (second :: rest')).
  cbn [hd existsb].
  destruct (is_zero first) eqn:Hz.
  - rewrite (py_div64_zero _ _ Hz). reflexivity.
  - rewrite (py_div64_ok _ _ Hz). cbn [Py.bind orb].
    destruct (existsb is_zero (divisors (second :: rest'))); [reflexivity|].
    cbn [Py.bind]. unfold AutoTrader64.regime_rule, change_pct, volatility, B64.py_sum.
    cbn [hd].
    destruct (_ && _); [reflexivity|]. destruct (_ && _); reflexivity.
Qed.


(** Two windows on which the rule of the specification and the code differ. *)
Definition flat_then_jump : list float :=
  [100; 100; 100; 100; 100; 100; 100; 100; 100; 100; 100; 123].




(** The rule at work: on the first window the change is 23% and the
    volatility 23/12; on a rise of 3 in 100 the change computed is
    3.0000000000000027, which is more than 3. *)
Example detect_market_regime_flat_then_jump :
  AutoTrader64.detect_market_regime flat_then_jump = Ok AutoTrader.trending_up
  /\ B64.gtb (change_pct flat_then_jump) 3 = true
  /\ (volatility flat_then_jump <? 2) = true.
Proof. vm_compute. repeat split; reflexivity. Qed.

Example detect_market_regime_three_percent :
  let window := [100; 100; 100; 100; 100; 100; 100; 100; 100; 100; 100; 103] in
  change_pct window = 3.0000000000000027
  /\ AutoTrader64.detect_market_regime window = Ok AutoTrader.trending_up.
Proof. vm_compute. split; reflexivity. Qed.

Example detect_market_regime_zero_price :
  AutoTrader64.detect_market_regime [1; 1; 1; 1; 1; 1; 1; 1; 1; 1; 0; 1]
  = Raise ZeroDivisionError.
Proof. vm_compute. reflexivity. Qed.

End Regime64.

(** ** The adaptive trader (auto_paper_trader.py) *)

(** On positive prices the classifier returns a regime. *)
Lemma detect_market_regime_returns (price_history : list Q) :
  Forall (fun p => 0 < p) price_history ->
  exists regime, AutoTrader.detect_market_regime price_history = Ok regime.
Proof.
  intros Hpos.
  destruct (Nat.lt_ge_cases (length price_history) 12) as [Hlt|Hge].
  - exists AutoTrader.unknown. unfold AutoTrader.detect_market_regime.
    destruct (Nat.ltb_spec (length price_history) 12); [reflexivity|lia].
  - rewrite (detect_market_regime_eq price_history Hge Hpos). eauto.
Qed.

Section AutoTrader64Facts.

Local Open Scope float_scope.

(** Scenario A: the default state (10000 USDC, no MATIC) has seen the
    price 0.50 and buys there, for whatever reason the signal gave; the
    next cycle sees 0.55. *)
Definition scenario_start : AutoTrader64.State :=
  AutoTrader64.record_price AutoTrader64.default_state 0.50.

Definition scenario_buy (reason : AutoTrader64.Reason)
  : result bool * AutoTrader64.State * AutoTrader64.LearningData :=
  AutoTrader64.execute_trade scenario_start AutoTrader.BUY 0.50 reason
    AutoTrader64.default_learning_data 1%nat.

Definition scenario_bought (reason : AutoTrader64.Reason) : AutoTrader64.State :=
  snd (fst (scenario_buy reason)).

Definition scenario_exit (reason : AutoTrader64.Reason)
  : result (option AutoTrader.Signal * AutoTrader64.Reason * bool)
    * AutoTrader64.State * AutoTrader64.LearningData :=
  AutoTrader64.trading_cycle (scenario_bought reason) (snd (scenario_buy reason)) 0.55 2%nat.

Definition scenario_closed (reason : AutoTrader64.Reason) : AutoTrader64.State :=
  snd (fst (scenario_exit reason)).

(** C7, as stated, fails: the realized P&L of scenario A is not exactly
    100.  The code computes it as [(0.55 - 0.5) * 2000]; the difference of
    the two binary64 prices is a little more than 0.05, and the product is
    100.00000000000009. *)
Lemma C7_counterexample :
  let reason := AutoTrader64.Dip (-3.5) AutoTrader.unknown in
  fst (fst (scenario_exit reason))
  = Ok (Some AutoTrader.SELL, AutoTrader64.TakeProfit 10.000000000000009, true)
  /\ AutoTrader64.total_pnl (scenario_closed reason) = 100.00000000000009
  /\ (AutoTrader64.total_pnl (scenario_closed reason) =? 100) = false
  /\ (100 <? AutoTrader64.total_pnl (scenario_closed reason)) = true.
Proof. vm_compute. repeat split; reflexivity. Qed.

(** C7, amended (scenario A).  From 10000 USDC at the price 0.50 the buy
    spends 1000 for 2000 MATIC at the entry price 0.50.  In the cycle that
    sees 0.55 the strategy answers SELL for the take profit (the gain it
    computes is 10.000000000000009%, the default threshold 5%), the trade
    is made, the position is closed and no MATIC is left, the cash grows by
    2000 * 0.55 = 1100 to 10100, the realized P&L is
    [(0.55 - 0.5) * 2000 = 100.00000000000009] and the count of wins goes
    from 0 to 1. *)
Theorem C7_scenario_A :
  forall reason : AutoTrader64.Reason,
    fst (fst (scenario_buy reason)) = Ok true
    /\ AutoTrader64.balance_usdc scenario_start = 10000
    /\ AutoTrader64.balance_usdc (scenario_bought reason) = 9000
    /\ AutoTrader64.balance_matic (scenario_bought reason) = 2000
    /\ AutoTrader64.entry_price (scenario_bought reason) = Some 0.50
    /\ AutoTrader64.position (scenario_bought reason) = Some AutoTrader.LONG
    /\ fst (fst (scenario_exit reason))
       = Ok (Some AutoTrader.SELL, AutoTrader64.TakeProfit 10.000000000000009, true)
    /\ AutoTrader64.take_profit (AutoTrader64.optimal_params (snd (scenario_exit reason))) = 5
    /\ AutoTrader64.position (scenario_closed reason) = None
    /\ AutoTrader64.balance_matic (scenario_closed reason) = 0
    /\ AutoTrader64.balance_usdc (scenario_closed reason)
       = AutoTrader64.balance_usdc (scenario_bought reason) + 2000 * 0.55
    /\ 2000 * 0.55 = 1100
    /\ AutoTrader64.balance_usdc (scenario_closed reason) = 10100
    /\ AutoTrader64.total_pnl (scenario_closed reason)
       = AutoTrader64.total_pnl (scenario_bought reason) + (0.55 - 0.5) * 2000
    /\ AutoTrader64.total_pnl (scenario_closed reason) = 100.00000000000009
    /\ AutoTrader64.win_count (scenario_bought reason) = 0%Z
    /\ AutoTrader64.win_count (scenario_closed reason) = 1%Z
    /\ AutoTrader64.loss_count (scenario_closed reason) = 0%Z.
Proof.
  intros reason. vm_compute.
  repeat match goal with
  | |- _ /\ _ => split
  end; reflexivity.
Qed.

Definition is_widening (a : AutoTrader64.Adaptation) : bool :=
  match a with
  | AutoTrader64.WidenedStopLoss _ => true
  | _ => false
  end.

Lemma filter_widening_once (before after : list AutoTrader64.Adaptation) (old_sl : float) :
  List.filter is_widening before = [] ->
  List.filter is_widening after = [] ->
  List.filter is_widening ((before ++ [AutoTrader64.WidenedStopLoss old_sl]) ++ after)
  = [AutoTrader64.WidenedStopLoss old_sl].
Proof.
  intros Hb Ha. rewrite !List.filter_app, Hb, Ha. reflexivity.
Qed.

(** The tuner with at least three losses in a row. *)
Lemma adapt_strategy64_three_losses (learning_data : AutoTrader64.LearningData)
    (state : AutoTrader64.State) (now : Time) :
  (3 <= AutoTrader64.consecutive_losses state)%Z ->
  exists (outcome : result (list AutoTrader64.Adaptation))
         (learning_data' : AutoTrader64.LearningData),
    AutoTrader64.adapt_strategy learning_data state now
    = (outcome, learning_data', AutoTrader64.set_consecutive_losses state 0)
    /\ AutoTrader64.stop_loss (AutoTrader64.optimal_params learning_data') = -4.0
    /\ if classifier_raises (AutoTrader64.hourly_prices state)
       then outcome = Raise ZeroDivisionError
            /\ AutoTrader64.adaptation_history learning_data'
               = AutoTrader64.adaptation_history learning_data
       else exists adaptations,
              outcome = Ok adaptations
              /\ List.filter is_widening adaptations
                 = [AutoTrader64.WidenedStopLoss
                      (AutoTrader64.stop_loss (AutoTrader64.optimal_params learning_data))]
              /\ AutoTrader64.adaptation_history learning_data'
                 = AutoTrader64.adaptation_history learning_data
                   ++ [{| AutoTrader64.at_time := now;
                          AutoTrader64.changes := adaptations;
                          AutoTrader64.new_params :=
                            AutoTrader64.optimal_params learning_data' |}].
Proof.
  intros Hloss.
  unfold AutoTrader64.adapt_strategy.
  destruct (Z.leb_spec 3 (AutoTrader64.consecutive_losses state)) as [_|Hlt]; [|lia].
  set (tuned :=
    if (5 <=? AutoTrader64.wins (AutoTrader64.perf_momentum learning_data)
              + AutoTrader64.losses (AutoTrader64.perf_momentum learning_data))%Z
    then _ else _).
  assert (Htuned :
    AutoTrader64.stop_loss (fst tuned)
    = AutoTrader64.stop_loss (AutoTrader64.optimal_params learning_data)
    /\ List.filter is_widening (snd tuned) = []).
  { subst tuned.
    destruct (5 <=? _)%Z; [|split; reflexivity].
    destruct (_ <? 0.4); [split; reflexivity|].
    destruct (B64.gtb _ 0.6); split; reflexivity. }
  destruct tuned as [params adaptations]. cbn [fst snd] in Htuned.
  destruct Htuned as [Hsl Hnone].
  cbn [AutoTrader64.hourly_prices AutoTrader64.set_consecutive_losses].
  rewrite detect_market_regime64_eq.
  unfold classifier_raises.
  assert (Hok : forall regime : AutoTrader.Regime,
    exists (outcome : result (list AutoTrader64.Adaptation))
           (learning_data' : AutoTrader64.LearningData),
      (let '(params0, adaptations0) :=
         match regime with
         | AutoTrader.trending_up =>
           (AutoTrader64.set_take_profit (AutoTrader64.set_stop_loss params (-4.0)) 7.0,
            (adaptations ++ [AutoTrader64.WidenedStopLoss (AutoTrader64.stop_loss params)])
              ++ [AutoTrader64.IncreasedTakeProfit])
         | AutoTrader.choppy =>
           (AutoTrader64.set_take_profit (AutoTrader64.set_stop_loss params (-4.0)) 3.0,
            (adaptations ++ [AutoTrader64.WidenedStopLoss (AutoTrader64.stop_loss params)])
              ++ [AutoTrader64.LoweredTakeProfit])
         | _ =>
           (AutoTrader64.set_stop_loss params (-4.0),
            adaptations ++ [AutoTrader64.WidenedStopLoss (AutoTrader64.stop_loss params)])
         end in
       let learning_data0 := AutoTrader64.with_params learning_data params0 in
       match adaptations0 with
       | [] => (Ok adaptations0, learning_data0, AutoTrader64.set_consecutive_losses state 0)
       | _ :: _ =>
         (Ok adaptations0,
          {| AutoTrader64.perf_momentum := AutoTrader64.perf_momentum learning_data0;
             AutoTrader64.perf_dip_buying := AutoTrader64.perf_dip_buying learning_data0;
             AutoTrader64.perf_breakout := AutoTrader64.perf_breakout learning_data0;
             AutoTrader64.optimal_params := params0;
             AutoTrader64.adaptation_history :=
               AutoTrader64.adaptation_history learning_data0
                 ++ [{| AutoTrader64.at_time := now;
                        AutoTrader64.changes := adaptations0;
                        AutoTrader64.new_params := params0 |}] |},
          AutoTrader64.set_consecutive_losses state 0)
       end)
      = (outcome, learning_data', AutoTrader64.set_consecutive_losses state 0)
      /\ AutoTrader64.stop_loss (AutoTrader64.optimal_params learning_data') = -4.0
      /\ exists adaptations1,
           outcome = Ok adaptations1
           /\ List.filter is_widening adaptations1
              = [AutoTrader64.WidenedStopLoss
                   (AutoTrader64.stop_loss (AutoTrader64.optimal_params learning_data))]
           /\ AutoTrader64.adaptation_history learning_data'
              = AutoTrader64.adaptation_history learning_data
                ++ [{| AutoTrader64.at_time := now;
                       AutoTrader64.changes := adaptations1;
                       AutoTrader64.new_params :=
                         AutoTrader64.optimal_params learning_data' |}]).
  { intros regime.
    destruct regime; cbv beta iota zeta;
      match goal with
      | |- context [match ?l with [] => _ | _ :: _ => _ end] =>
        let E := fresh "E" in
        destruct l eqn:E;
          [ exfalso; apply app_eq_nil in E as [_ E]; discriminate E
          | rewrite <- E ]
      end;
      do 2 eexists; (split; [reflexivity|]); (split; [reflexivity|]);
      eexists; (split; [reflexivity|]); (split; [|reflexivity]);
      rewrite <- Hsl.
    - rewrite <- (app_nil_r (_ ++ [_])).
      apply filter_widening_once; [exact Hnone|reflexivity].
    - apply filter_widening_once; [exact Hnone|reflexivity].
    - rewrite <- (app_nil_r (_ ++ [_])).
      apply filter_widening_once; [exact Hnone|reflexivity].
    - apply filter_widening_once; [exact Hnone|reflexivity]. }
  destruct (length (AutoTrader64.hourly_prices state) <? 12)%nat; cbn [negb andb].
  - exact (Hok AutoTrader.unknown).
  - destruct (existsb is_zero _).
    + do 2 eexists. split; [reflexivity|]. split; [reflexivity|].
      split; reflexivity.
    + cbv zeta. apply Hok.
Qed.

(** A state with three losses in a row over the rising window. *)
Definition three_losses : AutoTrader64.State :=
  {| AutoTrader64.balance_usdc := 9910; AutoTrader64.balance_matic := 0;
     AutoTrader64.trades := []; AutoTrader64.total_pnl := -90;
     AutoTrader64.win_count := 0; AutoTrader64.loss_count := 3;
     AutoTrader64.last_price := 123; AutoTrader64.hourly_prices := flat_then_jump;
     AutoTrader64.position := None; AutoTrader64.entry_price := Some 100;
     AutoTrader64.last_trade_time := None; AutoTrader64.trades_today := 3;
     AutoTrader64.daily_pnl := -90; AutoTrader64.consecutive_losses := 3;
     AutoTrader64.best_trade := None; AutoTrader64.worst_trade := None |}.

(** The learning data after the tuner has run once on that state: the
    stop loss stands at -4%. *)
Definition tuned_once : AutoTrader64.LearningData :=
  snd (fst (AutoTrader64.adapt_strategy AutoTrader64.default_learning_data three_losses
              7%nat)).

(** The same state once two zero prices have been recorded. *)
Definition three_losses_zero_price : AutoTrader64.State :=
  AutoTrader64.record_price (AutoTrader64.record_price three_losses 0) 0.

(** The stop is wider when its threshold is further below zero. *)
Definition spec_widened (old new : float) : bool := new <? old.

(** C8, as stated, fails, in two ways.  After a first run has set the stop
    loss to -4%, three more losses make the tuner set -4% again: the
    stop is not widened, although the log gains an entry that says so.
    And when a zero price is among the samples the classifier divides by,
    the tuner raises after it has changed the stop loss and the counter:
    no entry is appended. *)
Lemma C8_counterexample :
  (let out := AutoTrader64.adapt_strategy tuned_once three_losses 8%nat in
   AutoTrader64.stop_loss (AutoTrader64.optimal_params tuned_once) = -4.0
   /\ AutoTrader64.stop_loss (AutoTrader64.optimal_params (snd (fst out))) = -4.0
   /\ spec_widened (AutoTrader64.stop_loss (AutoTrader64.optimal_params tuned_once))
        (AutoTrader64.stop_loss (AutoTrader64.optimal_params (snd (fst out)))) = false
   /\ fst (fst out)
      = Ok [AutoTrader64.WidenedStopLoss (-4.0); AutoTrader64.IncreasedTakeProfit])
  /\ (let out :=
        AutoTrader64.adapt_strategy AutoTrader64.default_learning_data
          three_losses_zero_price 7%nat in
      (3 <= AutoTrader64.consecutive_losses three_losses_zero_price)%Z
      /\ fst (fst out) = Raise ZeroDivisionError
      /\ AutoTrader64.stop_loss (AutoTrader64.optimal_params (snd (fst out))) = -4.0
      /\ AutoTrader64.consecutive_losses (snd out) = 0%Z
      /\ AutoTrader64.adaptation_history (snd (fst out))
         = AutoTrader64.adaptation_history AutoTrader64.default_learning_data).
Proof.
  split.
  - vm_compute. repeat split; reflexivity.
  - split; [discriminate|]. vm_compute. repeat split; reflexivity.
Qed.

(** C8, amended (three consecutive losses).  Whenever the tuner runs on a
    state with at least 3 consecutive losses it sets the stop loss to -4%,
    whatever it was, resets the counter to 0 and changes nothing else in
    the state.  If the classifier then raises (a zero among the samples it
    divides by), the tuner ends in [ZeroDivisionError] and the adaptation
    log is as it was.  Otherwise it returns its list of changes, exactly
    one of which is the widening, naming the stop loss as it was before,
    and the log has exactly one more entry, which carries the time, that
    list and the parameters as they now stand. *)
Theorem C8_three_losses_set_stop :
  forall (learning_data : AutoTrader64.LearningData) (state : AutoTrader64.State)
         (now : Time),
    (3 <= AutoTrader64.consecutive_losses state)%Z ->
    exists (outcome : result (list AutoTrader64.Adaptation))
           (learning_data' : AutoTrader64.LearningData),
      AutoTrader64.adapt_strategy learning_data state now
      = (outcome, learning_data', AutoTrader64.set_consecutive_losses state 0)
      /\ AutoTrader64.stop_loss (AutoTrader64.optimal_params learning_data') = -4.0
      /\ AutoTrader64.consecutive_losses (AutoTrader64.set_consecutive_losses state 0) = 0%Z
      /\ if classifier_raises (AutoTrader64.hourly_prices state)
         then outcome = Raise ZeroDivisionError
              /\ AutoTrader64.adaptation_history learning_data'
                 = AutoTrader64.adaptation_history learning_data
         else exists adaptations,
                outcome = Ok adaptations
                /\ List.filter is_widening adaptations
                   = [AutoTrader64.WidenedStopLoss
                        (AutoTrader64.stop_loss (AutoTrader64.optimal_params learning_data))]
                /\ AutoTrader64.adaptation_history learning_data'
                   = AutoTrader64.adaptation_history learning_data
                     ++ [{| AutoTrader64.at_time := now;
                            AutoTrader64.changes := adaptations;
                            AutoTrader64.new_params :=
                              AutoTrader64.optimal_params learning_data' |}].
Proof.
  intros learning_data state now Hloss.
  destruct (adapt_strategy64_three_losses learning_data state now Hloss)
    as [outcome [learning_data' [Hrun [Hstop Hlog]]]].
  exists outcome, learning_data'.
  split; [exact Hrun|]. split; [exact Hstop|]. split; [reflexivity|exact Hlog].
Qed.

Lemma C8_witness :
  exists (outcome : result (list AutoTrader64.Adaptation))
         (learning_data' : AutoTrader64.LearningData),
    AutoTrader64.adapt_strategy AutoTrader64.default_learning_data three_losses 7%nat
    = (outcome, learning_data', AutoTrader64.set_consecutive_losses three_losses 0)
    /\ AutoTrader64.stop_loss (AutoTrader64.optimal_params learning_data') = -4.0
    /\ AutoTrader64.consecutive_losses (AutoTrader64.set_consecutive_losses three_losses 0)
       = 0%Z
    /\ if classifier_raises (AutoTrader64.hourly_prices three_losses)
       then outcome = Raise ZeroDivisionError
            /\ AutoTrader64.adaptation_history learning_data'
               = AutoTrader64.adaptation_history AutoTrader64.default_learning_data
       else exists adaptations,
              outcome = Ok adaptations
              /\ List.filter is_widening adaptations
                 = [AutoTrader64.WidenedStopLoss
                      (AutoTrader64.stop_loss
                         (AutoTrader64.optimal_params AutoTrader64.default_learning_data))]
              /\ AutoTrader64.adaptation_history learning_data'
                 = AutoTrader64.adaptation_history AutoTrader64.default_learning_data
                   ++ [{| AutoTrader64.at_time := 7%nat;
                          AutoTrader64.changes := adaptations;
                          AutoTrader64.new_params :=
                            AutoTrader64.optimal_params learning_data' |}].
Proof.
  apply (C8_three_losses_set_stop AutoTrader64.default_learning_data three_losses 7%nat).
  discriminate.
Defined.

(** The run of the witness: the stop loss goes from -3% to -4% and, the
    window trending up, the take profit to 7%; one entry is logged. *)
Example adapt_strategy_three_losses :
  classifier_raises (AutoTrader64.hourly_prices three_losses) = false
  /\ fst (fst (AutoTrader64.adapt_strategy AutoTrader64.default_learning_data
                 three_losses 7%nat))
     = Ok [AutoTrader64.WidenedStopLoss (-3.0); AutoTrader64.IncreasedTakeProfit]
  /\ length (AutoTrader64.adaptation_history tuned_once) = 1%nat.
Proof. vm_compute. repeat split; reflexivity. Qed.

End AutoTrader64Facts.

(** ** Mean reversion on a constant window (strategies.py) *)

Lemma sum_const (xs : list Q) (p : Q) :
  Forall (fun x => x == p) xs ->
  fold_right Qplus 0 xs == inject_Z (Z.of_nat (length xs)) * p.
Proof.
  induction 1 as [|x xs Hx _ IH].
  - simpl. ring.
  - cbn [fold_right length]. rewrite IH, Hx, Nat2Z.inj_succ.
    unfold Z.succ. rewrite inject_Z_plus. ring.
Qed.

Lemma np_mean_const (xs : list Q) (p : Q) :
  xs <> [] ->
  Forall (fun x => x == p) xs ->
  Strategies.np_mean xs == p.
Proof.
  intros Hne H. unfold Strategies.np_mean.
  rewrite py_sum_is_sum, (sum_const xs p H).
  field. destruct xs as [|x xs]; [congruence|].
  cbn [length]. rewrite Nat2Z.inj_succ.
  unfold Qeq. simpl. lia.
Qed.

Section MeanReversion64.

Local Open Scope float_scope.



Definition is_finite (x : float) : bool :=
  negb (PrimFloat.is_nan x) && negb (PrimFloat.is_infinity x).

(** A finite number minus itself is +0. *)
Lemma sub_self (p : float) : is_finite p = true -> p - p = 0.
Proof.
  intros H.
  rewrite <- (FloatAxioms.SF2Prim_Prim2SF (p - p)).
  rewrite FloatAxioms.sub_spec.
  unfold is_finite, PrimFloat.is_nan, PrimFloat.is_infinity in H.
  rewrite !FloatAxioms.eqb_spec in H. rewrite FloatAxioms.abs_spec in H.
  destruct (Prim2SF p) as [[|]| [|] | |s m e] eqn:E.
  all: try reflexivity.
  all: try (simpl in H; discriminate).
  unfold SF64sub, SFsub. rewrite Z.sub_diag. reflexivity.
Qed.

(** When the deviation is nan every comparison fails and the signal is
    the initial hold. *)
Lemma analyze_nan (token : string) (prices : list float) (now : Time) :
  (24 <= length prices)%nat ->
  (List.last prices 0 - Numpy64.np_mean prices) / Numpy64.np_std prices = nan ->
  Strategies64.mean_reversion_analyze token prices now
  = {| Strategies64.token := token; Strategies64.action := Strategies.Hold;
       Strategies64.confidence := 0.0; Strategies64.strategy := "mean_reversion";
       Strategies64.timestamp := now;
       Strategies64.metadata :=
         Strategies64.MeanReversionData (List.last prices 0) (Numpy64.np_mean prices)
           nan nan |}.
Proof.
  intros Hlen Hdev. unfold Strategies64.mean_reversion_analyze.
  destruct (Nat.ltb_spec (length prices) 24); [lia|].
  cbv zeta. rewrite Hdev. reflexivity.
Qed.




Lemma last_repeat (p d : float) (n : nat) : List.last (repeat p (S n)) d = p.
Proof.
  induction n as [|n IH]; [reflexivity|].
  change (List.last (repeat p (S (S n))) d) with (List.last (repeat p (S n)) d).
  exact IH.
Qed.

(** The square root of the mean of up to 128 zeros (one block of numpy's
    summation) is zero. *)
Lemma np_std_of_zeros (n : nat) :
  (1 <= n <= 128)%nat ->
  PrimFloat.sqrt (Numpy64.np_sum (repeat 0 n) / B64.of_nat n) = 0.
Proof.
  intros [Hlo Hhi].
  do 129 (destruct n as [|n]; [first [lia | vm_compute; reflexivity]|]).
  lia.
Qed.

(** The constant windows the amended claim covers: those whose computed
    mean is the price itself. *)
Lemma constant_window_holds (token : string) (p : float) (n : nat) (now : Time) :
  (24 <= n <= 128)%nat ->
  is_finite p = true ->
  Numpy64.np_mean (repeat p n) = p ->
  let signal := Strategies64.mean_reversion_analyze token (repeat p n) now in
  Strategies64.action signal = Strategies.Hold
  /\ Strategies64.confidence signal = 0.0.
Proof.
  intros [Hlo Hhi] Hfin Hmean signal. subst signal.
  assert (Hlen : length (repeat p n) = n) by apply repeat_length.
  assert (Hstd : Numpy64.np_std (repeat p n) = 0).
  { unfold Numpy64.np_std. cbv zeta. rewrite Hmean, Hlen.
    rewrite !map_repeat. rewrite (sub_self p Hfin).
    change (0 * 0) with 0. apply np_std_of_zeros. lia. }
  assert (Hlast : List.last (repeat p n) 0 = p).
  { destruct n as [|n]; [lia|]. apply last_repeat. }
  rewrite (analyze_nan token (repeat p n) now).
  - split; reflexivity.
  - rewrite Hlen. lia.
  - rewrite Hstd, Hlast, Hmean, (sub_self p Hfin). vm_compute. reflexivity.
Qed.

End MeanReversion64.

(** * More of the code *)

(** ** paper_trader.py: wrapping, and sequences of wallet operations *)

Module WalletOps.

(** What [wrap_eth] and [unwrap_weth] return next to the amount; it is not
    appended to the history. *)
Record WrapInfo : Type := mkWrap {
  wrap_hash : nat;
  wrap_type : string;
  wrap_amount : Q;
  wrap_timestamp : Time
}.

(** [PaperWallet.wrap_eth] *)
Definition wrap_eth (w : PaperWallet.t) (amount : Q) (now : Time)
  : result (Q * WrapInfo) * PaperWallet.t :=
  match PaperWallet.balances w !! "ETH" with
  | None => (Raise KeyError, w)
  | Some eth =>
    if Qgtb amount eth then (Raise ValueError, w)
    else
      let bal1 := <["ETH" := eth - amount]> (PaperWallet.balances w) in
      match bal1 !! "WETH" with
      | None =>
        (Raise KeyError,
         {| PaperWallet.balances := bal1; PaperWallet.tx_history := PaperWallet.tx_history w |})
      | Some weth =>
        (Ok (amount,
             {| wrap_hash := length (PaperWallet.tx_history w); wrap_type := "wrap";
                wrap_amount := amount; wrap_timestamp := now |}),
         {| PaperWallet.balances := <["WETH" := weth + amount]> bal1;
            PaperWallet.tx_history := PaperWallet.tx_history w |})
      end
  end.

(** [PaperWallet.unwrap_weth] *)
Definition unwrap_weth (w : PaperWallet.t) (amount : Q) (now : Time)
  : result (Q * WrapInfo) * PaperWallet.t :=
  match PaperWallet.balances w !! "WETH" with
  | None => (Raise KeyError, w)
  | Some weth =>
    if Qgtb amount weth then (Raise ValueError, w)
    else
      let bal1 := <["WETH" := weth - amount]> (PaperWallet.balances w) in
      match bal1 !! "ETH" with
      | None =>
        (Raise KeyError,
         {| PaperWallet.balances := bal1; PaperWallet.tx_history := PaperWallet.tx_history w |})
      | Some eth =>
        (Ok (amount,
             {| wrap_hash := length (PaperWallet.tx_history w); wrap_type := "unwrap";
                wrap_amount := amount; wrap_timestamp := now |}),
         {| PaperWallet.balances := <["ETH" := eth + amount]> bal1;
            PaperWallet.tx_history := PaperWallet.tx_history w |})
      end
  end.

(** A call on the wallet, and a sequence of calls; a call that raises
    leaves the wallet as the exception found it. *)
Inductive Call : Type :=
| CallTransfer (token_in token_out : string) (amount_in simulated_price : Q)
| CallWrap (amount : Q)
| CallUnwrap (amount : Q).

Definition call (w : PaperWallet.t) (c : Call) (now : Time) : PaperWallet.t :=
  match c with
  | CallTransfer token_in token_out amount_in simulated_price =>
    snd (PaperWallet.transfer w token_in token_out amount_in simulated_price now)
  | CallWrap amount => snd (wrap_eth w amount now)
  | CallUnwrap amount => snd (unwrap_weth w amount now)
  end.

Definition calls (w : PaperWallet.t) (cs : list Call) (now : Time) : PaperWallet.t :=
  fold_left (fun w c => call w c now) cs w.

(** The amounts and the price of a call are not negative. *)
Definition call_nonneg (c : Call) : Prop :=
  match c with
  | CallTransfer _ _ amount_in simulated_price => 0 <= amount_in /\ 0 <= simulated_price
  | CallWrap amount => 0 <= amount
  | CallUnwrap amount => 0 <= amount
  end.

End WalletOps.

(** *** The swap history is numbered *)

Lemma transfer_history (w : PaperWallet.t) (token_in token_out : string)
    (amount_in rate : Q) (now : Time) :
  let out := PaperWallet.transfer w token_in token_out amount_in rate now in
  (exists tx,
     PaperWallet.tx_history (snd out) = PaperWallet.tx_history w ++ [tx]
     /\ PaperWallet.tx_hash tx = length (PaperWallet.tx_history w)
     /\ is_ok (fst out) = true)
  \/ (PaperWallet.tx_history (snd out) = PaperWallet.tx_history w
      /\ is_ok (fst out) = false).
Proof.
  unfold PaperWallet.transfer.
  destruct (Qgtb amount_in _); [right; split; reflexivity|].
  destruct (PaperWallet.balances w !! upper token_in) as [b_in|];
    [|right; split; reflexivity].
  destruct (PaperWallet.pays_gas token_in token_out).
  - match goal with
    | |- context [?m !! "ETH"] => destruct (m !! "ETH")
    end.
    + left. eexists. repeat split.
    + right. split; reflexivity.
  - left. eexists. repeat split.
Qed.

Lemma call_history (w : PaperWallet.t) (c : WalletOps.Call) (now : Time) :
  (exists tx,
     PaperWallet.tx_history (WalletOps.call w c now) = PaperWallet.tx_history w ++ [tx]
     /\ PaperWallet.tx_hash tx = length (PaperWallet.tx_history w))
  \/ PaperWallet.tx_history (WalletOps.call w c now) = PaperWallet.tx_history w.
Proof.
  destruct c as [tin tout a p|a|a]; simpl.
  - destruct (transfer_history w tin tout a p now) as [[tx [H1 [H2 _]]]|[H _]]; eauto.
  - right. unfold WalletOps.wrap_eth.
    destruct (_ !! "ETH"); [|reflexivity].
    destruct (Qgtb a _); [reflexivity|].
    destruct (_ !! "WETH"); reflexivity.
  - right. unfold WalletOps.unwrap_weth.
    destruct (_ !! "WETH"); [|reflexivity].
    destruct (Qgtb a _); [reflexivity|].
    destruct (_ !! "ETH"); reflexivity.
Qed.

(** Whatever calls are made on a new wallet, in whatever order and
    whether they succeed or raise, the swaps in its history carry the
    hashes 0, 1, 2, ... in order: no two recorded swaps share a hash. *)
Theorem tx_hashes_are_consecutive :
  forall (initial_eth initial_usdc : Q) (cs : list WalletOps.Call) (now : Time),
    let w := WalletOps.calls (PaperWallet.init initial_eth initial_usdc) cs now in
    map PaperWallet.tx_hash (PaperWallet.tx_history w)
    = seq 0 (length (PaperWallet.tx_history w))
    /\ NoDup (map PaperWallet.tx_hash (PaperWallet.tx_history w)).
Proof.
  intros e u cs now w.
  assert (H : map PaperWallet.tx_hash (PaperWallet.tx_history w)
              = seq 0 (length (PaperWallet.tx_history w))).
  { subst w. unfold WalletOps.calls.
    assert (Hgen : forall w0,
               map PaperWallet.tx_hash (PaperWallet.tx_history w0)
               = seq 0 (length (PaperWallet.tx_history w0)) ->
               map PaperWallet.tx_hash
                 (PaperWallet.tx_history (fold_left (fun w c => WalletOps.call w c now) cs w0))
               = seq 0 (length (PaperWallet.tx_history
                                  (fold_left (fun w c => WalletOps.call w c now) cs w0)))).
    { induction cs as [|c cs IH]; intros w0 H0; [exact H0|].
      simpl. apply IH.
      destruct (call_history w0 c now) as [[tx [H1 H2]]|H1]; rewrite H1.
      - rewrite map_app, length_app, H0. simpl.
        rewrite H2, seq_app. reflexivity.
      - exact H0. }
    apply Hgen. reflexivity. }
  split; [exact H|]. rewrite H. apply NoDup_ListNoDup, List.seq_NoDup.
Qed.

(** *** Only the gas can overdraw a balance *)

(** The gas of [n] recorded swaps. *)
Definition gas_of (n : nat) : Q := PaperWallet.gas_cost * inject_Z (Z.of_nat n).

Lemma gas_of_nonneg (n : nat) : 0 <= gas_of n.
Proof.
  unfold gas_of. apply Qmult_le_0_compat; [discriminate|].
  change 0 with (inject_Z 0). rewrite <- Zle_Qle. lia.
Qed.

Lemma gas_of_S (n : nat) : gas_of (S n) == gas_of n + PaperWallet.gas_cost.
Proof.
  unfold gas_of. rewrite Nat2Z.inj_succ. unfold Z.succ.
  rewrite inject_Z_plus. ring.
Qed.

(** A line is in order when it is not negative, or, for ETH, when it is
    overdrawn by no more than the gas of the swaps recorded so far. *)
Definition line_ok (n : nat) (k : string) (v : Q) : Prop :=
  if decide (k = "ETH") then - gas_of n <= v else 0 <= v.

Definition lines_ok (n : nat) (b : gmap string Q) : Prop :=
  forall k v, b !! k = Some v -> line_ok n k v.

Definition wallet_ok (w : PaperWallet.t) : Prop :=
  lines_ok (length (PaperWallet.tx_history w)) (PaperWallet.balances w).

Lemma line_ok_nonneg (n : nat) (k : string) (v : Q) : 0 <= v -> line_ok n k v.
Proof.
  intros H. unfold line_ok. destruct (decide (k = "ETH")); [|exact H].
  pose proof (gas_of_nonneg n). lra.
Qed.

Lemma line_ok_S (n : nat) (k : string) (v : Q) : line_ok n k v -> line_ok (S n) k v.
Proof.
  unfold line_ok. destruct (decide (k = "ETH")); [|tauto].
  rewrite gas_of_S. unfold PaperWallet.gas_cost. lra.
Qed.

Lemma line_ok_add (n : nat) (k : string) (v d : Q) :
  line_ok n k v -> 0 <= d -> line_ok n k (v + d).
Proof.
  unfold line_ok. destruct (decide (k = "ETH")); lra.
Qed.

Lemma line_ok_gas (n : nat) (e : Q) :
  line_ok n "ETH" e -> line_ok (S n) "ETH" (e - PaperWallet.gas_cost).
Proof.
  unfold line_ok. destruct (decide ("ETH" = "ETH")); [|congruence].
  rewrite gas_of_S. lra.
Qed.

Lemma lines_ok_insert (n : nat) (b : gmap string Q) (k : string) (v : Q) :
  lines_ok n b -> line_ok n k v -> lines_ok n (<[k := v]> b).
Proof.
  intros Hb Hv j x Hj. destruct (decide (k = j)) as [->|Hne].
  - rewrite lookup_insert_eq in Hj. inversion Hj; subst. exact Hv.
  - rewrite lookup_insert_ne in Hj by exact Hne. apply (Hb j x Hj).
Qed.

Lemma lines_ok_S (n : nat) (b : gmap string Q) : lines_ok n b -> lines_ok (S n) b.
Proof. intros H k v Hk. apply line_ok_S, (H k v Hk). Qed.

Lemma lines_ok_get (n : nat) (b : gmap string Q) (k : string) :
  lines_ok n b -> line_ok n k (PaperWallet.bal_get b k).
Proof.
  intros H. unfold PaperWallet.bal_get.
  destruct (b !! k) as [v|] eqn:Hk; simpl.
  - apply (H k v Hk).
  - apply line_ok_nonneg. lra.
Qed.

Lemma transfer_wallet_ok (w : PaperWallet.t) (token_in token_out : string)
    (amount_in rate : Q) (now : Time) :
  0 <= amount_in -> 0 <= rate ->
  wallet_ok w ->
  wallet_ok (snd (PaperWallet.transfer w token_in token_out amount_in rate now)).
Proof.
  intros Ha Hr Hw. unfold PaperWallet.transfer, PaperWallet.get_balance.
  destruct (Qgtb amount_in _) eqn:Hchk; [exact Hw|].
  destruct (PaperWallet.balances w !! upper token_in) as [b_in|] eqn:Hin; [|exact Hw].
  rewrite (bal_get_some _ _ _ Hin) in Hchk.
  apply Qltb_ge in Hchk.
  set (n := length (PaperWallet.tx_history w)).
  assert (H1 : lines_ok n (<[upper token_in := b_in - amount_in]> (PaperWallet.balances w))).
  { apply lines_ok_insert; [exact Hw|]. apply line_ok_nonneg. lra. }
  assert (H2 : lines_ok n
                 (<[upper token_out :=
                      PaperWallet.bal_get
                        (<[upper token_in := b_in - amount_in]> (PaperWallet.balances w))
                        (upper token_out) + amount_in * rate]>
                    (<[upper token_in := b_in - amount_in]> (PaperWallet.balances w)))).
  { apply lines_ok_insert; [exact H1|].
    apply line_ok_add; [apply lines_ok_get; exact H1|].
    apply Qmult_le_0_compat; assumption. }
  destruct (PaperWallet.pays_gas token_in token_out).
  - match goal with
    | |- context [?m !! "ETH"] => destruct (m !! "ETH") as [e|] eqn:He
    end.
    + unfold wallet_ok. simpl. rewrite length_app. simpl. rewrite Nat.add_1_r.
      apply lines_ok_insert; [exact (lines_ok_S _ _ H2)|].
      apply line_ok_gas. apply (H2 "ETH" e He).
    + exact H2.
  - unfold wallet_ok. simpl. rewrite length_app. simpl. rewrite Nat.add_1_r.
    exact (lines_ok_S _ _ H2).
Qed.

Lemma call_wallet_ok (w : PaperWallet.t) (c : WalletOps.Call) (now : Time) :
  WalletOps.call_nonneg c -> wallet_ok w -> wallet_ok (WalletOps.call w c now).
Proof.
  intros Hc Hw. destruct c as [tin tout a p|a|a]; simpl in *.
  - destruct Hc. apply transfer_wallet_ok; assumption.
  - unfold WalletOps.wrap_eth.
    destruct (PaperWallet.balances w !! "ETH") as [eth|] eqn:He; [|exact Hw].
    destruct (Qgtb a eth) eqn:Hchk; [exact Hw|]. apply Qltb_ge in Hchk.
    assert (H1 : lines_ok (length (PaperWallet.tx_history w))
                   (<["ETH" := eth - a]> (PaperWallet.balances w))).
    { apply lines_ok_insert; [exact Hw|]. apply line_ok_nonneg. lra. }
    destruct (_ !! "WETH") as [weth|] eqn:Hweth; [|exact H1].
    unfold wallet_ok. simpl.
    apply lines_ok_insert; [exact H1|].
    apply line_ok_add; [apply (H1 "WETH" weth Hweth)|exact Hc].
  - unfold WalletOps.unwrap_weth.
    destruct (PaperWallet.balances w !! "WETH") as [weth|] eqn:He; [|exact Hw].
    destruct (Qgtb a weth) eqn:Hchk; [exact Hw|]. apply Qltb_ge in Hchk.
    assert (H1 : lines_ok (length (PaperWallet.tx_history w))
                   (<["WETH" := weth - a]> (PaperWallet.balances w))).
    { apply lines_ok_insert; [exact Hw|]. apply line_ok_nonneg. lra. }
    destruct (_ !! "ETH") as [eth|] eqn:Heth; [|exact H1].
    unfold wallet_ok. simpl.
    apply lines_ok_insert; [exact H1|].
    apply line_ok_add; [apply (H1 "ETH" eth Heth)|exact Hc].
Qed.

(** From a wallet created with non-negative balances, calls whose amounts
    and prices are not negative never take a token other than ETH below
    zero; and ETH itself is not below zero as long as no swap has been
    recorded: wrapping and unwrapping cannot overdraw it, only the gas of
    a swap can. *)
Theorem only_gas_overdraws :
  forall (initial_eth initial_usdc : Q) (cs : list WalletOps.Call) (now : Time),
    0 <= initial_eth -> 0 <= initial_usdc ->
    Forall WalletOps.call_nonneg cs ->
    let w := WalletOps.calls (PaperWallet.init initial_eth initial_usdc) cs now in
    (forall token, upper token <> "ETH" -> 0 <= PaperWallet.get_balance w token)
    /\ (PaperWallet.tx_history w = [] -> 0 <= PaperWallet.get_balance w "ETH").
Proof.
  intros e u cs now He Hu Hcs w.
  assert (Hok : wallet_ok w).
  { subst w. unfold WalletOps.calls.
    assert (Hinit : wallet_ok (PaperWallet.init e u)).
    { intros k v Hk. apply line_ok_nonneg. simpl in Hk.
      repeat (apply lookup_insert_Some in Hk as [[_ <-]|[_ Hk]]; [lra|]).
      rewrite lookup_empty in Hk. discriminate. }
    revert Hinit. generalize (PaperWallet.init e u).
    induction Hcs as [|c cs Hc _ IH]; intros w0 Hw0; [exact Hw0|].
    simpl. apply IH. apply call_wallet_ok; assumption. }
  split.
  - intros token Hne. unfold PaperWallet.get_balance.
    pose proof (lines_ok_get _ _ (upper token) Hok) as Hl.
    unfold line_ok in Hl. destruct (decide (upper token = "ETH")); [contradiction|exact Hl].
  - intros Hnone. pose proof (lines_ok_get _ _ "ETH" Hok) as Hl.
    unfold line_ok in Hl. destruct (decide ("ETH" = "ETH")); [|congruence].
    assert (Hg : gas_of (length (PaperWallet.tx_history w)) == 0)
      by (rewrite Hnone; reflexivity).
    unfold PaperWallet.get_balance. change (upper "ETH") with "ETH".
    rewrite Hg in Hl. lra.
Qed.

Lemma only_gas_overdraws_witness :
  let w := WalletOps.calls (PaperWallet.init 0 100)
             [WalletOps.CallTransfer "USDC" "DAI" 40 1; WalletOps.CallWrap 1;
              WalletOps.CallTransfer "DAI" "usdt" 15 1] 0%nat in
  (forall token, upper token <> "ETH" -> 0 <= PaperWallet.get_balance w token)
  /\ (PaperWallet.tx_history w = [] -> 0 <= PaperWallet.get_balance w "ETH").
Proof.
  apply (only_gas_overdraws 0 100
           [WalletOps.CallTransfer "USDC" "DAI" 40 1; WalletOps.CallWrap 1;
            WalletOps.CallTransfer "DAI" "usdt" 15 1] 0%nat).
  - discriminate.
  - discriminate.
  - repeat constructor; discriminate.
Defined.

(** *** The two lines of a swap *)




(** *** Wrapping and unwrapping *)

(** Wrapping an amount the ETH line covers and unwrapping it again both
    succeed (the WETH line not being overdrawn); neither records anything
    in the history, charges gas or touches another line.  The wrap leaves
    [eth - amount] and [weth + amount] on the two lines, the unwrap
    [(eth - amount) + amount] and [(weth + amount) - amount]. *)
Theorem wrap_unwrap_round_trip :
  forall (w : PaperWallet.t) (amount eth weth : Q) (now : Time),
    PaperWallet.balances w !! "ETH" = Some eth ->
    PaperWallet.balances w !! "WETH" = Some weth ->
    amount <= eth ->
    0 <= weth ->
    exists info1 w1 info2 w2,
      WalletOps.wrap_eth w amount now = (Ok (amount, info1), w1)
      /\ WalletOps.unwrap_weth w1 amount now = (Ok (amount, info2), w2)
      /\ PaperWallet.get_balance w1 "ETH" = eth - amount
      /\ PaperWallet.get_balance w1 "WETH" = weth + amount
      /\ PaperWallet.tx_history w1 = PaperWallet.tx_history w
      /\ PaperWallet.get_balance w2 "ETH" = eth - amount + amount
      /\ PaperWallet.get_balance w2 "WETH" = weth + amount - amount
      /\ PaperWallet.tx_history w2 = PaperWallet.tx_history w
      /\ (forall token, upper token <> "ETH" -> upper token <> "WETH" ->
          PaperWallet.get_balance w2 token = PaperWallet.get_balance w token).
Proof.
  intros w a eth weth now He Hw Ha Hweth.
  pose (w1 := {| PaperWallet.balances :=
                   <["WETH" := weth + a]> (<["ETH" := eth - a]> (PaperWallet.balances w));
                 PaperWallet.tx_history := PaperWallet.tx_history w |}).
  pose (w2 := {| PaperWallet.balances :=
                   <["ETH" := eth - a + a]>
                     (<["WETH" := weth + a - a]> (PaperWallet.balances w1));
                 PaperWallet.tx_history := PaperWallet.tx_history w |}).
  assert (E1 : WalletOps.wrap_eth w a now
               = (Ok (a, WalletOps.mkWrap (length (PaperWallet.tx_history w)) "wrap" a now),
                  w1)).
  { unfold WalletOps.wrap_eth. rewrite He.
    destruct (Qgtb a eth) eqn:Hchk; [apply Qltb_lt in Hchk; lra|].
    rewrite lookup_insert_ne by discriminate. rewrite Hw. reflexivity. }
  assert (E2 : WalletOps.unwrap_weth w1 a now
               = (Ok (a, WalletOps.mkWrap (length (PaperWallet.tx_history w)) "unwrap" a now),
                  w2)).
  { unfold WalletOps.unwrap_weth, w1. cbn [PaperWallet.balances PaperWallet.tx_history].
    rewrite lookup_insert_eq.
    destruct (Qgtb a (weth + a)) eqn:Hchk2; [apply Qltb_lt in Hchk2; lra|].
    rewrite lookup_insert_ne by discriminate.
    rewrite lookup_insert_ne by discriminate.
    rewrite lookup_insert_eq. reflexivity. }
  exists (WalletOps.mkWrap (length (PaperWallet.tx_history w)) "wrap" a now), w1,
         (WalletOps.mkWrap (length (PaperWallet.tx_history w)) "unwrap" a now), w2.
  split; [exact E1|]. split; [exact E2|].
  unfold PaperWallet.get_balance.
  change (upper "ETH") with "ETH". change (upper "WETH") with "WETH".
  unfold w2, w1. cbn [PaperWallet.balances PaperWallet.tx_history].
  repeat split.
  - unfold PaperWallet.bal_get. rewrite lookup_insert_ne by discriminate.
    rewrite lookup_insert_eq. reflexivity.
  - unfold PaperWallet.bal_get. rewrite lookup_insert_eq. reflexivity.
  - unfold PaperWallet.bal_get. rewrite lookup_insert_eq. reflexivity.
  - unfold PaperWallet.bal_get. rewrite lookup_insert_ne by discriminate.
    rewrite lookup_insert_eq. reflexivity.
  - intros token H1 H2. unfold PaperWallet.bal_get.
    rewrite !lookup_insert_ne by congruence. reflexivity.
Qed.

Lemma wrap_unwrap_round_trip_witness :
  exists info1 w1 info2 w2,
    WalletOps.wrap_eth (PaperWallet.init 10 10000) 4 0%nat = (Ok (4, info1), w1)
    /\ WalletOps.unwrap_weth w1 4 0%nat = (Ok (4, info2), w2)
    /\ PaperWallet.get_balance w1 "ETH" = 10 - 4
    /\ PaperWallet.get_balance w1 "WETH" = 0 + 4
    /\ PaperWallet.tx_history w1 = PaperWallet.tx_history (PaperWallet.init 10 10000)
    /\ PaperWallet.get_balance w2 "ETH" = 10 - 4 + 4
    /\ PaperWallet.get_balance w2 "WETH" = 0 + 4 - 4
    /\ PaperWallet.tx_history w2 = PaperWallet.tx_history (PaperWallet.init 10 10000)
    /\ (forall token, upper token <> "ETH" -> upper token <> "WETH" ->
        PaperWallet.get_balance w2 token
        = PaperWallet.get_balance (PaperWallet.init 10 10000) token).
Proof.
  apply (wrap_unwrap_round_trip (PaperWallet.init 10 10000) 4 10 0 0%nat).
  - reflexivity.
  - reflexivity.
  - discriminate.
  - discriminate.
Defined.

(** ** paper_trader.py: selling, swapping, reporting *)


(** A sell or a direct swap never raises, and one that is refused has
    changed nothing: not the wallet, not the positions, not the
    history. *)
Theorem sell_and_swap_are_atomic :
  forall (md : MarketData.t) (pt : PaperTrader.t) (token token_out : string)
         (amount : Q) (now : Time),
    has_eth_line (PaperTrader.wallet pt) ->
    (exists o,
       fst (PaperTrader.execute_sell md pt token amount now) = Ok o
       /\ (PaperTrader.success o = false ->
           snd (PaperTrader.execute_sell md pt token amount now) = pt))
    /\ (exists o,
          fst (PaperTrader.execute_swap md pt token token_out amount now) = Ok o
          /\ (PaperTrader.success o = false ->
              snd (PaperTrader.execute_swap md pt token token_out amount now) = pt)).
Proof.
  intros md pt token token_out amount now Hw. split.
  - unfold PaperTrader.execute_sell.
    destruct (PaperTrader.positions pt !! token) as [position|];
      [|eexists; split; reflexivity].
    destruct (py_div 1 _); [|eexists; split; reflexivity].
    destruct (PaperWallet.transfer _ _ _ _ _ _) as [[[[out gas] tx]|e] w'] eqn:Ht.
    + destruct (_ || _); eexists; (split; [reflexivity|]); discriminate.
    + eexists. split; [reflexivity|]. intros _. simpl.
      rewrite (transfer_raise_unchanged _ _ _ _ _ _ _ _ Hw Ht).
      apply with_wallet_same.
  - unfold PaperTrader.execute_swap.
    destruct (Qleb _ 0); [eexists; split; reflexivity|].
    destruct (PaperWallet.transfer _ _ _ _ _ _) as [[[[out gas] tx]|e] w'] eqn:Ht.
    + eexists. split; [reflexivity|]. discriminate.
    + eexists. split; [reflexivity|]. intros _. simpl.
      rewrite (transfer_raise_unchanged _ _ _ _ _ _ _ _ Hw Ht).
      apply with_wallet_same.
Qed.

Lemma sell_and_swap_are_atomic_witness :
  (exists o,
     fst (PaperTrader.execute_sell demo_market demo_trader "WETH" 1 0%nat) = Ok o
     /\ (PaperTrader.success o = false ->
         snd (PaperTrader.execute_sell demo_market demo_trader "WETH" 1 0%nat)
         = demo_trader))
  /\ (exists o,
        fst (PaperTrader.execute_swap demo_market demo_trader "WETH" "USDC" 1 0%nat) = Ok o
        /\ (PaperTrader.success o = false ->
            snd (PaperTrader.execute_swap demo_market demo_trader "WETH" "USDC" 1 0%nat)
            = demo_trader)).
Proof.
  apply (sell_and_swap_are_atomic demo_market demo_trader "WETH" "USDC" 1 0%nat).
  apply init_has_eth_line.
Defined.





(** *** The performance report *)

Module Report.

(** The ["best_trade"] and ["worst_trade"] entries. *)
Record TradeRef : Type := mkRef {
  ref_token : string;
  ref_pnl : Q;
  ref_pnl_percent : Q
}.

Record Performance : Type := mkPerformance {
  total_trades : nat;
  winning_trades : nat;
  losing_trades : nat;
  win_rate : Q;
  total_pnl : Q;
  avg_trade : Q;
  best_trade : TradeRef;
  worst_trade : TradeRef;
  peak_value : Q;
  trough_value : Q
}.

(** The dictionary returned: the short one of an empty history, or the
    full one. *)
Inductive t : Type :=
| NoTrades
| Trades (p : Performance).

(** [max(xs, key=...)] and [min(xs, key=...)] on a non-empty list: the
    first of the elements with the largest (smallest) key. *)
Definition py_max_by {A : Type} (key : A -> Q) (x : A) (xs : list A) : A :=
  fold_left (fun best y => if Qgtb (key y) (key best) then y else best) xs x.

Definition py_min_by {A : Type} (key : A -> Q) (x : A) (xs : list A) : A :=
  fold_left (fun best y => if Qltb (key y) (key best) then y else best) xs x.

Definition trade_ref (tr : PaperTrader.Trade) : TradeRef :=
  {| ref_token := PaperTrader.token (PaperTrader.closed tr);
     ref_pnl := PaperTrader.pnl tr;
     ref_pnl_percent := PaperTrader.pnl_percent tr |}.

Definition len {A : Type} (l : list A) : Q := inject_Z (Z.of_nat (length l)).

(** [PaperTrader.get_performance_report] *)
Definition get_performance_report (pt : PaperTrader.t) : t :=
  match PaperTrader.trade_history pt with
  | [] => NoTrades
  | first :: rest =>
    let history := first :: rest in
    let winning := filter (fun tr => Qgtb (PaperTrader.pnl tr) 0 = true) history in
    let losing := filter (fun tr => Qleb (PaperTrader.pnl tr) 0 = true) history in
    let total := Strategies.py_sum (map PaperTrader.pnl history) in
    Trades
      {| total_trades := length history;
         winning_trades := length winning;
         losing_trades := length losing;
         win_rate := (len winning / len history) * 100;
         total_pnl := total;
         avg_trade := total / len history;
         best_trade := trade_ref (py_max_by PaperTrader.pnl first rest);
         worst_trade := trade_ref (py_min_by PaperTrader.pnl first rest);
         peak_value := PaperTrader.highest_value pt;
         trough_value := PaperTrader.lowest_value pt |}
  end.

End Report.

Lemma py_max_by_spec {A : Type} (key : A -> Q) (xs : list A) (x : A) :
  In (Report.py_max_by key x xs) (x :: xs)
  /\ List.Forall (fun y => key y <= key (Report.py_max_by key x xs)) (x :: xs).
Proof.
  unfold Report.py_max_by. revert x.
  induction xs as [|y ys IH]; intros x; simpl.
  - split; [left; reflexivity|]. repeat constructor. lra.
  - destruct (IH (if Qgtb (key y) (key x) then y else x)) as [Hin Hall].
    inversion Hall as [|? ? Hb Hrest]; subst.
    destruct (Qgtb (key y) (key x)) eqn:Hc.
    + apply Qltb_lt in Hc. split.
      * destruct Hin as [Hin|Hin]; [right; left; exact Hin|right; right; exact Hin].
      * constructor; [lra|]. constructor; assumption.
    + apply Qltb_ge in Hc. split.
      * destruct Hin as [Hin|Hin]; [left; exact Hin|right; right; exact Hin].
      * constructor; [exact Hb|]. constructor; [lra|exact Hrest].
Qed.

Lemma py_min_by_spec {A : Type} (key : A -> Q) (xs : list A) (x : A) :
  In (Report.py_min_by key x xs) (x :: xs)
  /\ List.Forall (fun y => key (Report.py_min_by key x xs) <= key y) (x :: xs).
Proof.
  unfold Report.py_min_by. revert x.
  induction xs as [|y ys IH]; intros x; simpl.
  - split; [left; reflexivity|]. repeat constructor. lra.
  - destruct (IH (if Qltb (key y) (key x) then y else x)) as [Hin Hall].
    inversion Hall as [|? ? Hb Hrest]; subst.
    destruct (Qltb (key y) (key x)) eqn:Hc.
    + apply Qltb_lt in Hc. split.
      * destruct Hin as [Hin|Hin]; [right; left; exact Hin|right; right; exact Hin].
      * constructor; [lra|]. constructor; assumption.
    + apply Qltb_ge in Hc. split.
      * destruct Hin as [Hin|Hin]; [left; exact Hin|right; right; exact Hin].
      * constructor; [exact Hb|]. constructor; [lra|exact Hrest].
Qed.

(** Winners and losers split any list of trades. *)
Lemma winners_and_losers (l : list PaperTrader.Trade) :
  (length (filter (fun tr => Qgtb (PaperTrader.pnl tr) 0 = true) l)
   + length (filter (fun tr => Qleb (PaperTrader.pnl tr) 0 = true) l))%nat
  = length l.
Proof.
  induction l as [|tr l IH]; [reflexivity|].
  rewrite !filter_cons.
  destruct (Qleb (PaperTrader.pnl tr) 0) eqn:Hle.
  - assert (Hgt : Qgtb (PaperTrader.pnl tr) 0 = false).
    { apply Qltb_ge. apply Qleb_le. exact Hle. }
    destruct (decide (Qgtb (PaperTrader.pnl tr) 0 = true)) as [E|_]; [congruence|].
    destruct (decide (true = true)) as [_|E]; [|congruence].
    simpl. lia.
  - assert (Hgt : Qgtb (PaperTrader.pnl tr) 0 = true).
    { apply Qltb_lt. apply Qleb_gt. exact Hle. }
    destruct (decide (Qgtb (PaperTrader.pnl tr) 0 = true)) as [_|E]; [|congruence].
    destruct (decide (false = true)) as [E|_]; [congruence|].
    simpl. lia.
Qed.

(** A sum lies between its length times a lower and an upper bound. *)
Lemma len_pos {A : Type} (x : A) (xs : list A) : 0 < Report.len (x :: xs).
Proof.
  unfold Report.len. change 0 with (inject_Z 0). rewrite <- Zlt_Qlt.
  simpl length. lia.
Qed.

(** The report is consistent with the history it is drawn from: it is
    the short one exactly on an empty history; otherwise winners and
    losers add up to the number of trades, the win rate is a percentage,
    and the best and the worst trade are trades of the history that
    bound every trade's profit. *)
Theorem performance_report_is_consistent :
  forall (pt : PaperTrader.t),
    match Report.get_performance_report pt with
    | Report.NoTrades => PaperTrader.trade_history pt = []
    | Report.Trades p =>
      Report.total_trades p = length (PaperTrader.trade_history pt)
      /\ (Report.winning_trades p + Report.losing_trades p)%nat = Report.total_trades p
      /\ 0 <= Report.win_rate p <= 100
      /\ (exists best worst,
            In best (PaperTrader.trade_history pt)
            /\ In worst (PaperTrader.trade_history pt)
            /\ Report.best_trade p = Report.trade_ref best
            /\ Report.worst_trade p = Report.trade_ref worst)
      /\ List.Forall
           (fun tr => Report.ref_pnl (Report.worst_trade p) <= PaperTrader.pnl tr
                      /\ PaperTrader.pnl tr <= Report.ref_pnl (Report.best_trade p))
           (PaperTrader.trade_history pt)
    end.
Proof.
  intros pt. unfold Report.get_performance_report.
  destruct (PaperTrader.trade_history pt) as [|first rest]; [reflexivity|].
  set (history := first :: rest).
  destruct (py_max_by_spec PaperTrader.pnl rest first) as [Hbin Hbest].
  destruct (py_min_by_spec PaperTrader.pnl rest first) as [Hwin Hworst].
  pose proof (winners_and_losers history) as Hsplit.
  pose proof (len_pos first rest) as Hlen. fold history in Hlen.
  cbn [Report.total_trades Report.winning_trades Report.losing_trades Report.win_rate
       Report.avg_trade Report.best_trade Report.worst_trade Report.trade_ref
       Report.ref_pnl].
  split; [reflexivity|]. split; [exact Hsplit|]. split.
  - set (winning := filter _ history) in *. set (losing := filter _ history) in *.
    assert (Hw0 : 0 <= Report.len winning).
    { unfold Report.len. change 0 with (inject_Z 0). rewrite <- Zle_Qle. lia. }
    assert (Hwl : Report.len winning <= Report.len history).
    { unfold Report.len. rewrite <- Zle_Qle. lia. }
    split.
    + apply Qmult_le_0_compat; [|lra].
      apply Qle_shift_div_l; [exact Hlen|]. lra.
    + assert (Report.len winning / Report.len history <= 1).
      { apply Qle_shift_div_r; [exact Hlen|]. lra. }
      lra.
  - split; [exists (Report.py_max_by PaperTrader.pnl first rest),
                   (Report.py_min_by PaperTrader.pnl first rest); auto|].
    apply List.Forall_forall. intros tr Htr.
    rewrite List.Forall_forall in Hbest, Hworst. split; auto.
Qed.

(** ** risk.py: the manager's own book of positions *)

Module RiskBook.

(** A dictionary in insertion order: assigning to a key that is there
    keeps its place, a new key goes last. *)
Definition dict (A : Type) : Type := list (string * A).

Fixpoint dict_get {A : Type} (k : string) (d : dict A) : option A :=
  match d with
  | [] => None
  | (k', v) :: d' => if String.eqb k' k then Some v else dict_get k d'
  end.

Fixpoint dict_set {A : Type} (k : string) (v : A) (d : dict A) : dict A :=
  match d with
  | [] => [(k, v)]
  | (k', v') :: d' =>
    if String.eqb k' k then (k', v) :: d' else (k', v') :: dict_set k v d'
  end.

Fixpoint dict_del {A : Type} (k : string) (d : dict A) : dict A :=
  match d with
  | [] => []
  | (k', v') :: d' => if String.eqb k' k then d' else (k', v') :: dict_del k d'
  end.

(** Writing through a reference to a value of the dictionary: seen in
    the dictionary as long as the key is still there. *)
Fixpoint dict_replace {A : Type} (k : string) (v : A) (d : dict A) : dict A :=
  match d with
  | [] => []
  | (k', v') :: d' =>
    if String.eqb k' k then (k', v) :: d' else (k', v') :: dict_replace k v d'
  end.

Definition keys {A : Type} (d : dict A) : list string := map fst d.

(** What [close_position] adds to a position. *)
Record Exit : Type := mkExit {
  exit_price : Q;
  closed_at : Time;
  close_reason : string
}.

(** The dictionary [open_position] builds. *)
Record Pos : Type := mkPos {
  pos_token : string;
  pos_type : Risk.PositionType;
  pos_size : Q;
  pos_entry_price : Q;
  pos_current_price : Q;
  pos_stop_loss : Q;
  pos_take_profit : Q;
  pos_confidence : Q;
  pos_pnl : Q;
  pos_pnl_percent : Q;
  pos_opened_at : Time;
  pos_exit : option Exit
}.

(** All the attributes of a [RiskManager]. *)
Record t : Type := mk {
  initial_portfolio_value : Q;
  current_portfolio_value : Q;
  daily_start_value : Q;
  daily_loss_limit : Q;
  daily_highest_value : Q;
  daily_trades : nat;
  daily_losses : nat;
  max_open_positions : nat;
  max_position_percent : Q;
  emergency_stop_active : bool;
  emergency_stop_reason : option string;
  positions : dict Pos;
  trade_history : list Pos
}.

(** [RiskManager.__init__] *)
Definition init (initial_portfolio_value : Q) : t :=
  {| initial_portfolio_value := initial_portfolio_value;
     current_portfolio_value := initial_portfolio_value;
     daily_start_value := initial_portfolio_value;
     daily_loss_limit := Risk.cfg_daily_loss_limit_percent / 100;
     daily_highest_value := initial_portfolio_value;
     daily_trades := 0;
     daily_losses := 0;
     max_open_positions := Risk.cfg_max_open_positions;
     max_position_percent := Risk.cfg_max_position_size_percent;
     emergency_stop_active := false;
     emergency_stop_reason := None;
     positions := [];
     trade_history := [] |}.

Definition as_open (p : Pos) : Risk.OpenPosition :=
  {| Risk.op_type := pos_type p;
     Risk.op_size := pos_size p;
     Risk.op_entry_price := pos_entry_price p;
     Risk.op_stop_loss := pos_stop_loss p;
     Risk.op_take_profit := pos_take_profit p;
     Risk.op_confidence := pos_confidence p |}.

(** The attributes the sizing and admission methods read. *)
Definition view (b : t) : Risk.RiskManager :=
  {| Risk.initial_portfolio_value := initial_portfolio_value b;
     Risk.current_portfolio_value := current_portfolio_value b;
     Risk.daily_start_value := daily_start_value b;
     Risk.daily_loss_limit := daily_loss_limit b;
     Risk.daily_highest_value := daily_highest_value b;
     Risk.max_open_positions := max_open_positions b;
     Risk.max_position_percent := max_position_percent b;
     Risk.emergency_stop_active := emergency_stop_active b;
     Risk.emergency_stop_reason := emergency_stop_reason b;
     Risk.positions :=
       list_to_map (map (fun kp => (fst kp, as_open (snd kp))) (positions b)) |}.

Definition with_positions (b : t) (ps : dict Pos) : t :=
  {| initial_portfolio_value := initial_portfolio_value b;
     current_portfolio_value := current_portfolio_value b;
     daily_start_value := daily_start_value b;
     daily_loss_limit := daily_loss_limit b;
     daily_highest_value := daily_highest_value b;
     daily_trades := daily_trades b;
     daily_losses := daily_losses b;
     max_open_positions := max_open_positions b;
     max_position_percent := max_position_percent b;
     emergency_stop_active := emergency_stop_active b;
     emergency_stop_reason := emergency_stop_reason b;
     positions := ps;
     trade_history := trade_history b |}.

(** [RiskManager.set_portfolio_value] *)
Definition set_portfolio_value (b : t) (value : Q) : t :=
  {| initial_portfolio_value := initial_portfolio_value b;
     current_portfolio_value := value;
     daily_start_value := daily_start_value b;
     daily_loss_limit := daily_loss_limit b;
     daily_highest_value :=
       if Qgtb value (daily_highest_value b) then value else daily_highest_value b;
     daily_trades := daily_trades b;
     daily_losses := daily_losses b;
     max_open_positions := max_open_positions b;
     max_position_percent := max_position_percent b;
     emergency_stop_active := emergency_stop_active b;
     emergency_stop_reason := emergency_stop_reason b;
     positions := positions b;
     trade_history := trade_history b |}.

(** [RiskManager.reset_daily_stats] *)
Definition reset_daily_stats (b : t) : t :=
  {| initial_portfolio_value := initial_portfolio_value b;
     current_portfolio_value := current_portfolio_value b;
     daily_start_value := current_portfolio_value b;
     daily_loss_limit := daily_loss_limit b;
     daily_highest_value := current_portfolio_value b;
     daily_trades := 0;
     daily_losses := 0;
     max_open_positions := max_open_positions b;
     max_position_percent := max_position_percent b;
     emergency_stop_active := emergency_stop_active b;
     emergency_stop_reason := emergency_stop_reason b;
     positions := positions b;
     trade_history := trade_history b |}.

Definition set_emergency (b : t) (active : bool) (reason : option string) : t :=
  {| initial_portfolio_value := initial_portfolio_value b;
     current_portfolio_value := current_portfolio_value b;
     daily_start_value := daily_start_value b;
     daily_loss_limit := daily_loss_limit b;
     daily_highest_value := daily_highest_value b;
     daily_trades := daily_trades b;
     daily_losses := daily_losses b;
     max_open_positions := max_open_positions b;
     max_position_percent := max_position_percent b;
     emergency_stop_active := active;
     emergency_stop_reason := reason;
     positions := positions b;
     trade_history := trade_history b |}.

(** [RiskManager.activate_emergency_stop] *)
Definition activate_emergency_stop (b : t) (reason : string) : t :=
  set_emergency b true (Some reason).

(** [RiskManager.deactivate_emergency_stop] *)
Definition deactivate_emergency_stop (b : t) : t :=
  set_emergency b false None.

(** The profit [close_position] computes. *)
Definition closing_pnl (p : Pos) (exit_price : Q) : result Q :=
  match pos_type p with
  | Risk.Long => py_div ((exit_price - pos_entry_price p) * pos_size p) (pos_entry_price p)
  | Risk.Short => py_div ((pos_entry_price p - exit_price) * pos_size p) (pos_entry_price p)
  end.

(** The relative move [check_position_exits] computes. *)
Definition relative_move (p : Pos) (current_price : Q) : result Q :=
  match pos_type p with
  | Risk.Long => py_div (current_price - pos_entry_price p) (pos_entry_price p)
  | Risk.Short => py_div (pos_entry_price p - current_price) (pos_entry_price p)
  end.

(** [RiskManager.close_position] *)
Definition close_position (b : t) (token : string) (exit_price : Q) (reason : string)
    (now : Time) : result (option Pos) * t :=
  match dict_get token (positions b) with
  | None => (Ok None, b)
  | Some position =>
    match closing_pnl position exit_price with
    | Raise e => (Raise e, b)
    | Ok pnl =>
      match py_div pnl (pos_size position) with
      | Raise e => (Raise e, b)
      | Ok ratio =>
        let pnl_percent := ratio * 100 in
        let position' :=
          {| pos_token := pos_token position;
             pos_type := pos_type position;
             pos_size := pos_size position;
             pos_entry_price := pos_entry_price position;
             pos_current_price := pos_current_price position;
             pos_stop_loss := pos_stop_loss position;
             pos_take_profit := pos_take_profit position;
             pos_confidence := pos_confidence position;
             pos_pnl := pnl;
             pos_pnl_percent := pnl_percent;
             pos_opened_at := pos_opened_at position;
             pos_exit := Some {| exit_price := exit_price;
                                 closed_at := now;
                                 close_reason := reason |} |} in
        (Ok (Some position'),
         {| initial_portfolio_value := initial_portfolio_value b;
            current_portfolio_value := current_portfolio_value b;
            daily_start_value := daily_start_value b;
            daily_loss_limit := daily_loss_limit b;
            daily_highest_value := daily_highest_value b;
            daily_trades := daily_trades b + 1;
            daily_losses := if Qltb pnl 0 then daily_losses b + 1 else daily_losses b;
            max_open_positions := max_open_positions b;
            max_position_percent := max_position_percent b;
            emergency_stop_active := emergency_stop_active b;
            emergency_stop_reason := emergency_stop_reason b;
            positions := dict_del token (positions b);
            trade_history := trade_history b ++ [position'] |})
      end
    end
  end.

(** Which exit, if any, a price triggers: the stop is looked at first. *)
Definition exit_signal (p : Pos) (current_price : Q) : option string :=
  let stop_hit :=
    truthy (pos_stop_loss p)
    && match pos_type p with
       | Risk.Long => Qleb current_price (pos_stop_loss p)
       | Risk.Short => Qgeb current_price (pos_stop_loss p)
       end in
  let take_hit :=
    truthy (pos_take_profit p)
    && match pos_type p with
       | Risk.Long => Qgeb current_price (pos_take_profit p)
       | Risk.Short => Qleb current_price (pos_take_profit p)
       end in
  if stop_hit then Some "stop_loss"
  else if take_hit then Some "take_profit"
  else None.

Definition set_current_price (p : Pos) (current_price : Q) : Pos :=
  {| pos_token := pos_token p;
     pos_type := pos_type p;
     pos_size := pos_size p;
     pos_entry_price := pos_entry_price p;
     pos_current_price := current_price;
     pos_stop_loss := pos_stop_loss p;
     pos_take_profit := pos_take_profit p;
     pos_confidence := pos_confidence p;
     pos_pnl := pos_pnl p;
     pos_pnl_percent := pos_pnl_percent p;
     pos_opened_at := pos_opened_at p;
     pos_exit := pos_exit p |}.

Definition set_pnl (p : Pos) (pnl pnl_percent : Q) : Pos :=
  {| pos_token := pos_token p;
     pos_type := pos_type p;
     pos_size := pos_size p;
     pos_entry_price := pos_entry_price p;
     pos_current_price := pos_current_price p;
     pos_stop_loss := pos_stop_loss p;
     pos_take_profit := pos_take_profit p;
     pos_confidence := pos_confidence p;
     pos_pnl := pnl;
     pos_pnl_percent := pnl_percent;
     pos_opened_at := pos_opened_at p;
     pos_exit := pos_exit p |}.

(** One turn of the loop of [check_position_exits], on an item of the
    snapshot: what is appended to [closed], if anything, and the state. *)
Definition check_one (current_prices : gmap string Q) (now : Time)
    (item : string * Pos) (b : t) : result (option (option Pos)) * t :=
  let '(token, position) := item in
  match current_prices !! token with
  | None => (Ok None, b)
  | Some current_price =>
    if negb (truthy current_price) then (Ok None, b)
    else
      let position := set_current_price position current_price in
      let b := with_positions b (dict_replace token position (positions b)) in
      match relative_move position current_price with
      | Raise e => (Raise e, b)
      | Ok pnl =>
        let position := set_pnl position (pnl * pos_size position) (pnl * 100) in
        let b := with_positions b (dict_replace token position (positions b)) in
        match exit_signal position current_price with
        | Some reason =>
          match close_position b token current_price reason now with
          | (Raise e, b') => (Raise e, b')
          | (Ok closed, b') => (Ok (Some closed), b')
          end
        | None => (Ok None, b)
        end
      end
  end.

Fixpoint check_loop (current_prices : gmap string Q) (now : Time)
    (snapshot : dict Pos) (closed : list (option Pos)) (b : t)
  : result (list (option Pos)) * t :=
  match snapshot with
  | [] => (Ok closed, b)
  | item :: rest =>
    match check_one current_prices now item b with
    | (Raise e, b') => (Raise e, b')
    | (Ok None, b') => check_loop current_prices now rest closed b'
    | (Ok (Some c), b') => check_loop current_prices now rest (closed ++ [c]) b'
    end
  end.

(** [RiskManager.check_position_exits] *)
Definition check_position_exits (b : t) (current_prices : gmap string Q) (now : Time)
  : result (list (option Pos)) * t :=
  check_loop current_prices now (positions b) [] b.

Section Methods.

Variable assess_token_risk : string -> result Risk.RiskMetrics.

(** [RiskManager.can_open_position] *)
Definition can_open_position (b : t) (token : string) (position_size confidence : Q)
  : result (bool * Risk.Reason) :=
  Risk.can_open_position assess_token_risk (view b) token position_size confidence.

(** [RiskManager.open_position] *)
Definition open_position (b : t) (token : string) (position_type : Risk.PositionType)
    (size entry_price confidence : Q) (now : Time) : result Pos * t :=
  match Risk.calculate_stop_loss assess_token_risk token entry_price
          position_type confidence with
  | Raise e => (Raise e, b)
  | Ok stop_loss =>
    let take_profit :=
      Risk.calculate_take_profit token entry_price position_type confidence in
    let position :=
      {| pos_token := token;
         pos_type := position_type;
         pos_size := size;
         pos_entry_price := entry_price;
         pos_current_price := entry_price;
         pos_stop_loss := stop_loss;
         pos_take_profit := take_profit;
         pos_confidence := confidence;
         pos_pnl := 0;
         pos_pnl_percent := 0;
         pos_opened_at := now;
         pos_exit := None |} in
    (Ok position, with_positions b (dict_set token position (positions b)))
  end.

(** The calls that change a manager. *)
Inductive Call : Type :=
| SetPortfolioValue (value : Q)
| ResetDailyStats
| ActivateEmergencyStop (reason : string)
| DeactivateEmergencyStop
| OpenPosition (token : string) (position_type : Risk.PositionType)
    (size entry_price confidence : Q)
| ClosePosition (token : string) (exit_price : Q) (reason : string)
| CheckPositionExits (current_prices : gmap string Q).

(** The manager after a call, whether the call returned or raised. *)
Definition call (now : Time) (b : t) (c : Call) : t :=
  match c with
  | SetPortfolioValue value => set_portfolio_value b value
  | ResetDailyStats => reset_daily_stats b
  | ActivateEmergencyStop reason => activate_emergency_stop b reason
  | DeactivateEmergencyStop => deactivate_emergency_stop b
  | OpenPosition token position_type size entry_price confidence =>
    snd (open_position b token position_type size entry_price confidence now)
  | ClosePosition token exit_price reason =>
    snd (close_position b token exit_price reason now)
  | CheckPositionExits current_prices =>
    snd (check_position_exits b current_prices now)
  end.

Definition calls (now : Time) (b : t) (cs : list Call) : t :=
  fold_left (call now) cs b.

End Methods.

End RiskBook.

(** The emergency switch as two managers show it. *)
Definition same_switch (b b' : RiskBook.t) : Prop :=
  RiskBook.emergency_stop_active b' = RiskBook.emergency_stop_active b
  /\ RiskBook.emergency_stop_reason b' = RiskBook.emergency_stop_reason b.

Lemma close_position_same_switch (b b' : RiskBook.t) (token : string) (exit_price : Q)
    (reason : string) (now : Time) (r : result (option RiskBook.Pos)) :
  RiskBook.close_position b token exit_price reason now = (r, b') -> same_switch b b'.
Proof.
  unfold RiskBook.close_position, same_switch. intros H.
  destruct (RiskBook.dict_get _ _); [|inversion H; subst; auto].
  destruct (RiskBook.closing_pnl _ _); [|inversion H; subst; auto].
  destruct (py_div _ _); inversion H; subst; auto.
Qed.

Lemma check_one_same_switch (prices : gmap string Q) (now : Time)
    (item : string * RiskBook.Pos) (b b' : RiskBook.t)
    (r : result (option (option RiskBook.Pos))) :
  RiskBook.check_one prices now item b = (r, b') -> same_switch b b'.
Proof.
  unfold RiskBook.check_one. destruct item as [token position]. intros H.
  destruct (prices !! token) as [cp|]; [|inversion H; subst; split; reflexivity].
  destruct (negb (truthy cp)); [inversion H; subst; split; reflexivity|].
  destruct (RiskBook.relative_move _ _) as [pnl|e];
    [|inversion H; subst; split; reflexivity].
  destruct (RiskBook.exit_signal _ _) as [reason|];
    [|inversion H; subst; split; reflexivity].
  destruct (RiskBook.close_position _ _ _ _ _) as [[c|e] b''] eqn:Hc;
    inversion H; subst;
    exact (close_position_same_switch _ _ _ _ _ _ _ Hc).
Qed.

Lemma check_loop_same_switch (prices : gmap string Q) (now : Time)
    (snapshot : RiskBook.dict RiskBook.Pos) :
  forall (closed : list (option RiskBook.Pos)) (b b' : RiskBook.t)
         (r : result (list (option RiskBook.Pos))),
    RiskBook.check_loop prices now snapshot closed b = (r, b') -> same_switch b b'.
Proof.
  induction snapshot as [|item rest IH]; intros closed b b' r H; simpl in H.
  - inversion H; subst. split; reflexivity.
  - destruct (RiskBook.check_one prices now item b) as [[[c|]|e] b1] eqn:H1;
      pose proof (check_one_same_switch _ _ _ _ _ _ H1) as [Ha Hr].
    + destruct (IH _ _ _ _ H) as [Ha' Hr']. split; congruence.
    + destruct (IH _ _ _ _ H) as [Ha' Hr']. split; congruence.
    + inversion H; subst. split; assumption.
Qed.

Definition is_deactivate (c : RiskBook.Call) : bool :=
  match c with RiskBook.DeactivateEmergencyStop => true | _ => false end.

Lemma call_keeps_stop (assess : string -> result Risk.RiskMetrics) (now : Time)
    (b : RiskBook.t) (c : RiskBook.Call) :
  is_deactivate c = false ->
  RiskBook.emergency_stop_active b = true ->
  RiskBook.emergency_stop_active (RiskBook.call assess now b c) = true.
Proof.
  intros Hc Hb. destruct c; simpl; try exact Hb; try reflexivity; try discriminate.
  - unfold RiskBook.open_position.
    destruct (Risk.calculate_stop_loss _ _ _ _ _); simpl; exact Hb.
  - destruct (RiskBook.close_position b token exit_price reason now) as [r b'] eqn:H.
    destruct (close_position_same_switch _ _ _ _ _ _ _ H) as [Ha _].
    simpl. congruence.
  - destruct (RiskBook.check_position_exits b current_prices now) as [r b'] eqn:H.
    destruct (check_loop_same_switch _ _ _ _ _ _ _ H) as [Ha _].
    simpl. congruence.
Qed.

(** Once the emergency stop is on, no call but
    [deactivate_emergency_stop] lets an order pass the admission check:
    whatever was booked, closed or revalued in between, the check
    refuses, and it does so before it would assess the token. *)
Theorem emergency_stop_latches :
  forall (assess assess' : string -> result Risk.RiskMetrics) (now : Time)
         (b : RiskBook.t) (reason : string) (cs : list RiskBook.Call)
         (token : string) (position_size confidence : Q),
    List.Forall (fun c => is_deactivate c = false) cs ->
    exists why,
      RiskBook.can_open_position assess'
        (RiskBook.calls assess now (RiskBook.activate_emergency_stop b reason) cs)
        token position_size confidence
      = Ok (false, Risk.EmergencyStopActive why).
Proof.
  intros assess assess' now b reason cs token position_size confidence Hcs.
  assert (Hon : RiskBook.emergency_stop_active
                  (RiskBook.calls assess now
                     (RiskBook.activate_emergency_stop b reason) cs) = true).
  { unfold RiskBook.calls.
    assert (H0 : RiskBook.emergency_stop_active
                   (RiskBook.activate_emergency_stop b reason) = true) by reflexivity.
    revert H0. generalize (RiskBook.activate_emergency_stop b reason).
    induction Hcs as [|c cs Hc _ IH]; intros b0 H0; simpl; [exact H0|].
    apply IH. apply call_keeps_stop; assumption. }
  unfold RiskBook.can_open_position, Risk.can_open_position.
  change (Risk.emergency_stop_active (RiskBook.view ?x))
    with (RiskBook.emergency_stop_active x).
  rewrite Hon. eexists. reflexivity.
Qed.

(** [self.assess_token_risk] as the risk manager of the repository binds
    it, over the demo market and with a stack of 1000 frames. *)
Definition demo_assessment (token : string) : result Risk.RiskMetrics :=
  Risk.assess_token_risk 1000 demo_market (Risk.init 40000) token.

Lemma emergency_stop_latches_witness :
  exists why,
    RiskBook.can_open_position demo_assessment
      (RiskBook.calls demo_assessment 0%nat
         (RiskBook.activate_emergency_stop (RiskBook.init 40000) "halt")
         [RiskBook.SetPortfolioValue 50000; RiskBook.ResetDailyStats;
          RiskBook.OpenPosition "WETH" Risk.Long 1000 3000 1;
          RiskBook.CheckPositionExits {["WETH" := 2000]}])
      "WETH" 100 1
    = Ok (false, Risk.EmergencyStopActive why).
Proof.
  apply (emergency_stop_latches demo_assessment demo_assessment 0%nat
           (RiskBook.init 40000) "halt").
  repeat constructor.
Defined.



Lemma view_positions_size (b : RiskBook.t) :
  List.NoDup (RiskBook.keys (RiskBook.positions b)) ->
  size (Risk.positions (RiskBook.view b)) = length (RiskBook.positions b).
Proof.
  intros Hnd. simpl. rewrite map_size_list_to_map.
  - apply length_map.
  - apply NoDup_ListNoDup. rewrite <- list_fmap_compose.
    unfold RiskBook.keys in Hnd.
    erewrite list_fmap_ext; [exact Hnd|]. intros i [k p] _. reflexivity.
Qed.



(** *** The dictionary of positions *)


(** The entry of a key that occurs once, after what comes before it. *)
Lemma dict_get_middle {A : Type} (k : string) (v : A) (done rest : RiskBook.dict A) :
  ~ In k (RiskBook.keys done) ->
  RiskBook.dict_get k (done ++ (k, v) :: rest) = Some v.
Proof.
  induction done as [|[k' v'] done IH]; simpl; intros H.
  - rewrite String.eqb_refl. reflexivity.
  - destruct (String.eqb k' k) eqn:E.
    + apply String.eqb_eq in E. exfalso. auto.
    + apply IH. auto.
Qed.

Lemma dict_replace_middle {A : Type} (k : string) (v v' : A)
    (done rest : RiskBook.dict A) :
  ~ In k (RiskBook.keys done) ->
  RiskBook.dict_replace k v' (done ++ (k, v) :: rest) = done ++ (k, v') :: rest.
Proof.
  induction done as [|[k' v0] done IH]; simpl; intros H.
  - rewrite String.eqb_refl. reflexivity.
  - destruct (String.eqb k' k) eqn:E.
    + apply String.eqb_eq in E. exfalso. auto.
    + rewrite IH by auto. reflexivity.
Qed.

Lemma dict_del_middle {A : Type} (k : string) (v : A) (done rest : RiskBook.dict A) :
  ~ In k (RiskBook.keys done) ->
  RiskBook.dict_del k (done ++ (k, v) :: rest) = done ++ rest.
Proof.
  induction done as [|[k' v0] done IH]; simpl; intros H.
  - rewrite String.eqb_refl. reflexivity.
  - destruct (String.eqb k' k) eqn:E.
    + apply String.eqb_eq in E. exfalso. auto.
    + rewrite IH by auto. reflexivity.
Qed.


Lemma keys_app {A : Type} (d1 d2 : RiskBook.dict A) :
  RiskBook.keys (d1 ++ d2) = RiskBook.keys d1 ++ RiskBook.keys d2.
Proof. unfold RiskBook.keys. apply map_app. Qed.

(** [open_position] does not book.  Its first statement computes the
    stop loss, which assesses the token, and the assessment never returns
    (C3): for every book, token, side, size, entry price and confidence
    the call ends in an exception and the book is as it was.  It does so
    also where the admission check would have refused the order, with the
    emergency stop on or the size above the limit: the method does not
    ask. *)
Theorem open_position_never_books :
  forall (frames : nat) (md : MarketData.t) (rm : Risk.RiskManager) (b : RiskBook.t)
         (token : string) (position_type : Risk.PositionType)
         (size entry_price confidence : Q) (now : Time),
    exists e,
      RiskBook.open_position (Risk.assess_token_risk frames md rm)
        b token position_type size entry_price confidence now
      = (Raise e, b).
Proof.
  intros frames md rm b token position_type size entry_price confidence now.
  unfold RiskBook.open_position.
  destruct (calculate_stop_loss_raises md rm frames token entry_price confidence
              position_type) as [e He].
  rewrite He. exists e. reflexivity.
Qed.

Example open_position_with_the_stop_on :
  RiskBook.open_position demo_assessment
    (RiskBook.activate_emergency_stop (RiskBook.init 40000) "halt")
    "WETH" Risk.Long 1000000 3000 1 0%nat
  = (Raise AttributeError, RiskBook.activate_emergency_stop (RiskBook.init 40000) "halt").
Proof. vm_compute. reflexivity. Qed.

(** The cap on open positions counts the tokens of the book: the
    admission check answers that the maximum is reached exactly when
    the book holds that many tokens, whatever the order. *)
Theorem position_cap_counts_booked_tokens :
  forall (assess : string -> result Risk.RiskMetrics) (b : RiskBook.t) (token : string)
         (position_size confidence : Q),
    List.NoDup (RiskBook.keys (RiskBook.positions b)) ->
    RiskBook.emergency_stop_active b = false ->
    (RiskBook.max_open_positions b <= length (RiskBook.positions b))%nat
    <-> RiskBook.can_open_position assess b token position_size confidence
        = Ok (false, Risk.MaxPositionsReached (RiskBook.max_open_positions b)).
Proof.
  intros assess b token position_size confidence Hnd Hoff.
  pose proof (view_positions_size b Hnd) as Hsize.
  unfold RiskBook.can_open_position, Risk.can_open_position.
  change (Risk.emergency_stop_active (RiskBook.view b))
    with (RiskBook.emergency_stop_active b).
  change (Risk.max_open_positions (RiskBook.view b))
    with (RiskBook.max_open_positions b).
  rewrite Hoff, Hsize.
  destruct (RiskBook.max_open_positions b <=? length (RiskBook.positions b))%nat eqn:Hc.
  - apply Nat.leb_le in Hc. split; [reflexivity|intros _; exact Hc].
  - apply Nat.leb_gt in Hc. split; [lia|]. intros H. exfalso.
    destruct (Qltb _ (- _)); [discriminate|].
    destruct (Qgtb position_size _); [discriminate|].
    destruct (assess token) as [m|e]; simpl in H; [|discriminate].
    destruct (_ && _); discriminate.
Qed.

Lemma position_cap_counts_booked_tokens_witness :
  (RiskBook.max_open_positions (RiskBook.init 40000)
   <= length (RiskBook.positions (RiskBook.init 40000)))%nat
  <-> RiskBook.can_open_position demo_assessment (RiskBook.init 40000) "WETH" 100 1
      = Ok (false,
            Risk.MaxPositionsReached (RiskBook.max_open_positions (RiskBook.init 40000))).
Proof.
  apply (position_cap_counts_booked_tokens demo_assessment (RiskBook.init 40000)
           "WETH" 100 1).
  - simpl. constructor.
  - reflexivity.
Defined.


Lemma Qeq_bool_false (x : Q) : Qeq_bool x 0 = false <-> ~ x == 0.
Proof.
  split; intros H.
  - intros E. apply Qeq_bool_iff in E. congruence.
  - destruct (Qeq_bool x 0) eqn:E; [|reflexivity].
    apply Qeq_bool_iff in E. contradiction.
Qed.


(** A book with one long position in WETH, 1000 USD entered at 3000 with
    the stop at 2400 and the take profit at 3675.  The position is written
    into the book as data: [open_position] itself never books. *)
Definition demo_book : RiskBook.t :=
  RiskBook.with_positions (RiskBook.init 40000)
    [("WETH",
      {| RiskBook.pos_token := "WETH"; RiskBook.pos_type := Risk.Long;
         RiskBook.pos_size := 1000; RiskBook.pos_entry_price := 3000;
         RiskBook.pos_current_price := 3000; RiskBook.pos_stop_loss := 2400;
         RiskBook.pos_take_profit := 3675; RiskBook.pos_confidence := 1;
         RiskBook.pos_pnl := 0; RiskBook.pos_pnl_percent := 0;
         RiskBook.pos_opened_at := 0%nat; RiskBook.pos_exit := None |})].


(** *** Exits *)

(** A price strictly inside the levels of a position; a level of zero
    counts as no level. *)
Definition inside_levels (p : RiskBook.Pos) (price : Q) : Prop :=
  match RiskBook.pos_type p with
  | Risk.Long =>
    (~ RiskBook.pos_stop_loss p == 0 -> RiskBook.pos_stop_loss p < price)
    /\ (~ RiskBook.pos_take_profit p == 0 -> price < RiskBook.pos_take_profit p)
  | Risk.Short =>
    (~ RiskBook.pos_stop_loss p == 0 -> price < RiskBook.pos_stop_loss p)
    /\ (~ RiskBook.pos_take_profit p == 0 -> RiskBook.pos_take_profit p < price)
  end.

Lemma truthy_false (x : Q) : truthy x = false <-> x == 0.
Proof.
  unfold truthy. rewrite negb_false_iff. apply Qeq_bool_iff.
Qed.

Lemma Qgeb_le (x y : Q) : Qgeb x y = true <-> y <= x.
Proof. unfold Qgeb. apply Qle_bool_iff. Qed.

Lemma Qgeb_lt (x y : Q) : Qgeb x y = false <-> x < y.
Proof. unfold Qgeb. apply (Qleb_gt y x). Qed.

Lemma exit_signal_None (p : RiskBook.Pos) (price : Q) :
  RiskBook.exit_signal p price = None <-> inside_levels p price.
Proof.
  unfold RiskBook.exit_signal, inside_levels.
  destruct (truthy (RiskBook.pos_stop_loss p)) eqn:Hs;
    destruct (truthy (RiskBook.pos_take_profit p)) eqn:Ht;
    try apply truthy_true in Hs; try apply truthy_false in Hs;
    try apply truthy_true in Ht; try apply truthy_false in Ht;
    destruct (RiskBook.pos_type p); simpl;
    repeat match goal with
           | |- context [Qleb ?a ?b] =>
             let E := fresh "E" in
             destruct (Qleb a b) eqn:E;
             [apply Qleb_le in E|apply Qleb_gt in E]
           | |- context [Qgeb ?a ?b] =>
             let E := fresh "E" in
             destruct (Qgeb a b) eqn:E;
             [apply Qgeb_le in E|apply Qgeb_lt in E]
           end; simpl;
    split; try discriminate; try reflexivity;
    try (intros [H1 H2]; exfalso;
         try (specialize (H1 Hs)); try (specialize (H2 Ht)); lra);
    try (intros _; split; intros; try contradiction; lra).
Qed.

Lemma exit_signal_Some (p : RiskBook.Pos) (price : Q) (reason : string) :
  RiskBook.exit_signal p price = Some reason ->
  (reason = "stop_loss" \/ reason = "take_profit") /\ ~ inside_levels p price.
Proof.
  intros H. split.
  - unfold RiskBook.exit_signal in H.
    destruct (_ && _) in H; [inversion H; auto|].
    destruct (_ && _) in H; [inversion H; auto|discriminate].
  - intros Hin. apply exit_signal_None in Hin. congruence.
Qed.

(** A position that a check at these prices leaves as it is. *)
Definition settled (prices : gmap string Q) (kp : string * RiskBook.Pos) : Prop :=
  match prices !! fst kp with
  | None => True
  | Some price =>
    truthy price = true ->
    exists m,
      RiskBook.relative_move (snd kp) price = Ok m
      /\ RiskBook.set_pnl (RiskBook.set_current_price (snd kp) price)
           (m * RiskBook.pos_size (snd kp)) (m * 100) = snd kp
      /\ RiskBook.exit_signal (snd kp) price = None
  end.

(** A position as a check closed it. *)
Definition closed_by_check (c : RiskBook.Pos) : Prop :=
  exists e,
    RiskBook.pos_exit c = Some e
    /\ RiskBook.exit_price e = RiskBook.pos_current_price c
    /\ ~ RiskBook.exit_price e == 0
    /\ (RiskBook.close_reason e = "stop_loss" \/ RiskBook.close_reason e = "take_profit")
    /\ ~ inside_levels c (RiskBook.exit_price e).

Definition sound (kp : string * RiskBook.Pos) : Prop :=
  ~ RiskBook.pos_entry_price (snd kp) == 0 /\ ~ RiskBook.pos_size (snd kp) == 0.

Lemma with_positions_same (b : RiskBook.t) (ps : RiskBook.dict RiskBook.Pos) :
  ps = RiskBook.positions b -> RiskBook.with_positions b ps = b.
Proof. intros ->. destruct b. reflexivity. Qed.

Lemma with_positions_twice (b : RiskBook.t) (ps ps' : RiskBook.dict RiskBook.Pos) :
  RiskBook.with_positions (RiskBook.with_positions b ps) ps'
  = RiskBook.with_positions b ps'.
Proof. reflexivity. Qed.

Lemma check_one_settled (prices : gmap string Q) (now : Time) (k : string)
    (p : RiskBook.Pos) (done rest : RiskBook.dict RiskBook.Pos) (b : RiskBook.t) :
  RiskBook.positions b = done ++ (k, p) :: rest ->
  ~ In k (RiskBook.keys done) ->
  settled prices (k, p) ->
  RiskBook.check_one prices now (k, p) b = (Ok None, b).
Proof.
  intros Hb Hk Hs. unfold RiskBook.check_one, settled in *. simpl fst in Hs. simpl snd in Hs.
  destruct (prices !! k) as [price|]; [|reflexivity].
  destruct (truthy price) eqn:Ht; [|reflexivity]. simpl negb. cbv iota.
  destruct (Hs eq_refl) as [m [Hm [Hp He]]].
  assert (Hm' : RiskBook.relative_move (RiskBook.set_current_price p price) price = Ok m)
    by exact Hm.
  rewrite Hm'.
  change (RiskBook.pos_size (RiskBook.set_current_price p price))
    with (RiskBook.pos_size p).
  rewrite Hp, He.
  cbn [RiskBook.with_positions RiskBook.positions].
  rewrite with_positions_twice. rewrite Hb.
  rewrite !dict_replace_middle by exact Hk.
  rewrite <- Hb. rewrite with_positions_same by reflexivity. reflexivity.
Qed.

(** One turn of the loop on a sound position that occurs once. *)
Lemma check_one_spec (prices : gmap string Q) (now : Time) (k : string)
    (p : RiskBook.Pos) (done rest : RiskBook.dict RiskBook.Pos) (b : RiskBook.t) :
  RiskBook.positions b = done ++ (k, p) :: rest ->
  ~ In k (RiskBook.keys done) ->
  sound (k, p) ->
  (exists p',
     RiskBook.check_one prices now (k, p) b
     = (Ok None, RiskBook.with_positions b (done ++ (k, p') :: rest))
     /\ settled prices (k, p'))
  \/ (exists c b',
        RiskBook.check_one prices now (k, p) b = (Ok (Some (Some c)), b')
        /\ RiskBook.positions b' = done ++ rest
        /\ RiskBook.trade_history b' = RiskBook.trade_history b ++ [c]
        /\ closed_by_check c).
Proof.
  intros Hb Hk [He Hs]. simpl in He, Hs.
  unfold RiskBook.check_one.
  destruct (prices !! k) as [price|] eqn:Hprice.
  2:{ left. exists p. split.
      - rewrite with_positions_same by (symmetry; exact Hb). reflexivity.
      - unfold settled. simpl. rewrite Hprice. exact I. }
  destruct (truthy price) eqn:Ht; simpl negb; cbv iota.
  2:{ left. exists p. split.
      - rewrite with_positions_same by (symmetry; exact Hb). reflexivity.
      - unfold settled. simpl. rewrite Hprice. rewrite Ht. discriminate. }
  assert (Hm : exists m,
            RiskBook.relative_move (RiskBook.set_current_price p price) price = Ok m).
  { unfold RiskBook.relative_move. simpl.
    destruct (RiskBook.pos_type p); rewrite py_div_ok by exact He; eauto. }
  destruct Hm as [m Hm]. rewrite Hm.
  cbn [RiskBook.with_positions RiskBook.positions].
  rewrite with_positions_twice. rewrite Hb.
  rewrite !dict_replace_middle by exact Hk.
  set (p1 := RiskBook.set_pnl (RiskBook.set_current_price p price)
               (m * RiskBook.pos_size (RiskBook.set_current_price p price)) (m * 100)).
  destruct (RiskBook.exit_signal p1 price) as [reason|] eqn:Hsig.
  - right. unfold RiskBook.close_position.
    cbn [RiskBook.with_positions RiskBook.positions].
    rewrite dict_get_middle by exact Hk.
    assert (Hpnl : exists pnl, RiskBook.closing_pnl p1 price = Ok pnl).
    { unfold RiskBook.closing_pnl. simpl.
      destruct (RiskBook.pos_type p); rewrite py_div_ok by exact He; eauto. }
    destruct Hpnl as [pnl Hpnl]. rewrite Hpnl.
    change (RiskBook.pos_size p1) with (RiskBook.pos_size p).
    rewrite (py_div_ok _ _ Hs).
    rewrite dict_del_middle by exact Hk.
    do 2 eexists. split; [reflexivity|]. simpl.
    split; [reflexivity|]. split; [reflexivity|].
    destruct (exit_signal_Some _ _ _ Hsig) as [Hr Hout].
    eexists. split; [reflexivity|]. simpl.
    split; [reflexivity|]. split; [apply truthy_true; exact Ht|].
    split; [exact Hr|]. exact Hout.
  - left. exists p1. split; [reflexivity|].
    unfold settled. simpl fst. simpl snd. rewrite Hprice. intros _.
    exists m. split; [exact Hm|]. split; [reflexivity|exact Hsig].
Qed.

Lemma NoDup_keys_replace (k : string) (p p' : RiskBook.Pos)
    (done rest : RiskBook.dict RiskBook.Pos) :
  List.NoDup (RiskBook.keys (done ++ (k, p) :: rest)) ->
  List.NoDup (RiskBook.keys ((done ++ [(k, p')]) ++ rest))
  /\ List.NoDup (RiskBook.keys (done ++ rest))
  /\ ~ In k (RiskBook.keys done).
Proof.
  intros H. rewrite <- app_assoc. simpl.
  rewrite !keys_app in *. simpl in *.
  split; [exact H|]. split; [exact (List.NoDup_remove_1 _ _ _ H)|].
  pose proof (List.NoDup_remove_2 _ _ _ H) as H2.
  intros Hin. apply H2. apply in_or_app. left. exact Hin.
Qed.

(** The loop on sound positions: what is kept is settled, what is
    closed was beyond its levels. *)
Lemma check_loop_spec (prices : gmap string Q) (now : Time)
    (rest : RiskBook.dict RiskBook.Pos) :
  forall (done : RiskBook.dict RiskBook.Pos) (closed : list (option RiskBook.Pos))
         (b : RiskBook.t),
    RiskBook.positions b = done ++ rest ->
    List.NoDup (RiskBook.keys (done ++ rest)) ->
    List.Forall sound rest ->
    exists kept cl b',
      RiskBook.check_loop prices now rest closed b = (Ok (closed ++ map Some cl), b')
      /\ RiskBook.positions b' = done ++ kept
      /\ List.NoDup (RiskBook.keys (done ++ kept))
      /\ (length kept + length cl)%nat = length rest
      /\ RiskBook.trade_history b' = RiskBook.trade_history b ++ cl
      /\ List.Forall (settled prices) kept
      /\ List.Forall closed_by_check cl.
Proof.
  induction rest as [|[k p] rest IH]; intros done closed b Hb Hnd Hsound;
    cbn [RiskBook.check_loop].
  - rewrite app_nil_r in Hb, Hnd. exists [], [], b. simpl. rewrite !app_nil_r.
    repeat split; try assumption; constructor.
  - inversion Hsound as [|? ? Hp Hrest]; subst.
    destruct (NoDup_keys_replace k p p done rest Hnd) as [_ [Hnd2 Hk]].
    destruct (check_one_spec prices now k p done rest b Hb Hk Hp)
      as [[p' [H1 Hset]]|[c [b1 [H1 [Hpos [Hth Hc]]]]]]; rewrite H1.
    + destruct (NoDup_keys_replace k p p' done rest Hnd) as [Hnd1 _].
      destruct (IH (done ++ [(k, p')]) closed
                  (RiskBook.with_positions b (done ++ (k, p') :: rest)))
        as [kept [cl [b' [Hrun [Hpos' [Hnd' [Hlen [Hth' [Hkept Hcl]]]]]]]]].
      * simpl. rewrite <- app_assoc. reflexivity.
      * exact Hnd1.
      * exact Hrest.
      * exists ((k, p') :: kept), cl, b'. rewrite Hrun.
        rewrite <- app_assoc in Hpos', Hnd'. simpl in Hpos', Hnd'.
        repeat split; try assumption.
        -- simpl. lia.
        -- constructor; assumption.
    + destruct (IH done (closed ++ [Some c]) b1)
        as [kept [cl [b' [Hrun [Hpos' [Hnd' [Hlen [Hth' [Hkept Hcl]]]]]]]]].
      * exact Hpos.
      * exact Hnd2.
      * exact Hrest.
      * exists kept, (c :: cl), b'. rewrite Hrun.
        repeat split; try assumption.
        -- rewrite <- app_assoc. reflexivity.
        -- simpl. lia.
        -- rewrite Hth', Hth, <- app_assoc. reflexivity.
        -- constructor; assumption.
Qed.

(** The loop on settled positions does nothing. *)
Lemma check_loop_settled (prices : gmap string Q) (now : Time)
    (rest : RiskBook.dict RiskBook.Pos) :
  forall (done : RiskBook.dict RiskBook.Pos) (closed : list (option RiskBook.Pos))
         (b : RiskBook.t),
    RiskBook.positions b = done ++ rest ->
    List.NoDup (RiskBook.keys (done ++ rest)) ->
    List.Forall (settled prices) rest ->
    RiskBook.check_loop prices now rest closed b = (Ok closed, b).
Proof.
  induction rest as [|[k p] rest IH]; intros done closed b Hb Hnd Hs;
    cbn [RiskBook.check_loop].
  - reflexivity.
  - inversion Hs as [|? ? Hp Hrest]; subst.
    destruct (NoDup_keys_replace k p p done rest Hnd) as [Hnd1 [_ Hk]].
    rewrite (check_one_settled prices now k p done rest b Hb Hk Hp).
    apply (IH (done ++ [(k, p)])).
    + rewrite <- app_assoc. exact Hb.
    + exact Hnd1.
    + exact Hrest.
Qed.

(** After [check_position_exits], on positions with a non-zero entry
    price and size, no position of the book whose token has a price is
    at or beyond its stop or its take profit: each of them carries the
    price it was checked at, strictly inside its levels.  The positions
    that left the book are the ones returned, in the order of the book;
    they joined the history, each closed at a price beyond its levels,
    for a stop loss or a take profit. *)
Theorem check_position_exits_enforces_levels :
  forall (b : RiskBook.t) (current_prices : gmap string Q) (now : Time),
    List.NoDup (RiskBook.keys (RiskBook.positions b)) ->
    List.Forall sound (RiskBook.positions b) ->
    exists cl b',
      RiskBook.check_position_exits b current_prices now = (Ok (map Some cl), b')
      /\ (length (RiskBook.positions b') + length cl)%nat = length (RiskBook.positions b)
      /\ RiskBook.trade_history b' = RiskBook.trade_history b ++ cl
      /\ List.Forall closed_by_check cl
      /\ (forall k p price,
            In (k, p) (RiskBook.positions b') ->
            current_prices !! k = Some price ->
            ~ price == 0 ->
            RiskBook.pos_current_price p = price /\ inside_levels p price).
Proof.
  intros b prices now Hnd Hsound.
  destruct (check_loop_spec prices now (RiskBook.positions b) [] [] b
              eq_refl Hnd Hsound)
    as [kept [cl [b' [Hrun [Hpos [_ [Hlen [Hth [Hkept Hcl]]]]]]]]].
  simpl in Hrun, Hpos.
  exists cl, b'. unfold RiskBook.check_position_exits.
  split; [exact Hrun|]. rewrite Hpos.
  split; [exact Hlen|]. split; [exact Hth|]. split; [exact Hcl|].
  intros k p price Hin Hprice Hnz.
  rewrite List.Forall_forall in Hkept. specialize (Hkept _ Hin).
  unfold settled in Hkept. simpl in Hkept. rewrite Hprice in Hkept.
  destruct (Hkept (proj2 (truthy_true price) Hnz)) as [m [_ [Hp Hsig]]].
  split.
  - rewrite <- Hp. reflexivity.
  - apply exit_signal_None. exact Hsig.
Qed.

Lemma check_position_exits_enforces_levels_witness :
  exists cl b',
    RiskBook.check_position_exits demo_book {["WETH" := 2000]} 1%nat
    = (Ok (map Some cl), b')
    /\ (length (RiskBook.positions b') + length cl)%nat
       = length (RiskBook.positions demo_book)
    /\ RiskBook.trade_history b' = RiskBook.trade_history demo_book ++ cl
    /\ List.Forall closed_by_check cl
    /\ (forall k p price,
          In (k, p) (RiskBook.positions b') ->
          ({["WETH" := 2000]} : gmap string Q) !! k = Some price ->
          ~ price == 0 ->
          RiskBook.pos_current_price p = price /\ inside_levels p price).
Proof.
  apply (check_position_exits_enforces_levels demo_book {["WETH" := 2000]} 1%nat).
  - vm_compute. constructor; [intros []|constructor].
  - vm_compute. constructor; [split; discriminate|constructor].
Defined.

(** A second [check_position_exits] at the same prices closes nothing
    and leaves the manager as the first one left it. *)
Theorem check_position_exits_is_idempotent :
  forall (b : RiskBook.t) (current_prices : gmap string Q) (now now' : Time),
    List.NoDup (RiskBook.keys (RiskBook.positions b)) ->
    List.Forall sound (RiskBook.positions b) ->
    exists closed b',
      RiskBook.check_position_exits b current_prices now = (Ok closed, b')
      /\ RiskBook.check_position_exits b' current_prices now' = (Ok [], b').
Proof.
  intros b prices now now' Hnd Hsound.
  destruct (check_loop_spec prices now (RiskBook.positions b) [] [] b
              eq_refl Hnd Hsound)
    as [kept [cl [b' [Hrun [Hpos [Hnd' [_ [_ [Hkept _]]]]]]]]].
  simpl in Hrun, Hpos, Hnd'.
  exists (map Some cl), b'. unfold RiskBook.check_position_exits.
  split; [exact Hrun|].
  apply (check_loop_settled prices now' (RiskBook.positions b') [] [] b' eq_refl).
  - simpl. rewrite Hpos. exact Hnd'.
  - rewrite Hpos. exact Hkept.
Qed.

Lemma check_position_exits_is_idempotent_witness :
  exists closed b',
    RiskBook.check_position_exits demo_book {["WETH" := 2000]} 1%nat = (Ok closed, b')
    /\ RiskBook.check_position_exits b' {["WETH" := 2000]} 2%nat = (Ok [], b').
Proof.
  apply (check_position_exits_is_idempotent demo_book {["WETH" := 2000]} 1%nat 2%nat).
  - vm_compute. constructor; [intros []|constructor].
  - vm_compute. constructor; [split; discriminate|constructor].
Defined.

(** ** strategies.py: the other strategies *)

(** A [TradeSignal] with the confidence and the metadata a strategy
    puts in it. *)
Record Signal (C M : Type) : Type := mkSig {
  sig_token : string;
  sig_action : Strategies.Action;
  sig_confidence : C;
  sig_strategy : string;
  sig_timestamp : Time;
  sig_metadata : M
}.

Arguments mkSig {C M}.
Arguments sig_token {C M}.
Arguments sig_action {C M}.
Arguments sig_confidence {C M}.
Arguments sig_strategy {C M}.
Arguments sig_timestamp {C M}.
Arguments sig_metadata {C M}.

Module Momentum.

Import Strategies.

(** [np.diff] *)
Fixpoint np_diff (xs : list Q) : list Q :=
  match xs with
  | prev :: ((cur :: _) as rest) => (cur - prev) :: np_diff rest
  | _ => []
  end.

(** [a + x], [a / x] and [a - x] and [x / b] with a numpy scalar [x] *)
Definition np_add_l (a : Q) (x : npfloat) : npfloat :=
  match x with
  | Finite v => Finite (a + v)
  | other => other
  end.

Definition np_rdiv (a : Q) (x : npfloat) : npfloat :=
  match x with
  | Finite v => np_div a v
  | PosInf | NegInf => Finite 0
  | NaN => NaN
  end.

Definition np_sub_l (a : Q) (x : npfloat) : npfloat :=
  match x with
  | Finite v => Finite (a - v)
  | PosInf => NegInf
  | NegInf => PosInf
  | NaN => NaN
  end.

Definition np_sub_r (x : npfloat) (a : Q) : npfloat :=
  match x with
  | Finite v => Finite (v - a)
  | other => other
  end.

(** Division by a positive constant. *)
Definition np_div_by (x : npfloat) (b : Q) : npfloat :=
  match x with
  | Finite v => Finite (v / b)
  | other => other
  end.

(** [MomentumStrategy._calculate_rsi], with the period of 14 it is
    called with. *)
Definition calculate_rsi (prices : list Q) : npfloat :=
  if (length prices <? 14 + 1)%nat then Finite 50.0
  else
    let deltas := np_diff prices in
    let gains := map (fun d => Qmax d 0) deltas in
    let losses := map (fun d => Qmax (- d) 0) deltas in
    let avg_gain := np_mean (AutoTrader.last_n 14 gains) in
    let avg_loss := np_mean (AutoTrader.last_n 14 losses) in
    if Qeq_bool avg_loss 0 then Finite 100.0
    else
      let rs := np_div avg_gain avg_loss in
      np_sub_l 100 (np_rdiv 100 (np_add_l 1 rs)).

(** [prices[-n]], for [n] at most the length. *)
Definition from_end (n : nat) (prices : list Q) : Q :=
  nth (length prices - n) prices 0.

(** [MomentumStrategy._calculate_momentum], with the period of 10 it is
    called with. *)
Definition calculate_momentum (prices : list Q) : result Q :=
  if (length prices <? 10)%nat then Ok 0.0
  else py_div (List.last prices 0 - from_end 10 prices) (from_end 10 prices).

Inductive Meta : Type :=
| InsufficientData
| Indicators (rsi : npfloat) (momentum current_price : Q).

(** [MomentumStrategy.analyze], from the prices that
    [get_recent_prices(token, period=24)] returned. *)
Definition analyze (token : string) (prices : list Q) (now : Time)
  : result (Signal npfloat Meta) :=
  if (length prices <? 10)%nat then
    Ok (mkSig token Hold (Finite 0.0) "momentum" now InsufficientData)
  else
    let rsi := calculate_rsi prices in
    momentum <- calculate_momentum prices ;;
    let '(action, confidence) :=
      if np_ltb rsi 30 then (Buy, np_div_by (np_sub_l 30 rsi) 30)
      else if np_gtb rsi 70 then (Sell, np_div_by (np_sub_r rsi 70) 30)
      else if Qgtb momentum 0.02 then (Buy, Finite (Qmin 1.0 (momentum * 5)))
      else if Qltb momentum (- 0.02) then (Sell, Finite (Qmin 1.0 (Qabs momentum * 5)))
      else (Hold, Finite 0.0) in
    Ok (mkSig token action confidence "momentum" now
          (Indicators rsi momentum (List.last prices 0))).

End Momentum.

Lemma fold_right_Qplus_nonneg (xs : list Q) :
  List.Forall (fun x => 0 <= x) xs -> 0 <= fold_right Qplus 0 xs.
Proof.
  induction 1 as [|x xs Hx _ IH]; simpl; lra.
Qed.

Lemma np_mean_nonneg (xs : list Q) :
  List.Forall (fun x => 0 <= x) xs -> 0 <= Strategies.np_mean xs.
Proof.
  intros H. unfold Strategies.np_mean. rewrite py_sum_is_sum.
  pose proof (fold_right_Qplus_nonneg xs H) as Hs.
  destruct xs as [|x xs].
  - simpl. unfold Qdiv. simpl. lra.
  - apply Qle_shift_div_l; [apply (len_pos x xs)|]. lra.
Qed.

Lemma Forall_map_Qmax (f : Q -> Q) (ds : list Q) :
  List.Forall (fun x => 0 <= x) (map (fun d => Qmax (f d) 0) ds).
Proof.
  apply List.Forall_map. apply List.Forall_forall. intros d _.
  apply Q.le_max_r.
Qed.

(** The RSI is a percentage on every list of prices: never nan, never
    infinite, never outside 0 .. 100. *)
Theorem rsi_is_a_percentage :
  forall (prices : list Q),
    exists r, Momentum.calculate_rsi prices = Strategies.Finite r /\ 0 <= r <= 100.
Proof.
  intros prices. unfold Momentum.calculate_rsi.
  destruct (length prices <? 14 + 1)%nat.
  { eexists. split; [reflexivity|]. lra. }
  set (gains := map (fun d => Qmax d 0) (Momentum.np_diff prices)).
  set (losses := map (fun d => Qmax (- d) 0) (Momentum.np_diff prices)).
  assert (Hg : 0 <= Strategies.np_mean (AutoTrader.last_n 14 gains)).
  { apply np_mean_nonneg, last_n_Forall.
    apply List.Forall_forall. intros x Hx.
    pose proof (Forall_map_Qmax (fun d => d) (Momentum.np_diff prices)) as H.
    rewrite List.Forall_forall in H. apply H. exact Hx. }
  assert (Hl : 0 <= Strategies.np_mean (AutoTrader.last_n 14 losses)).
  { apply np_mean_nonneg, last_n_Forall.
    apply List.Forall_forall. intros x Hx.
    pose proof (Forall_map_Qmax Qopp (Momentum.np_diff prices)) as H.
    rewrite List.Forall_forall in H. apply H. exact Hx. }
  set (avg_gain := Strategies.np_mean (AutoTrader.last_n 14 gains)) in *.
  set (avg_loss := Strategies.np_mean (AutoTrader.last_n 14 losses)) in *.
  destruct (Qeq_bool avg_loss 0) eqn:Hz.
  { eexists. split; [reflexivity|]. lra. }
  apply Qeq_bool_false in Hz.
  assert (Hpos : 0 < avg_loss) by (destruct (Qlt_le_dec 0 avg_loss); [assumption|exfalso; apply Hz; lra]).
  unfold Strategies.np_div at 1.
  rewrite (proj2 (Qeq_bool_false avg_loss) Hz).
  simpl Momentum.np_add_l. simpl Momentum.np_rdiv.
  assert (Hrs : 0 <= avg_gain / avg_loss).
  { apply Qle_shift_div_l; [exact Hpos|]. lra. }
  unfold Strategies.np_div.
  assert (Hne : ~ 1 + avg_gain / avg_loss == 0) by lra.
  rewrite (proj2 (Qeq_bool_false _) Hne). simpl.
  eexists. split; [reflexivity|].
  assert (H1 : 0 < 100 / (1 + avg_gain / avg_loss)).
  { apply Qlt_shift_div_l; lra. }
  assert (H2 : 100 / (1 + avg_gain / avg_loss) <= 100).
  { apply Qle_shift_div_r; lra. }
  lra.
Qed.

Lemma Qmin1_bounds (x : Q) : 0 <= x -> 0 <= Qmin 1.0 x <= 1.
Proof.
  intros H. split.
  - apply Q.min_glb; [discriminate|exact H].
  - apply Qle_trans with 1.0; [apply Q.le_min_l|discriminate].
Qed.

(** The momentum strategy on any list of prices: it raises only a
    [ZeroDivisionError], and only when the price ten samples back is
    zero; otherwise the confidence of its signal is a finite number
    between 0 and 1. *)
Theorem momentum_confidence_is_a_probability :
  forall (token : string) (prices : list Q) (now : Time),
    match Momentum.analyze token prices now with
    | Raise e =>
      e = ZeroDivisionError
      /\ (10 <= length prices)%nat
      /\ Momentum.from_end 10 prices == 0
    | Ok s =>
      exists c, sig_confidence s = Strategies.Finite c /\ 0 <= c <= 1
    end.
Proof.
  intros token prices now. unfold Momentum.analyze.
  destruct (length prices <? 10)%nat eqn:Hlen.
  { eexists. split; [reflexivity|]. lra. }
  apply Nat.ltb_ge in Hlen.
  unfold Momentum.calculate_momentum.
  rewrite (proj2 (Nat.ltb_ge _ _) Hlen).
  unfold py_div.
  destruct (Qeq_bool (Momentum.from_end 10 prices) 0) eqn:Hz;
    cbv beta iota delta [bind].
  { split; [reflexivity|]. split; [exact Hlen|]. apply Qeq_bool_iff. exact Hz. }
  destruct (rsi_is_a_percentage prices) as [r [-> [Hr0 Hr100]]].
  set (m := (List.last prices 0 - Momentum.from_end 10 prices)
            / Momentum.from_end 10 prices).
  clearbody m.
  simpl Strategies.np_ltb. simpl Strategies.np_gtb.
  destruct (Qltb r 30) eqn:H30.
  { apply Qltb_lt in H30. eexists. split; [reflexivity|].
    split; [apply Qle_shift_div_l; lra|apply Qle_shift_div_r; lra]. }
  destruct (Qgtb r 70) eqn:H70.
  { apply Qltb_lt in H70. eexists. split; [reflexivity|].
    split; [apply Qle_shift_div_l; lra|apply Qle_shift_div_r; lra]. }
  destruct (Qgtb m 0.02) eqn:Hup.
  { apply Qltb_lt in Hup. eexists. split; [reflexivity|].
    apply Qmin1_bounds. lra. }
  destruct (Qltb m (- 0.02)) eqn:Hdown.
  { eexists. split; [reflexivity|].
    apply Qmin1_bounds. apply Qmult_le_0_compat; [apply Qabs_nonneg|discriminate]. }
  eexists. split; [reflexivity|]. lra.
Qed.

(** Prices that do not go down from one sample to the next. *)
Fixpoint non_decreasing (xs : list Q) : Prop :=
  match xs with
  | prev :: ((cur :: _) as rest) => prev <= cur /\ non_decreasing rest
  | _ => True
  end.

Lemma np_diff_drop (k : nat) (xs : list Q) :
  Momentum.np_diff (drop k xs) = drop k (Momentum.np_diff xs).
Proof.
  revert xs. induction k as [|k IH]; intros xs.
  - rewrite !drop_0. reflexivity.
  - destruct xs as [|x [|y ys]]; try reflexivity.
    + simpl. destruct k; reflexivity.
    + change (drop (S k) (x :: y :: ys)) with (drop k (y :: ys)).
      change (Momentum.np_diff (x :: y :: ys))
        with ((y - x) :: Momentum.np_diff (y :: ys)).
      change (drop (S k) ((y - x) :: Momentum.np_diff (y :: ys)))
        with (drop k (Momentum.np_diff (y :: ys))).
      apply IH.
Qed.

Lemma np_diff_length (xs : list Q) :
  length (Momentum.np_diff xs) = (length xs - 1)%nat.
Proof.
  induction xs as [|x [|y ys] IH]; try reflexivity.
  change (Momentum.np_diff (x :: y :: ys)) with ((y - x) :: Momentum.np_diff (y :: ys)).
  simpl length in *. rewrite IH. lia.
Qed.

Lemma non_decreasing_no_losses (xs : list Q) :
  non_decreasing xs ->
  List.Forall (fun x => x == 0) (map (fun d => Qmax (- d) 0) (Momentum.np_diff xs)).
Proof.
  induction xs as [|x [|y ys] IH]; intros H; try constructor.
  - destruct H as [Hxy _]. apply Q.max_r. lra.
  - apply IH. destruct H as [_ H]. exact H.
Qed.

(** Fifteen samples without a fall are enough for a full-confidence
    sell: the RSI is 100 whenever the last fourteen steps hold no loss,
    a flat market included, and the strategy then signals sell with
    confidence 1 whatever the momentum. *)
Theorem no_fall_means_sell :
  forall (token : string) (prices : list Q) (now : Time),
    (15 <= length prices)%nat ->
    non_decreasing (AutoTrader.last_n 15 prices) ->
    ~ Momentum.from_end 10 prices == 0 ->
    exists s c,
      Momentum.analyze token prices now = Ok s
      /\ Momentum.calculate_rsi prices = Strategies.Finite 100.0
      /\ sig_action s = Strategies.Sell
      /\ sig_confidence s = Strategies.Finite c
      /\ c == 1.
Proof.
  intros token prices now Hlen Hup Hz.
  assert (Hrsi : Momentum.calculate_rsi prices = Strategies.Finite 100.0).
  { unfold Momentum.calculate_rsi.
    assert (Hl : (length prices <? 14 + 1)%nat = false) by (apply Nat.ltb_ge; lia).
    rewrite Hl.
    assert (Hloss : Strategies.np_mean
                      (AutoTrader.last_n 14
                         (map (fun d => Qmax (- d) 0) (Momentum.np_diff prices))) == 0).
    { apply np_mean_const.
      - intros E. apply (f_equal (@length Q)) in E.
        rewrite last_n_length in E; [discriminate|].
        rewrite length_map, np_diff_length. lia.
      - unfold AutoTrader.last_n. rewrite List.skipn_map.
        rewrite length_map, np_diff_length.
        replace (length prices - 1 - 14)%nat with (length prices - 15)%nat by lia.
        rewrite <- np_diff_drop.
        apply non_decreasing_no_losses. exact Hup. }
    apply Qeq_bool_iff in Hloss. rewrite Hloss. reflexivity. }
  unfold Momentum.analyze.
  assert (Hl : (length prices <? 10)%nat = false) by (apply Nat.ltb_ge; lia).
  rewrite Hl, Hrsi.
  unfold Momentum.calculate_momentum. rewrite Hl.
  rewrite (py_div_ok _ _ Hz). simpl bind.
  replace (Strategies.np_ltb (Strategies.Finite 100.0) 30) with false by reflexivity.
  replace (Strategies.np_gtb (Strategies.Finite 100.0) 70) with true by reflexivity.
  do 2 eexists. split; [reflexivity|]. split; [reflexivity|].
  split; [reflexivity|]. split; [reflexivity|]. reflexivity.
Qed.

Lemma no_fall_means_sell_witness :
  exists s c,
    Momentum.analyze "WETH" (repeat 3000 15) 0%nat = Ok s
    /\ Momentum.calculate_rsi (repeat 3000 15) = Strategies.Finite 100.0
    /\ sig_action s = Strategies.Sell
    /\ sig_confidence s = Strategies.Finite c
    /\ c == 1.
Proof.
  apply (no_fall_means_sell "WETH" (repeat 3000 15) 0%nat).
  - simpl. lia.
  - vm_compute. repeat split; discriminate.
  - vm_compute. discriminate.
Defined.

Module Grid.

Import Strategies.

(** config.py, [STRATEGIES["grid_trading"]] *)
Definition cfg_grid_levels : Z := 5.
Definition cfg_grid_spacing_percent : Q := 1.0.

(** [range(a, b)] *)
Definition py_range (a b : Z) : list Z :=
  map (fun k => (a + Z.of_nat k)%Z) (seq 0 (Z.to_nat (b - a))).

(** [GridTradingStrategy.setup_grid]: the levels, and [self.grid_levels]
    after the call.  [//] rounds down, also for [-num_levels]. *)
Definition setup_grid (grid_levels : gmap string (list Q)) (token : string) (price : Q)
    (num_levels : option Z) (spacing_percent : option Q)
  : list Q * gmap string (list Q) :=
  let num_levels :=
    match num_levels with
    | Some n => if (n =? 0)%Z then cfg_grid_levels else n
    | None => cfg_grid_levels
    end in
  let spacing :=
    match spacing_percent with
    | Some s => if truthy s then s else cfg_grid_spacing_percent
    | None => cfg_grid_spacing_percent
    end in
  let levels :=
    map (fun i => price * (1 + (inject_Z i * spacing / 100)))
      (py_range (- num_levels / 2)%Z (num_levels / 2 + 1)%Z) in
  (levels, <[token := levels]> grid_levels).

Record Meta : Type := mkMeta {
  meta_current_price : Q;
  meta_grid : list Q;
  meta_buy_levels : list Q;
  meta_sell_levels : list Q
}.

(** [max(xs)] and [min(xs)] of a list; [0] stands for the [ValueError]
    of an empty one, which the guards below exclude. *)
Definition py_max (xs : list Q) : Q :=
  match xs with
  | [] => 0
  | x :: xs' => Report.py_max_by (fun v => v) x xs'
  end.

Definition py_min (xs : list Q) : Q :=
  match xs with
  | [] => 0
  | x :: xs' => Report.py_min_by (fun v => v) x xs'
  end.

Definition is_nil {A : Type} (l : list A) : bool :=
  match l with [] => true | _ => false end.

(** [GridTradingStrategy.analyze]: the signal or the exception, and
    [self.grid_levels] after the call. *)
Definition analyze (md : MarketData.t) (grid_levels : gmap string (list Q))
    (token : string) (now : Time)
  : result (Signal Q Meta) * gmap string (list Q) :=
  let current_price := MarketData.get_current_price md token in
  let grid_levels :=
    match grid_levels !! token with
    | Some _ => grid_levels
    | None => snd (setup_grid grid_levels token current_price None None)
    end in
  let grid := default [] (grid_levels !! token) in
  let buy_levels := List.filter (fun l => Qltb l current_price) grid in
  let sell_levels := List.filter (fun l => Qgtb l current_price) grid in
  let after_buy : result (Action * Q) :=
    if is_nil buy_levels then Ok (Hold, 0.5)
    else
      let nearest_buy := py_max buy_levels in
      distance <- py_div (current_price - nearest_buy) current_price ;;
      if Qltb distance 0.02 then Ok (Buy, 0.7) else Ok (Hold, 0.5) in
  let after_sell : result (Action * Q) :=
    ac <- after_buy ;;
    let '(action, confidence) := ac in
    if is_nil sell_levels then Ok (action, confidence)
    else
      let nearest_sell := py_min sell_levels in
      distance <- py_div (nearest_sell - current_price) current_price ;;
      if Qltb distance 0.02 then
        if action_eqb action Buy then Ok (Hold, confidence)
        else Ok (Sell, 0.7)
      else Ok (action, confidence) in
  match after_sell with
  | Raise e => (Raise e, grid_levels)
  | Ok (action, confidence) =>
    (Ok (mkSig token action confidence "grid_trading" now
           (mkMeta current_price grid buy_levels sell_levels)),
     grid_levels)
  end.

End Grid.

Lemma py_range_length (a b : Z) : length (Grid.py_range a b) = Z.to_nat (b - a).
Proof. unfold Grid.py_range. rewrite length_map, length_seq. reflexivity. Qed.

(** The grid has one level more than asked for, and it is centred on
    the price only for an even number of levels: there are
    [ceil(n/2)] steps below the price and [floor(n/2)] above it, the
    lowest level being [ceil(n/2)] steps down.  With the configured five
    levels and 1% spacing the grid is the six levels from 3% below to 2%
    above the price. *)
Theorem grid_has_one_level_more :
  forall (grid_levels : gmap string (list Q)) (token : string) (price : Q)
         (n : Z) (spacing : Q),
    (0 < n)%Z ->
    ~ spacing == 0 ->
    let levels := fst (Grid.setup_grid grid_levels token price (Some n) (Some spacing)) in
    length levels = Z.to_nat (n + 1)
    /\ snd (Grid.setup_grid grid_levels token price (Some n) (Some spacing)) !! token
       = Some levels
    /\ (forall k, (k < length levels)%nat ->
          nth k levels 0
          = price * (1 + (inject_Z (- ((n + 1) / 2) + Z.of_nat k) * spacing / 100)))
    /\ fst (Grid.setup_grid grid_levels token price None None)
       = map (fun i => price * (1 + (inject_Z i * 1.0 / 100)))
           [-3; -2; -1; 0; 1; 2]%Z.
Proof.
  intros grid_levels token price n spacing Hn Hs levels. subst levels.
  unfold Grid.setup_grid. cbn [fst snd].
  assert (Hn0 : (n =? 0)%Z = false) by (apply Z.eqb_neq; lia).
  rewrite Hn0. rewrite (proj2 (truthy_true spacing) Hs).
  assert (Hlo : (- n / 2 = - ((n + 1) / 2))%Z).
  { pose proof (Z.div_mod n 2 ltac:(lia)) as Hd.
    pose proof (Z.mod_pos_bound n 2 ltac:(lia)) as Hm.
    pose proof (Z.div_mod (n + 1) 2 ltac:(lia)) as Hd1.
    pose proof (Z.mod_pos_bound (n + 1) 2 ltac:(lia)) as Hm1.
    pose proof (Z.div_mod (- n) 2 ltac:(lia)) as Hd2.
    pose proof (Z.mod_pos_bound (- n) 2 ltac:(lia)) as Hm2.
    lia. }
  assert (Hcount : (n / 2 + 1 - - n / 2 = n + 1)%Z).
  { rewrite Hlo.
    pose proof (Z.div_mod n 2 ltac:(lia)) as Hd.
    pose proof (Z.mod_pos_bound n 2 ltac:(lia)) as Hm.
    pose proof (Z.div_mod (n + 1) 2 ltac:(lia)) as Hd1.
    pose proof (Z.mod_pos_bound (n + 1) 2 ltac:(lia)) as Hm1.
    lia. }
  split; [|split; [|split]].
  - rewrite length_map, py_range_length, Hcount. reflexivity.
  - apply lookup_insert_eq.
  - intros k Hk. rewrite length_map, py_range_length, Hcount in Hk.
    unfold Grid.py_range. rewrite Hcount, Hlo.
    rewrite map_map.
    rewrite (nth_indep _ 0
               ((fun x => price * (1 + inject_Z (- ((n + 1) / 2) + Z.of_nat x)
                                        * spacing / 100)) 0%nat))
      by (rewrite length_map, length_seq; exact Hk).
    rewrite (map_nth (fun x => price * (1 + inject_Z (- ((n + 1) / 2) + Z.of_nat x)
                                          * spacing / 100))).
    rewrite seq_nth by exact Hk. reflexivity.
  - reflexivity.
Qed.

Lemma grid_has_one_level_more_witness :
  let levels := fst (Grid.setup_grid ∅ "WETH" 3000 (Some 4%Z) (Some 2)) in
  length levels = Z.to_nat (4 + 1)
  /\ snd (Grid.setup_grid ∅ "WETH" 3000 (Some 4%Z) (Some 2)) !! "WETH" = Some levels
  /\ (forall k, (k < length levels)%nat ->
        nth k levels 0
        = 3000 * (1 + (inject_Z (- ((4 + 1) / 2) + Z.of_nat k) * 2 / 100)))
  /\ fst (Grid.setup_grid ∅ "WETH" 3000 None None)
     = map (fun i => 3000 * (1 + (inject_Z i * 1.0 / 100))) [-3; -2; -1; 0; 1; 2]%Z.
Proof.
  apply (grid_has_one_level_more ∅ "WETH" 3000 4%Z 2).
  - lia.
  - vm_compute. discriminate.
Defined.






Module Trend.

Import Strategies.

Inductive Meta : Type :=
| InsufficientData
| Averages (current_price fast_ma slow_ma : Q) (trend_strength : npfloat).

(** [min(1.0, abs(x) * 10)]: [min] keeps its first argument unless the
    second is smaller, so nan and the infinities give 1.0. *)
Definition min1_abs_times10 (x : npfloat) : Q :=
  match x with
  | Finite v => Qmin 1.0 (Qabs v * 10)
  | PosInf | NegInf | NaN => 1.0
  end.

(** [TrendFollowingStrategy.analyze], from the prices that
    [get_recent_prices(token, period=48)] returned, with the configured
    periods of 10 and 30. *)
Definition analyze (token : string) (prices : list Q) (now : Time) : Signal Q Meta :=
  if (length prices <? 30)%nat then
    mkSig token Hold 0.0 "trend_following" now InsufficientData
  else
    let fast_ma := np_mean (AutoTrader.last_n 10 prices) in
    let slow_ma := np_mean (AutoTrader.last_n 30 prices) in
    let current_price := List.last prices 0 in
    let trend_strength := np_div (fast_ma - slow_ma) slow_ma in
    let '(action, confidence) :=
      if Qgtb fast_ma slow_ma then
        if Qgtb current_price fast_ma then (Buy, min1_abs_times10 trend_strength)
        else (Hold, 0.3)
      else
        if Qltb current_price fast_ma then (Sell, min1_abs_times10 trend_strength)
        else (Hold, 0.3) in
    mkSig token action confidence "trend_following" now
      (Averages current_price fast_ma slow_ma trend_strength).

End Trend.

Module Arbitrage.

Import Strategies.

Inductive Meta : Type :=
| InsufficientData
| Spread (prices : list Q) (min_price max_price spread_percent : Q).

Definition min_profit_percent : Q := 0.5.

(** [ArbitrageStrategy.analyze], from the values of the dictionary that
    [get_token_prices_across_dexs(token)] returned. *)
Definition analyze (token : string) (prices : list Q) (now : Time)
  : result (Signal Q Meta) :=
  if (length prices <? 2)%nat then
    Ok (mkSig token Hold 0.0 "arbitrage" now InsufficientData)
  else
    let min_price := Grid.py_min prices in
    let max_price := Grid.py_max prices in
    ratio <- py_div (max_price - min_price) min_price ;;
    let price_spread := ratio * 100 in
    let '(action, confidence) :=
      if Qgtb price_spread min_profit_percent then
        (Buy,
         if Qgtb price_spread 1.0 then 0.9
         else if Qgtb price_spread 0.5 then 0.7
         else 0.5)
      else (Hold, 0.0) in
    Ok (mkSig token action confidence "arbitrage" now
          (Spread prices min_price max_price price_spread)).

End Arbitrage.



Lemma py_min_max_const (prices : list Q) (p : Q) :
  prices <> [] ->
  List.Forall (fun x => x == p) prices ->
  Grid.py_min prices == p /\ Grid.py_max prices == p.
Proof.
  intros Hne H. destruct prices as [|x xs]; [congruence|].
  rewrite List.Forall_forall in H. simpl. split; apply H.
  - apply (py_min_by_spec (fun v => v) xs x).
  - apply (py_max_by_spec (fun v => v) xs x).
Qed.

(** The arbitrage strategy never signals a sell.  It raises only a
    [ZeroDivisionError], when the lowest quote is zero; otherwise it
    holds with confidence 0 or buys with confidence 0.7 or 0.9: the
    confidence 0.5 of its last branch is never produced.  When all
    venues quote the same non-zero price it holds. *)
Theorem arbitrage_only_buys :
  forall (token : string) (prices : list Q) (now : Time),
    match Arbitrage.analyze token prices now with
    | Raise e =>
      e = ZeroDivisionError /\ (2 <= length prices)%nat /\ Grid.py_min prices == 0
    | Ok s =>
      (sig_action s = Strategies.Hold /\ sig_confidence s = 0.0)
      \/ (sig_action s = Strategies.Buy
          /\ (sig_confidence s = 0.7 \/ sig_confidence s = 0.9))
    end
    /\ (forall p,
          (2 <= length prices)%nat ->
          List.Forall (fun x => x == p) prices ->
          ~ p == 0 ->
          exists s,
            Arbitrage.analyze token prices now = Ok s
            /\ sig_action s = Strategies.Hold
            /\ sig_confidence s = 0.0).
Proof.
  intros token prices now. unfold Arbitrage.analyze.
  destruct (length prices <? 2)%nat eqn:Hlen.
  { split; [left; split; reflexivity|].
    intros p H. apply Nat.ltb_lt in Hlen. lia. }
  apply Nat.ltb_ge in Hlen. unfold py_div.
  destruct (Qeq_bool (Grid.py_min prices) 0) eqn:Hz; cbv beta iota delta [bind].
  { apply Qeq_bool_iff in Hz. split; [repeat split; assumption|].
    intros p _ Hp Hnz. exfalso.
    assert (Hne : prices <> []) by (intros E; rewrite E in Hlen; simpl in Hlen; lia).
    destruct (py_min_max_const prices p Hne Hp) as [Hmin _].
    apply Hnz. rewrite <- Hmin. exact Hz. }
  apply Qeq_bool_false in Hz.
  set (spread := (Grid.py_max prices - Grid.py_min prices) / Grid.py_min prices * 100).
  split.
  - destruct (Qgtb spread Arbitrage.min_profit_percent) eqn:Hs; cbn [sig_action sig_confidence].
    + right. split; [reflexivity|].
      destruct (Qgtb spread 1.0); [right; reflexivity|].
      change Arbitrage.min_profit_percent with 0.5 in Hs. rewrite Hs. left. reflexivity.
    + left. split; reflexivity.
  - intros p _ Hp Hnz.
    assert (Hne : prices <> []) by (intros E; rewrite E in Hlen; simpl in Hlen; lia).
    destruct (py_min_max_const prices p Hne Hp) as [Hmin Hmax].
    assert (Hsp : spread == 0).
    { unfold spread. rewrite Hmin, Hmax. field. exact Hnz. }
    assert (Hs : Qgtb spread Arbitrage.min_profit_percent = false).
    { apply Qltb_ge. rewrite Hsp. discriminate. }
    rewrite Hs. eexists. split; [reflexivity|]. split; reflexivity.
Qed.

(** ** auto_paper_trader.py: cycles and runs *)





Module AutoRun.

Import AutoTrader.

(** One run of [main] on a fetched price: what it saves.  An exception
    ends the run before [save_state], and the files stay as they
    were. *)
Definition main (saved : State * LearningData) (tick : Q * Time)
  : State * LearningData :=
  match trading_cycle (fst saved) (snd saved) (fst tick) (snd tick) with
  | (Ok _, state, learning_data) => (state, learning_data)
  | (Raise _, _, _) => saved
  end.

(** Successive runs, from the defaults of [load_state] and
    [load_learning_data]. *)
Definition runs (ticks : list (Q * Time)) : State * LearningData :=
  fold_left main ticks (default_state, default_learning_data).

End AutoRun.

(** What the open position cost. *)
Definition cost (st : AutoTrader.State) : Q :=
  match AutoTrader.position st, AutoTrader.entry_price st with
  | Some AutoTrader.LONG, Some entry => AutoTrader.balance_matic st * entry
  | _, _ => 0
  end.

(** Where the tuner can take the parameters from their defaults. *)
Definition params_in_range (p : AutoTrader.Params) : Prop :=
  1 <= AutoTrader.momentum_threshold p <= 5
  /\ (AutoTrader.stop_loss p = -3.0 \/ AutoTrader.stop_loss p = -4.0)
  /\ (AutoTrader.take_profit p = 5.0 \/ AutoTrader.take_profit p = 7.0
      \/ AutoTrader.take_profit p = 3.0)
  /\ AutoTrader.dip_threshold p = -3.0
  /\ AutoTrader.position_size p = 0.10.

(** The invariant of the saved files. *)
Record healthy (st : AutoTrader.State) (ld : AutoTrader.LearningData) : Prop := {
  h_prices : List.Forall (fun p => 0 < p) (AutoTrader.hourly_prices st);
  h_window : (length (AutoTrader.hourly_prices st) <= 288)%nat;
  h_cash : 0 <= AutoTrader.balance_usdc st;
  h_position :
    match AutoTrader.position st with
    | None => AutoTrader.balance_matic st == 0
    | Some AutoTrader.LONG =>
      0 <= AutoTrader.balance_matic st
      /\ AutoTrader.trades st <> []
      /\ exists entry, AutoTrader.entry_price st = Some entry /\ 0 < entry
    end;
  h_books :
    AutoTrader.balance_usdc st + cost st == 10000 + AutoTrader.total_pnl st;
  h_params : params_in_range (AutoTrader.optimal_params ld);
  h_strategies :
    List.Forall (fun t => AutoTrader.trade_strategy t <> AutoTrader.breakout)
      (AutoTrader.trades st);
  h_breakout : AutoTrader.perf_breakout ld = AutoTrader.mkPerf 0 0 0;
  h_wins :
    AutoTrader.win_count st
    = (AutoTrader.wins (AutoTrader.perf_momentum ld)
       + AutoTrader.wins (AutoTrader.perf_dip_buying ld))%Z;
  h_losses :
    AutoTrader.loss_count st
    = (AutoTrader.losses (AutoTrader.perf_momentum ld)
       + AutoTrader.losses (AutoTrader.perf_dip_buying ld))%Z;
  h_pnl :
    AutoTrader.total_pnl st
    == AutoTrader.perf_total_pnl (AutoTrader.perf_momentum ld)
       + AutoTrader.perf_total_pnl (AutoTrader.perf_dip_buying ld);
  h_streak :
    (0 <= AutoTrader.consecutive_losses st <= AutoTrader.loss_count st)%Z
}.

Lemma healthy_default : healthy AutoTrader.default_state AutoTrader.default_learning_data.
Proof.
  constructor; simpl; try reflexivity; try lia; try constructor; try discriminate.
  - split; discriminate.
  - repeat split; try discriminate; auto.
Qed.

Lemma record_price_healthy (st : AutoTrader.State) (ld : AutoTrader.LearningData)
    (p : Q) :
  healthy st ld -> 0 < p -> healthy (AutoTrader.record_price st p) ld.
Proof.
  intros H Hp. destruct H. constructor; try assumption.
  - simpl. assert (Hall : List.Forall (fun p => 0 < p) (AutoTrader.hourly_prices st ++ [p])).
    { apply Forall_app. split; [assumption|]. constructor; [exact Hp|constructor]. }
    destruct (288 <? _)%nat; [apply last_n_Forall|]; exact Hall.
  - simpl. destruct (288 <? length (AutoTrader.hourly_prices st ++ [p]))%nat eqn:E.
    + apply Nat.ltb_lt in E. rewrite last_n_length by lia. lia.
    + apply Nat.ltb_ge in E. exact E.
Qed.

Lemma set_consecutive_losses_healthy (st : AutoTrader.State)
    (ld : AutoTrader.LearningData) :
  healthy st ld -> healthy (AutoTrader.set_consecutive_losses st 0) ld.
Proof.
  intros H. destruct H. constructor; try assumption. simpl. lia.
Qed.

Lemma set_last_trade_time_healthy (st : AutoTrader.State)
    (ld : AutoTrader.LearningData) (now : Time) :
  healthy st ld -> healthy (AutoTrader.set_last_trade_time st now) ld.
Proof.
  intros H. destruct H. constructor; assumption.
Qed.

Lemma raised_threshold_in_range (mt : Q) :
  1 <= mt <= 5 -> 1 <= Qmin (mt + 0.5) 5.0 <= 5.
Proof.
  intros [H1 H5]. split.
  - apply Q.min_glb; [lra|discriminate].
  - apply Qle_trans with 5.0; [apply Q.le_min_r|discriminate].
Qed.

Lemma lowered_threshold_in_range (mt : Q) :
  1 <= mt <= 5 -> 1 <= Qmax (mt - 0.3) 1.0 <= 5.
Proof.
  intros [H1 H5]. split.
  - apply Qle_trans with 1.0; [discriminate|apply Q.le_max_r].
  - apply Q.max_lub; [lra|discriminate].
Qed.

(** The tuner on positive prices: it returns, touches the state at most
    by resetting the streak of losses, leaves the performance records
    alone and keeps the parameters in range. *)
Lemma adapt_strategy_healthy (ld : AutoTrader.LearningData) (st : AutoTrader.State)
    (now : Time) :
  healthy st ld ->
  exists ads ld' st',
    AutoTrader.adapt_strategy ld st now = (Ok ads, ld', st')
    /\ healthy st' ld'.
Proof.
  intros H.
  destruct (detect_market_regime_returns _ (h_prices _ _ H)) as [regime Hregime].
  assert (Hreset := set_consecutive_losses_healthy st ld H).
  assert (Hkeep : forall st0 params' history',
             healthy st0 ld ->
             params_in_range params' ->
             healthy st0
               {| AutoTrader.perf_momentum := AutoTrader.perf_momentum ld;
                  AutoTrader.perf_dip_buying := AutoTrader.perf_dip_buying ld;
                  AutoTrader.perf_breakout := AutoTrader.perf_breakout ld;
                  AutoTrader.optimal_params := params';
                  AutoTrader.adaptation_history := history' |}).
  { intros st0 params' history' H0 Hp. destruct H0. constructor; assumption. }
  pose proof (h_params _ _ H) as [Hmt [Hsl [Htp [Hdip Hps]]]].
  pose proof (raised_threshold_in_range _ Hmt) as Hup.
  pose proof (lowered_threshold_in_range _ Hmt) as Hdown.
  unfold AutoTrader.adapt_strategy.
  destruct (5 <=? _)%Z; [destruct (Qltb _ 0.4); [|destruct (Qgtb _ 0.6)]|];
    (destruct (3 <=? AutoTrader.consecutive_losses st)%Z;
     cbv beta iota zeta;
     cbn [AutoTrader.hourly_prices AutoTrader.set_consecutive_losses];
     rewrite Hregime;
     destruct regime; cbn;
     do 3 eexists; (split; [reflexivity|]);
     apply Hkeep; try assumption;
     unfold params_in_range; cbn; auto 10).
Qed.

Lemma second_last_ok (xs : list Q) :
  (2 <= length xs)%nat ->
  exists x, AutoTrader.second_last xs = Ok x /\ In x xs.
Proof.
  intros H. unfold AutoTrader.second_last.
  destruct (rev xs) as [|a [|b r]] eqn:E.
  - apply (f_equal (@length Q)) in E. rewrite length_rev in E. simpl in E. lia.
  - apply (f_equal (@length Q)) in E. rewrite length_rev in E. simpl in E. lia.
  - exists b. split; [reflexivity|].
    apply in_rev. rewrite E. right. left. reflexivity.
Qed.

Lemma hd_positive (xs : list Q) :
  xs <> [] -> List.Forall (fun p => 0 < p) xs -> 0 < List.hd 0 xs.
Proof.
  intros Hne H. destruct xs as [|x xs]; [congruence|]. inversion H; assumption.
Qed.

(** The strategy on a healthy state and a positive price: it returns,
    asks to buy only when there is no position and to sell only when
    there is one. *)
Lemma adaptive_strategy_healthy (st : AutoTrader.State) (ld : AutoTrader.LearningData)
    (p : Q) :
  healthy st ld ->
  0 < p ->
  exists sig reason,
    AutoTrader.adaptive_strategy st p ld = Ok (sig, reason)
    /\ (sig = Some AutoTrader.BUY -> AutoTrader.position st = None)
    /\ (sig = Some AutoTrader.SELL -> AutoTrader.position st = Some AutoTrader.LONG).
Proof.
  intros H Hp. pose proof (h_prices _ _ H) as Hpos.
  unfold AutoTrader.adaptive_strategy.
  destruct (length (AutoTrader.hourly_prices st) <? 2)%nat eqn:Hlen.
  { do 2 eexists. split; [reflexivity|]. split; discriminate. }
  apply Nat.ltb_ge in Hlen.
  destruct (second_last_ok _ Hlen) as [prev [Hprev Hin]].
  rewrite Hprev. cbv beta iota delta [bind].
  rewrite List.Forall_forall in Hpos.
  assert (Hprev0 : ~ prev == 0) by (specialize (Hpos _ Hin); simpl in Hpos; lra).
  rewrite (py_div_ok _ _ Hprev0).
  assert (Hhd : ~ List.hd 0 (AutoTrader.hourly_prices st) == 0).
  { assert (0 < List.hd 0 (AutoTrader.hourly_prices st)); [|lra].
    apply hd_positive.
    - intros E. rewrite E in Hlen. simpl in Hlen. lia.
    - apply List.Forall_forall. exact Hpos. }
  rewrite (py_div_ok _ _ Hhd).
  destruct (detect_market_regime_returns _ (h_prices _ _ H)) as [regime Hregime].
  rewrite Hregime.
  destruct (12 <=? length (AutoTrader.hourly_prices st))%nat;
    (destruct (AutoTrader.position st) as [[]|] eqn:Hposn;
     [ pose proof (h_position _ _ H) as Hh; rewrite Hposn in Hh;
       destruct Hh as [_ [_ [entry [He He0]]]];
       rewrite He;
       rewrite (py_div_ok p entry) by lra;
       destruct (Qgeb _ _);
       [|destruct (Qleb _ _);
         [|destruct regime; try destruct (Qgtb _ 3)]]
     | destruct (Qgeb _ _);
       [|destruct (Qleb _ _);
         [|destruct regime; try destruct (Qgtb _ 5)]] ];
     do 2 eexists; (split; [reflexivity|]); split; intros E;
     try discriminate; reflexivity).
Qed.

Lemma Qgeb_true_le (x y : Q) : Qgeb x y = true -> y <= x.
Proof. unfold Qgeb. apply Qle_bool_iff. Qed.

Lemma last_of_rev_in {A : Type} (l : list A) (x : A) (r : list A) :
  rev l = x :: r -> In x l.
Proof.
  intros E. apply in_rev. rewrite E. left. reflexivity.
Qed.

Ltac state_fields :=
  cbn [AutoTrader.balance_usdc AutoTrader.balance_matic AutoTrader.trades
       AutoTrader.total_pnl AutoTrader.win_count AutoTrader.loss_count
       AutoTrader.hourly_prices AutoTrader.position AutoTrader.entry_price
       AutoTrader.consecutive_losses AutoTrader.optimal_params
       AutoTrader.perf_momentum AutoTrader.perf_dip_buying AutoTrader.perf_breakout
       AutoTrader.record_outcome AutoTrader.add_outcome AutoTrader.wins
       AutoTrader.losses AutoTrader.perf_total_pnl AutoTrader.trade_strategy].

(** A trade on a healthy state, in the direction the position allows:
    it returns and leaves a healthy state. *)
Lemma execute_trade_healthy (st : AutoTrader.State) (ld : AutoTrader.LearningData)
    (sig : AutoTrader.Signal) (p : Q) (reason : AutoTrader.Reason) (now : Time) :
  healthy st ld ->
  0 < p ->
  (sig = AutoTrader.BUY -> AutoTrader.position st = None) ->
  (sig = AutoTrader.SELL -> AutoTrader.position st = Some AutoTrader.LONG) ->
  exists executed st' ld',
    AutoTrader.execute_trade st sig p reason ld now = (Ok executed, st', ld')
    /\ healthy st' ld'.
Proof.
  intros H Hp Hbuy Hsell. unfold AutoTrader.execute_trade.
  pose proof (h_params _ _ H) as [_ [_ [_ [_ Hps]]]].
  pose proof (h_position _ _ H) as Hposn.
  pose proof (h_books _ _ H) as Hbooks. unfold cost in Hbooks.
  destruct sig.
  - rewrite (Hbuy eq_refl) in Hposn, Hbooks.
    destruct (Qgeb (AutoTrader.balance_usdc st) 100) eqn:Hc;
      [|do 3 eexists; split; [reflexivity|exact H]].
    apply Qgeb_true_le in Hc.
    rewrite py_div_ok by lra.
    do 3 eexists. split; [reflexivity|].
    rewrite Hps.
    set (a := Qmin (AutoTrader.balance_usdc st * 0.10) 1000).
    assert (Ha0 : 0 <= a).
    { apply Q.min_glb; [|discriminate].
      apply Qmult_le_0_compat; [lra|discriminate]. }
    assert (Ha1 : a <= AutoTrader.balance_usdc st).
    { apply Qle_trans with (AutoTrader.balance_usdc st * 0.10); [apply Q.le_min_l|].
      assert (E : AutoTrader.balance_usdc st * 0.10
                  == AutoTrader.balance_usdc st - AutoTrader.balance_usdc st * 0.9)
        by ring.
      rewrite E.
      assert (0 <= AutoTrader.balance_usdc st * 0.9)
        by (apply Qmult_le_0_compat; [lra|discriminate]).
      lra. }
    assert (Hq : 0 <= a / p) by (apply Qle_shift_div_l; lra).
    destruct H. constructor; state_fields; try assumption.
    + lra.
    + split; [lra|]. split.
      * intros E. apply app_eq_nil in E as [_ E]. discriminate.
      * exists p. split; [reflexivity|exact Hp].
    + unfold cost. state_fields. rewrite Hposn. rewrite <- Hbooks. field. lra.
    + apply Forall_app. split; [assumption|].
      constructor; [|constructor]. state_fields.
      destruct (AutoTrader.mentions_momentum reason); discriminate.
  - rewrite (Hsell eq_refl) in Hposn, Hbooks.
    destruct Hposn as [Hm [Htr [entry [He He0]]]]. rewrite He in Hbooks.
    destruct (Qgtb (AutoTrader.balance_matic st) 0) eqn:Hg;
      [|do 3 eexists; split; [reflexivity|exact H]].
    rewrite He. rewrite py_div_ok by lra.
    destruct (rev (AutoTrader.trades st)) as [|last_trade r] eqn:Hrev.
    { exfalso. apply Htr. apply (f_equal (@rev AutoTrader.Trade)) in Hrev.
      rewrite rev_involutive in Hrev. exact Hrev. }
    assert (Hstrat : AutoTrader.trade_strategy last_trade <> AutoTrader.breakout).
    { pose proof (h_strategies _ _ H) as Hall.
      rewrite List.Forall_forall in Hall. apply Hall.
      apply (last_of_rev_in _ _ _ Hrev). }
    do 3 eexists. split; [reflexivity|].
    set (pnl := (p - entry) * AutoTrader.balance_matic st).
    assert (Hin : 0 <= AutoTrader.balance_matic st * p)
      by (apply Qmult_le_0_compat; lra).
    destruct H. constructor; state_fields; try assumption.
    + lra.
    + reflexivity.
    + unfold cost. state_fields. unfold pnl. nra.
    + apply Forall_app. split; [assumption|].
      constructor; [|constructor]. state_fields. discriminate.
    + destruct (AutoTrader.trade_strategy last_trade); try contradiction; assumption.
    + fold pnl.
      destruct (AutoTrader.trade_strategy last_trade); try contradiction;
        destruct (Qgtb pnl 0); state_fields; lia.
    + fold pnl.
      destruct (AutoTrader.trade_strategy last_trade); try contradiction;
        destruct (Qgtb pnl 0); state_fields; lia.
    + fold pnl.
      destruct (AutoTrader.trade_strategy last_trade); try contradiction;
        state_fields; lra.
    + fold pnl. destruct (Qgtb pnl 0); lia.
Qed.

(** A cycle on a healthy state and a positive price returns and leaves
    a healthy state. *)
Lemma trading_cycle_healthy (st : AutoTrader.State) (ld : AutoTrader.LearningData)
    (p : Q) (now : Time) :
  healthy st ld ->
  0 < p ->
  exists out st' ld',
    AutoTrader.trading_cycle st ld p now = (Ok out, st', ld')
    /\ healthy st' ld'.
Proof.
  intros H Hp. unfold AutoTrader.trading_cycle.
  pose proof (record_price_healthy st ld p H Hp) as H0.
  destruct (adapt_strategy_healthy ld (AutoTrader.record_price st p) now H0)
    as [ads [ld1 [st1 [Ha H1]]]].
  rewrite Ha.
  destruct (adaptive_strategy_healthy st1 ld1 p H1 Hp)
    as [sig [reason [Hs [Hbuy Hsell]]]].
  rewrite Hs. destruct sig as [sig|].
  - destruct (execute_trade_healthy st1 ld1 sig p reason now H1 Hp) as
      [executed [st2 [ld2 [Ht H2]]]].
    + intros E. apply Hbuy. rewrite E. reflexivity.
    + intros E. apply Hsell. rewrite E. reflexivity.
    + rewrite Ht. do 3 eexists. split; [reflexivity|].
      destruct executed; [apply set_last_trade_time_healthy|]; exact H2.
  - do 3 eexists. split; [reflexivity|exact H1].
Qed.

Lemma main_healthy (saved : AutoTrader.State * AutoTrader.LearningData)
    (tick : Q * Time) :
  healthy (fst saved) (snd saved) ->
  0 < fst tick ->
  healthy (fst (AutoRun.main saved tick)) (snd (AutoRun.main saved tick)).
Proof.
  intros H Hp. unfold AutoRun.main.
  destruct (trading_cycle_healthy _ _ _ (snd tick) H Hp) as [out [st' [ld' [E H']]]].
  rewrite E. exact H'.
Qed.

Lemma runs_healthy (ticks : list (Q * Time)) :
  List.Forall (fun tick => 0 < fst tick) ticks ->
  healthy (fst (AutoRun.runs ticks)) (snd (AutoRun.runs ticks)).
Proof.
  intros Hticks. unfold AutoRun.runs.
  assert (Hgen : forall saved,
             healthy (fst saved) (snd saved) ->
             healthy (fst (fold_left AutoRun.main ticks saved))
               (snd (fold_left AutoRun.main ticks saved))).
  { induction Hticks as [|tick ticks Htick _ IH]; intros saved Hs; [exact Hs|].
    simpl. apply IH. apply main_healthy; assumption. }
  apply Hgen. exact healthy_default.
Qed.

(** From the defaults, on positive prices, no run of the trader ever
    raises: the next cycle returns and its result is what the next run
    saves.  The saved state never shows negative cash or a negative
    holding, keeps at most 288 prices, all positive, holds no MATIC when
    it shows no position and has a positive entry price when it shows
    one. *)
Theorem runs_never_raise :
  forall (ticks : list (Q * Time)) (tick : Q * Time),
    List.Forall (fun t => 0 < fst t) ticks ->
    0 < fst tick ->
    exists out st' ld',
      AutoTrader.trading_cycle (fst (AutoRun.runs ticks)) (snd (AutoRun.runs ticks))
        (fst tick) (snd tick)
      = (Ok out, st', ld')
      /\ AutoRun.runs (ticks ++ [tick]) = (st', ld')
      /\ 0 <= AutoTrader.balance_usdc st'
      /\ 0 <= AutoTrader.balance_matic st'
      /\ (length (AutoTrader.hourly_prices st') <= 288)%nat
      /\ List.Forall (fun p => 0 < p) (AutoTrader.hourly_prices st')
      /\ (AutoTrader.position st' = None -> AutoTrader.balance_matic st' == 0)
      /\ (AutoTrader.position st' = Some AutoTrader.LONG ->
          exists entry, AutoTrader.entry_price st' = Some entry /\ 0 < entry).
Proof.
  intros ticks tick Hticks Htick.
  pose proof (runs_healthy ticks Hticks) as H.
  destruct (trading_cycle_healthy _ _ _ (snd tick) H Htick) as [out [st' [ld' [E H']]]].
  exists out, st', ld'. split; [exact E|]. split.
  { unfold AutoRun.runs. rewrite fold_left_app. simpl.
    unfold AutoRun.main at 1. fold (AutoRun.runs ticks). rewrite E. reflexivity. }
  pose proof (h_position _ _ H') as Hposn.
  split; [exact (h_cash _ _ H')|]. split.
  { destruct (AutoTrader.position st') as [[]|]; [tauto|lra]. }
  split; [exact (h_window _ _ H')|]. split; [exact (h_prices _ _ H')|]. split.
  - intros Hn. rewrite Hn in Hposn. exact Hposn.
  - intros Hl. rewrite Hl in Hposn. tauto.
Qed.

Lemma runs_never_raise_witness :
  exists out st' ld',
    AutoTrader.trading_cycle (fst (AutoRun.runs [(0.50, 0%nat)]))
      (snd (AutoRun.runs [(0.50, 0%nat)])) (fst (0.55, 1%nat)) (snd (0.55, 1%nat))
    = (Ok out, st', ld')
    /\ AutoRun.runs ([(0.50, 0%nat)] ++ [(0.55, 1%nat)]) = (st', ld')
    /\ 0 <= AutoTrader.balance_usdc st'
    /\ 0 <= AutoTrader.balance_matic st'
    /\ (length (AutoTrader.hourly_prices st') <= 288)%nat
    /\ List.Forall (fun p => 0 < p) (AutoTrader.hourly_prices st')
    /\ (AutoTrader.position st' = None -> AutoTrader.balance_matic st' == 0)
    /\ (AutoTrader.position st' = Some AutoTrader.LONG ->
        exists entry, AutoTrader.entry_price st' = Some entry /\ 0 < entry).
Proof.
  apply (runs_never_raise [(0.50, 0%nat)] (0.55, 1%nat)).
  - constructor; [reflexivity|constructor].
  - reflexivity.
Defined.

(** Where the tuner can take the parameters: after any runs from the
    defaults the momentum threshold lies between 1 and 5, the stop loss
    is the default -3 or the widened -4 (once widened it is never
    narrowed), the take profit is 5, 7 or 3, and the dip threshold and
    the position size are never touched. *)
Theorem tuned_parameters_stay_in_range :
  forall (ticks : list (Q * Time)),
    List.Forall (fun t => 0 < fst t) ticks ->
    let params := AutoTrader.optimal_params (snd (AutoRun.runs ticks)) in
    1 <= AutoTrader.momentum_threshold params <= 5
    /\ (AutoTrader.stop_loss params = -3.0 \/ AutoTrader.stop_loss params = -4.0)
    /\ (AutoTrader.take_profit params = 5.0 \/ AutoTrader.take_profit params = 7.0
        \/ AutoTrader.take_profit params = 3.0)
    /\ AutoTrader.dip_threshold params = -3.0
    /\ AutoTrader.position_size params = 0.10.
Proof.
  intros ticks Hticks params.
  exact (h_params _ _ (runs_healthy ticks Hticks)).
Qed.

Lemma tuned_parameters_stay_in_range_witness :
  let params :=
    AutoTrader.optimal_params (snd (AutoRun.runs [(0.50, 0%nat); (0.55, 1%nat)])) in
  1 <= AutoTrader.momentum_threshold params <= 5
  /\ (AutoTrader.stop_loss params = -3.0 \/ AutoTrader.stop_loss params = -4.0)
  /\ (AutoTrader.take_profit params = 5.0 \/ AutoTrader.take_profit params = 7.0
      \/ AutoTrader.take_profit params = 3.0)
  /\ AutoTrader.dip_threshold params = -3.0
  /\ AutoTrader.position_size params = 0.10.
Proof.
  apply (tuned_parameters_stay_in_range [(0.50, 0%nat); (0.55, 1%nat)]).
  constructor; [reflexivity|]. constructor; [reflexivity|constructor].
Defined.

(** Every closed trade is credited to the momentum or to the dip-buying
    record, never to the breakout one, which stays at zero: the wins and
    the losses of the two records add up to the state's counters, and the
    streak of losses is never longer than the count of losses. *)
Theorem closed_trades_are_attributed :
  forall (ticks : list (Q * Time)),
    List.Forall (fun t => 0 < fst t) ticks ->
    let st := fst (AutoRun.runs ticks) in
    let ld := snd (AutoRun.runs ticks) in
    AutoTrader.perf_breakout ld = AutoTrader.mkPerf 0 0 0
    /\ AutoTrader.win_count st
       = (AutoTrader.wins (AutoTrader.perf_momentum ld)
          + AutoTrader.wins (AutoTrader.perf_dip_buying ld))%Z
    /\ AutoTrader.loss_count st
       = (AutoTrader.losses (AutoTrader.perf_momentum ld)
          + AutoTrader.losses (AutoTrader.perf_dip_buying ld))%Z
    /\ (0 <= AutoTrader.consecutive_losses st <= AutoTrader.loss_count st)%Z.
Proof.
  intros ticks Hticks st ld.
  pose proof (runs_healthy ticks Hticks) as H. fold st ld in H.
  split; [exact (h_breakout _ _ H)|]. split; [exact (h_wins _ _ H)|].
  split; [exact (h_losses _ _ H)|].
  exact (h_streak _ _ H).
Qed.

Lemma closed_trades_are_attributed_witness :
  let st := fst (AutoRun.runs [(0.50, 0%nat); (0.55, 1%nat)]) in
  let ld := snd (AutoRun.runs [(0.50, 0%nat); (0.55, 1%nat)]) in
  AutoTrader.perf_breakout ld = AutoTrader.mkPerf 0 0 0
  /\ AutoTrader.win_count st
     = (AutoTrader.wins (AutoTrader.perf_momentum ld)
        + AutoTrader.wins (AutoTrader.perf_dip_buying ld))%Z
  /\ AutoTrader.loss_count st
     = (AutoTrader.losses (AutoTrader.perf_momentum ld)
        + AutoTrader.losses (AutoTrader.perf_dip_buying ld))%Z
  /\ (0 <= AutoTrader.consecutive_losses st <= AutoTrader.loss_count st)%Z.
Proof.
  apply (closed_trades_are_attributed [(0.50, 0%nat); (0.55, 1%nat)]).
  constructor; [reflexivity|]. constructor; [reflexivity|constructor].
Defined.



